(** * Smart Travel Planning Assistant: the orchestrator, weather and
      currency servers, embedded and checked against their specification.

    Sources embedded here:
    - [build/travel-orchestrator.js]  (class SmartTravelOrchestrator)
    - [src/weather-server.ts]         (class TravelWeatherServer)
    - [src/currency-server.ts]        (class CurrencyExchangeServer)
    - [build/translation-server.js]   (class TranslationServer)
    - the Express server               (POST /api/compare-destinations)

    Conventions of the embedding.
    - A JavaScript [number] is taken as an exact rational ([Q]); NaN
      and the infinities are not numbers of the model, and the places
      where the code can produce them return [None] or a value of their
      own.  The rates of the currency trends, where rounding decides
      what can be said, are written over an interface [Js.Number] that is
      read both in exact rationals and in binary64.
    - A JavaScript string is a [string], its code units taken as bytes;
      [toLowerCase] folds A-Z to a-z and leaves every other unit alone.
    - [Math.random()] is an oracle [rng : nat -> Q], read through a call
      counter that is threaded through the code in the order in which the
      calls are made.
    - A [Date] is its time value, milliseconds since the epoch ([Z]),
      or Invalid Date where the code is given a text that does not
      parse.  A [Date] that [setDate] has moved is kept as the time value
      it started from and the number of days it was moved
      ([Js.MovedDate]): the day [toISOString] prints for it depends on
      the time zone of the host ([Js.toISODate]).
    - An [async] handler returns a [Js.Result]: it throws or it returns. *)

From Stdlib Require Import ZArith QArith Qround Qminmax Lia Lqa.
From Stdlib Require Import String Ascii List.
From Stdlib Require Import Sorting.Permutation Sorting.Sorted.
From Stdlib Require PrimFloat Uint63.
From stdpp Require Import gmap strings list.

Set Default Proof Using "Type".

(* ===================================================================== *)
(** * JavaScript built-ins used by the three servers                      *)
(* ===================================================================== *)

Module Js.

Local Open Scope Q_scope.

(** ** Numbers *)

(** [Math.round]: nearest integer, ties towards plus infinity. *)
Definition Math_round (x : Q) : Z := Qfloor (x + (1 # 2)).

Definition Math_floor (x : Q) : Z := Qfloor x.

Definition Math_ceil (x : Q) : Z := Qceiling x.

Definition Math_max (x y : Q) : Q := Qmax x y.

Definition Math_min (x y : Q) : Q := Qmin x y.

(** [!x] is false exactly on a non-zero number. *)
Definition truthy_number (x : Q) : bool := negb (Qeq_bool x 0).

(** [Array.prototype.reduce((sum, x) => sum + f(x), 0)]. *)
Definition reduce_sum {A : Type} (f : A -> Q) (xs : list A) : Q :=
  fold_left (fun sum x => sum + f x) xs 0.

(** ** Numbers, exact and rounded *)

(** The operations the currency trends use, over any carrier [N]:
    [num_lit q] is the number a decimal literal or a count denotes,
    [num_min] and [num_max] are [Math.min] and [Math.max] of two
    arguments, [num_le] is [<=]. *)
Class Number (N : Type) : Type := {
  num_lit : Q -> N;
  num_add : N -> N -> N;
  num_sub : N -> N -> N;
  num_mul : N -> N -> N;
  num_div : N -> N -> N;
  num_min : N -> N -> N;
  num_max : N -> N -> N;
  num_le : N -> N -> bool
}.

(** Exact rationals. *)
#[export] Instance exact_arithmetic : Number Q := {|
  num_lit := fun q => q;
  num_add := Qplus;
  num_sub := Qminus;
  num_mul := Qmult;
  num_div := Qdiv;
  num_min := Qmin;
  num_max := Qmax;
  num_le := Qle_bool
|}.

(** Binary64, the arithmetic the engine runs.  A literal [n/d] with
    whole [n] and [d] below 2^53 is the correctly rounded quotient of
    the two integers, which is the double nearest to the decimal. *)
Definition float_of_Z (z : Z) : PrimFloat.float :=
  if (z <? 0)%Z then PrimFloat.opp (PrimFloat.of_uint63 (Uint63.of_Z (- z)))
  else PrimFloat.of_uint63 (Uint63.of_Z z).

Definition float_min (a b : PrimFloat.float) : PrimFloat.float :=
  if PrimFloat.is_nan a then a
  else if PrimFloat.is_nan b then b
  else if PrimFloat.ltb b a then b else a.

Definition float_max (a b : PrimFloat.float) : PrimFloat.float :=
  if PrimFloat.is_nan a then a
  else if PrimFloat.is_nan b then b
  else if PrimFloat.ltb a b then b else a.

#[export] Instance binary64 : Number PrimFloat.float := {|
  num_lit := fun q =>
    PrimFloat.div (float_of_Z (Qnum q)) (float_of_Z (Zpos (Qden q)));
  num_add := PrimFloat.add;
  num_sub := PrimFloat.sub;
  num_mul := PrimFloat.mul;
  num_div := PrimFloat.div;
  num_min := float_min;
  num_max := float_max;
  num_le := PrimFloat.leb
|}.

(** ** Strings *)

Definition lower_char (c : ascii) : ascii :=
  let n := nat_of_ascii c in
  if (65 <=? n)%nat && (n <=? 90)%nat then ascii_of_nat (n + 32) else c.

Fixpoint toLowerCase (s : string) : string :=
  match s with
  | EmptyString => EmptyString
  | String c s' => String (lower_char c) (toLowerCase s')
  end.

(** [s.startsWith(p)], the one-position test inside [includes]. *)
Fixpoint startsWith (s p : string) {struct p} : bool :=
  match p, s with
  | EmptyString, _ => true
  | String a p', String b s' => Ascii.eqb a b && startsWith s' p'
  | String _ _, EmptyString => false
  end.

(** [s.includes(p)]: [p] occurs at some position of [s]. *)
Fixpoint includes (s p : string) : bool :=
  startsWith s p ||
  match s with
  | EmptyString => false
  | String _ s' => includes s' p
  end.

(** The empty string is falsy, every other string is truthy. *)
Definition truthy_string (s : string) : bool :=
  match s with
  | EmptyString => false
  | String _ _ => true
  end.

(** ** Objects used as maps *)

(** The names every object literal and every [JSON.parse]d object
    inherits from [Object.prototype].  [obj[key]] finds them when [obj]
    has no own property [key]. *)
Definition Object_prototype_keys : list string :=
  [ "constructor"; "hasOwnProperty"; "isPrototypeOf";
    "propertyIsEnumerable"; "toLocaleString"; "toString"; "valueOf";
    "__proto__"; "__defineGetter__"; "__defineSetter__";
    "__lookupGetter__"; "__lookupSetter__" ]%string.

(** What [obj[key]] evaluates to. *)
Inductive Lookup (V : Type) : Type :=
  | Own (v : V)              (* an own property of the literal *)
  | Inherited (key : string) (* a member of [Object.prototype], truthy *)
  | Undefined.

Arguments Own {V} v.
Arguments Inherited {V} key.
Arguments Undefined {V}.

Definition in_keys (key : string) (ks : list string) : bool :=
  existsb (String.eqb key) ks.

Definition get {V : Type} (own : gmap string V) (key : string) : Lookup V :=
  match own !! key with
  | Some v => Own v
  | None =>
      if in_keys key Object_prototype_keys then Inherited key else Undefined
  end.

(** ** Arrays *)

(** [Array.prototype.sort(cmp)].  ECMAScript requires the sort to be
    stable, so for a comparator that is a consistent ordering the result
    is the one stable sorted arrangement, whatever algorithm the engine
    runs; it is written here as an insertion sort.  [cmp a b <= 0] keeps
    [a] in front of [b]. *)
Fixpoint sort_insert {A : Type} (cmp : A -> A -> Z) (x : A) (l : list A)
  : list A :=
  match l with
  | [] => [x]
  | y :: l' => if (cmp x y <=? 0)%Z then x :: l else y :: sort_insert cmp x l'
  end.

Definition sort {A : Type} (cmp : A -> A -> Z) (l : list A) : list A :=
  fold_right (sort_insert cmp) [] l.

(** ** Math.random *)

(** A computation that draws from [Math.random()]: it receives the
    number of draws made so far and returns the number made after it. *)
Definition Rand (A : Type) : Type := nat -> A * nat.

Definition Math_random {N : Type} (rng : nat -> N) : Rand N :=
  fun k => (rng k, S k).

(** Runs [f] on the elements of [xs] from left to right. *)
Fixpoint each {A B : Type} (f : A -> Rand B) (xs : list A) : Rand (list B) :=
  fun k =>
    match xs with
    | [] => ([], k)
    | x :: xs' =>
        let '(y, k1) := f x k in
        let '(ys, k2) := each f xs' k1 in
        (y :: ys, k2)
    end.

(** ** Promise.all *)

(** The state of one [Promise.all] call: the [values] array with one slot
    per promise and the count of promises not yet fulfilled. *)
Record AllState (A : Type) : Type := {
  values : list (option A);
  remaining : nat
}.

Arguments values {A} _.
Arguments remaining {A} _.

(** Promise number [i] fulfils: its value goes to slot [i]. *)
Definition fulfil {A : Type} (results : list A) (st : AllState A) (i : nat)
  : AllState A :=
  match results !! i with
  | Some v => {| values := <[i := Some v]> (values st);
                 remaining := remaining st - 1 |}
  | None => st
  end.

Fixpoint collect {A : Type} (slots : list (option A)) : option (list A) :=
  match slots with
  | [] => Some []
  | Some v :: slots' =>
      match collect slots' with
      | Some vs => Some (v :: vs)
      | None => None
      end
  | None :: _ => None
  end.

(** [Promise.all] over promises that fulfil with [results], promise
    [i] with [results[i]], in the order [completion] (a list of promise
    numbers).  [None]: the returned promise is still pending. *)
Definition Promise_all {A : Type} (results : list A) (completion : list nat)
  : option (list A) :=
  let n := length results in
  let st := fold_left (fulfil results) completion
              {| values := replicate n None; remaining := n |} in
  if (remaining st =? 0)%nat then collect (values st) else None.

(** ** Dates *)

Definition ms_per_day : Z := 86400000.

(** The time zone of the host: [tz t isUTC] is the offset of local time
    from UTC in milliseconds (ECMAScript's LocalTZA), at the instant [t]
    when [isUTC] is set and at the local time [t] otherwise. *)
Definition TimeZone : Type := Z -> bool -> Z.

Definition LocalTime (tz : TimeZone) (t : Z) : Z := (t + tz t true)%Z.

Definition UTC (tz : TimeZone) (t : Z) : Z := (t - tz t false)%Z.

(** The Date [d] after [d = new Date(from); d.setDate(d.getDate() + by)]:
    the time value it was built from and the days it was moved by. *)
Record MovedDate : Type := {
  moved_from : Z;
  moved_by : Z
}.

(** Its time value: [setDate] takes the local time of [from], replaces
    the day of the month, which moves the local time by [by] whole
    days, and converts the result back to UTC. *)
Definition time_value (tz : TimeZone) (d : MovedDate) : Z :=
  UTC tz (LocalTime tz (moved_from d) + moved_by d * ms_per_day)%Z.

(** [d.toISOString().split('T')[0]], as the number of the day since the
    epoch: the UTC day of the time value. *)
Definition toISODate (tz : TimeZone) (d : MovedDate) : Z :=
  (time_value tz d / ms_per_day)%Z.

(** ** The HTTP client *)

(** How an [axios] request ends: it resolves with the response body or
    rejects with an error message. *)
Inductive HttpOutcome (D : Type) : Type :=
  | Resolved (data : D)
  | Rejected (message : string).

Arguments Resolved {D} data.
Arguments Rejected {D} message.

(** ** Errors *)

Inductive ErrorCode : Type :=
  | InvalidParams
  | InternalError
  | MethodNotFound.

(** What a handler throws: an [McpError], an error of the HTTP client
    ([axios.isAxiosError]), or any other exception ([TypeError],
    [SyntaxError]) which the handlers re-throw as it is. *)
Inductive Thrown : Type :=
  | McpError (code : ErrorCode) (message : string)
  | AxiosError (message : string)
  | OtherError (message : string).

(** The outcome of an [async] handler: it rejects or it resolves. *)
Inductive Result (A : Type) : Type :=
  | Throw (e : Thrown)
  | Return (a : A).

Arguments Throw {A} e.
Arguments Return {A} a.

#[export] Instance Result_ret : MRet Result := fun A a => Return a.

#[export] Instance Result_bind : MBind Result := fun A B k m =>
  match m with
  | Throw e => Throw e
  | Return a => k a
  end.

(** [try { body } catch (error) { handler }]. *)
Definition try_catch {A : Type} (body : Result A) (handler : Thrown -> Result A)
  : Result A :=
  match body with
  | Throw e => handler e
  | Return a => Return a
  end.

(** [try { body } catch (error) { return handler }] with a handler that
    does not throw. *)
Definition try_or {A : Type} (body : Result A) (handler : Thrown -> A) : A :=
  match body with
  | Throw e => handler e
  | Return a => a
  end.

End Js.

(* ===================================================================== *)
(** * build/travel-orchestrator.js                                        *)
(* ===================================================================== *)

Module Orchestrator.

Import Js.
Local Open Scope Q_scope.
Local Open Scope string_scope.

(** ** Data *)

Record CurrentWeather : Type := {
  cw_temp : Q;
  cw_conditions : string;
  cw_humidity : Q
}.

Record ForecastDay : Type := {
  fd_date : string;
  fd_temp : Q;
  fd_conditions : string
}.

Record WeatherForecast : Type := {
  current : CurrentWeather;
  forecast : list ForecastDay
}.

Record Flight : Type := {
  airline : string;
  flightNumber : string;
  departure : string;
  arrival : string;
  flight_price : Q;
  flight_duration : string
}.

Record Hotel : Type := {
  hotel_name : string;
  hotel_type : string;
  hotel_rating : Q;
  pricePerNight : Q;
  totalPrice : Q;
  amenities : list string
}.

Record Activity : Type := {
  activity_name : string;
  activity_type : string;
  activity_price : Q;
  activity_duration : string;
  activity_rating : Q
}.

(** A date argument: the text the caller sent and the time value
    [new Date(text).getTime()] of the calendar date it denotes. *)
Record DateArg : Type := {
  date_text : string;
  date_time : Z
}.

(** A date argument as [planTrip] receives it: a text that [new Date]
    parses, or a text it does not parse, for which [new Date] gives
    Invalid Date. *)
Inductive DateInput : Type :=
  | Parsed (date : DateArg)
  | Unparsed (text : string).

Record Preferences : Type := {
  weatherPreference : option string;
  activityTypes : option (list string);
  accommodationType : option string;
  transportationPreference : option string
}.

Record PlanTripArgs : Type := {
  pt_destination : string;
  pt_origin : option string;
  pt_startDate : DateInput;
  pt_endDate : DateInput;
  pt_budget : option Q;
  pt_travelers : option Q;
  pt_preferences : option Preferences
}.

Record Criteria : Type := {
  crit_budget : option Q;
  crit_weather : option string;
  crit_activities : option (list string)
}.

Record CompareArgs : Type := {
  cmp_destinations : list string;
  cmp_criteria : option Criteria
}.

(** The [recommendation] object of [planTrip]. *)
Record TripPlan : Type := {
  tp_destination : string;
  tp_weather : WeatherForecast;
  tp_flights : list Flight;
  tp_hotels : list Hotel;
  tp_activities : list Activity;
  tp_totalCost : Q;
  tp_currency : Lookup string;
  tp_language : Lookup string;
  tp_safetyRating : Q
}.

(** A hotel of [searchHotels] when the number of nights is NaN: its
    [totalPrice] is NaN too, and is printed as [null]. *)
Record UnpricedHotel : Type := {
  uh_name : string;
  uh_type : string;
  uh_rating : Q;
  uh_pricePerNight : Q;
  uh_amenities : list string
}.

(** The [recommendation] object when the number of nights is NaN:
    [totalCost], a sum over the hotels' prices, is NaN as well. *)
Record UnpricedPlan : Type := {
  up_destination : string;
  up_weather : WeatherForecast;
  up_flights : list Flight;
  up_hotels : list UnpricedHotel;
  up_activities : list Activity;
  up_currency : Lookup string;
  up_language : Lookup string;
  up_safetyRating : Q
}.

(** What [planTrip] prints. *)
Inductive Recommendation : Type :=
  | Priced (plan : TripPlan)
  | Unpriced (plan : UnpricedPlan).

(** One entry of the [comparisons] array of [compareDestinations]. *)
Record DestinationScore : Type := {
  ds_destination : string;
  ds_weather : CurrentWeather;
  averageHotelCost : Q;
  ds_safetyRating : Q;
  activityScore : nat;
  overallScore : Z
}.

Definition msPerDay : Z := (1000 * 60 * 60 * 24)%Z.

(** [x || fallback] on an optional string. *)
Definition or_string (x : option string) (fallback : string) : string :=
  match x with
  | Some s => if truthy_string s then s else fallback
  | None => fallback
  end.

(** [obj[key] || fallback] on an object literal of strings. *)
Definition or_lookup (x : Lookup string) (fallback : string) : Lookup string :=
  match x with
  | Own s => if truthy_string s then Own s else Own fallback
  | Inherited key => Inherited key
  | Undefined => Own fallback
  end.

(** ** Mock providers *)

Definition getWeatherForecast (destination : string)
    (startDate endDate : option string) : WeatherForecast :=
  {| current := {| cw_temp := 22; cw_conditions := "Sunny"; cw_humidity := 65 |};
     forecast :=
       [ {| fd_date := or_string startDate "2024-01-01"; fd_temp := 20;
            fd_conditions := "Partly Cloudy" |};
         {| fd_date := or_string endDate "2024-01-07"; fd_temp := 25;
            fd_conditions := "Clear" |} ] |}.

Definition searchFlights (origin : option string) (destination : string)
    (startDate endDate : string) (travelers : Q) : list Flight :=
  [ {| airline := "Example Airlines"; flightNumber := "EX123";
       departure := startDate; arrival := startDate;
       flight_price := 450 * travelers; flight_duration := "3h 30m" |};
    {| airline := "Sample Airways"; flightNumber := "SA456";
       departure := endDate; arrival := endDate;
       flight_price := 420 * travelers; flight_duration := "3h 15m" |} ].

Definition nights_between (startDate endDate : DateArg) : Z :=
  Math_ceil (inject_Z (date_time endDate - date_time startDate)
             / inject_Z msPerDay).

Definition searchHotels (destination : string) (startDate endDate : DateArg)
    (travelers : Q) (accommodationType : option string) : list Hotel :=
  let nights := inject_Z (nights_between startDate endDate) in
  [ {| hotel_name := "Grand Hotel Example";
       hotel_type := or_string accommodationType "hotel";
       hotel_rating := 45 # 10; pricePerNight := 150;
       totalPrice := 150 * nights;
       amenities := ["WiFi"; "Pool"; "Gym"; "Restaurant"] |};
    {| hotel_name := "Cozy Boutique Stay";
       hotel_type := or_string accommodationType "hotel";
       hotel_rating := 42 # 10; pricePerNight := 120;
       totalPrice := 120 * nights;
       amenities := ["WiFi"; "Breakfast"; "Spa"] |} ].

(** [searchHotels] when [new Date(startDate)] or [new Date(endDate)] is
    Invalid Date: [getTime()] is NaN, and so are [nights] and the two
    products [150 * nights] and [120 * nights]. *)
Definition searchHotels_unpriced (destination : string)
    (travelers : Q) (accommodationType : option string) : list UnpricedHotel :=
  [ {| uh_name := "Grand Hotel Example";
       uh_type := or_string accommodationType "hotel";
       uh_rating := 45 # 10; uh_pricePerNight := 150;
       uh_amenities := ["WiFi"; "Pool"; "Gym"; "Restaurant"] |};
    {| uh_name := "Cozy Boutique Stay";
       uh_type := or_string accommodationType "hotel";
       uh_rating := 42 # 10; uh_pricePerNight := 120;
       uh_amenities := ["WiFi"; "Breakfast"; "Spa"] |} ].

(** [searchHotels] on the date arguments as received. *)
Definition searchHotels_input (destination : string)
    (startDate endDate : DateInput) (travelers : Q)
    (accommodationType : option string) : list Hotel + list UnpricedHotel :=
  match startDate, endDate with
  | Parsed s, Parsed e =>
      inl (searchHotels destination s e travelers accommodationType)
  | _, _ => inr (searchHotels_unpriced destination travelers accommodationType)
  end.

Definition all_activities : list Activity :=
  [ {| activity_name := "City Walking Tour"; activity_type := "sightseeing";
       activity_price := 25; activity_duration := "3 hours";
       activity_rating := 48 # 10 |};
    {| activity_name := "Local Food Experience"; activity_type := "culinary";
       activity_price := 60; activity_duration := "2 hours";
       activity_rating := 49 # 10 |};
    {| activity_name := "Adventure Park"; activity_type := "adventure";
       activity_price := 45; activity_duration := "4 hours";
       activity_rating := 46 # 10 |} ].

(** [!activityTypes || activityTypes.length === 0 ||
     activityTypes.includes(activity.type)] *)
Definition activity_wanted (activityTypes : option (list string))
    (activity : Activity) : bool :=
  match activityTypes with
  | None => true
  | Some ts =>
      (length ts =? 0)%nat || existsb (String.eqb (activity_type activity)) ts
  end.

Definition getActivities (destination : string)
    (activityTypes : option (list string)) : list Activity :=
  List.filter (activity_wanted activityTypes) all_activities.

Definition currencyMap : gmap string string :=
  list_to_map
    [ ("Paris", "EUR"); ("London", "GBP"); ("Tokyo", "JPY");
      ("New York", "USD"); ("Sydney", "AUD") ].

Definition getCurrencyInfo (destination : string) : Lookup string :=
  or_lookup (get currencyMap destination) "USD".

Definition languageMap : gmap string string :=
  list_to_map
    [ ("Paris", "French"); ("London", "English"); ("Tokyo", "Japanese");
      ("New York", "English"); ("Sydney", "English") ].

Definition getLanguageInfo (destination : string) : Lookup string :=
  or_lookup (get languageMap destination) "Local Language".

Section Random.

Variable rng : nat -> Q.

(** [Math.floor(Math.random() * 2) + 4] *)
Definition getSafetyRating (destination : string) : Rand Q :=
  fun k =>
    let '(r, k1) := Math_random rng k in
    (inject_Z (Math_floor (r * 2)) + 4, k1).

(** [Math.floor(Math.random() * 100) + 100] *)
Definition getAverageHotelCost (destination : string) : Rand Q :=
  fun k =>
    let '(r, k1) := Math_random rng k in
    (inject_Z (Math_floor (r * 100)) + 100, k1).

End Random.

(** ** Cost calculator *)

Definition calculateTotalCost (flights : list Flight) (hotels : list Hotel)
    (activities : list Activity) (travelers : Q) : Q :=
  let flightCost := reduce_sum flight_price flights in
  let hotelCost := reduce_sum totalPrice hotels in
  let activityCost := reduce_sum activity_price activities * travelers in
  flightCost + hotelCost + activityCost.

(** ** Scoring engine *)

(** [criteria.weather &&
     weather.current.conditions.toLowerCase()
       .includes(criteria.weather.toLowerCase())] *)
Definition weather_matches (weather : WeatherForecast) (criteria : Criteria)
  : bool :=
  match crit_weather criteria with
  | None => false
  | Some w =>
      truthy_string w &&
      includes (toLowerCase (cw_conditions (current weather))) (toLowerCase w)
  end.

Definition calculateOverallScore (weather : WeatherForecast)
    (hotelCost safety : Q) (activities : list Activity) (criteria : Criteria)
  : Z :=
  let score := 0 in
  (* Weather score (0-30 points) *)
  let score := if weather_matches weather criteria then score + 30
               else score + 20 in
  (* Cost score (0-25 points) - lower cost is better *)
  let costScore := Math_max 0 (25 - hotelCost / 10) in
  let score := score + costScore in
  (* Safety score (0-25 points) *)
  let score := score + (safety / 5) * 25 in
  (* Activities score (0-20 points) *)
  let score := score + Math_min (inject_Z (Z.of_nat (length activities)) * 5) 20 in
  Math_round score.

(** ** Operations *)

Definition default_preferences : Preferences :=
  {| weatherPreference := None; activityTypes := None;
     accommodationType := None; transportationPreference := None |}.

Definition default_criteria : Criteria :=
  {| crit_budget := None; crit_weather := None; crit_activities := None |}.

(** The text of a date argument. *)
Definition input_text (d : DateInput) : string :=
  match d with
  | Parsed date => date_text date
  | Unparsed text => text
  end.

(** [new Date(d).getTime()]; [None] is NaN, the time value of Invalid
    Date. *)
Definition getTime (d : DateInput) : option Z :=
  match d with
  | Parsed date => Some (date_time date)
  | Unparsed _ => None
  end.

(** [a >= b] on two Dates compares their time values, and a comparison
    with NaN is false. *)
Definition date_ge (a b : DateInput) : bool :=
  match getTime a, getTime b with
  | Some x, Some y => (x >=? y)%Z
  | _, _ => false
  end.

Definition planTrip (rng : nat -> Q) (args : PlanTripArgs)
  : Rand (Result Recommendation) :=
  fun k =>
    let destination := pt_destination args in
    let startDate := pt_startDate args in
    let endDate := pt_endDate args in
    let travelers := default 1 (pt_travelers args) in
    let preferences := default default_preferences (pt_preferences args) in
    (* Validate dates *)
    if date_ge startDate endDate then
      (Throw (McpError InvalidParams "End date must be after start date"), k)
    else
      let weather := getWeatherForecast destination
                       (Some (input_text startDate))
                       (Some (input_text endDate)) in
      let flights := searchFlights (pt_origin args) destination
                       (input_text startDate) (input_text endDate) travelers in
      let hotels := searchHotels_input destination startDate endDate travelers
                      (accommodationType preferences) in
      let activities := getActivities destination (activityTypes preferences) in
      let currency := getCurrencyInfo destination in
      let language := getLanguageInfo destination in
      let '(safetyRating, k1) := getSafetyRating rng destination k in
      match hotels with
      | inl hotels =>
          let totalCost :=
            calculateTotalCost flights hotels activities travelers in
          (Return (Priced
                     {| tp_destination := destination; tp_weather := weather;
                        tp_flights := flights; tp_hotels := hotels;
                        tp_activities := activities; tp_totalCost := totalCost;
                        tp_currency := currency; tp_language := language;
                        tp_safetyRating := safetyRating |}), k1)
      | inr hotels =>
          (* calculateTotalCost: the hotel cost is a sum over NaN prices *)
          (Return (Unpriced
                     {| up_destination := destination; up_weather := weather;
                        up_flights := flights; up_hotels := hotels;
                        up_activities := activities;
                        up_currency := currency; up_language := language;
                        up_safetyRating := safetyRating |}), k1)
      end.

(** The object one branch of [destinations.map(async (dest) => ...)]
    returns, from the answers of the two randomised providers. *)
Definition comparison (criteria : Criteria) (dest : string) (avgHotelCost safety : Q)
  : DestinationScore :=
  let weather := getWeatherForecast dest None None in
  let activities := getActivities dest (crit_activities criteria) in
  {| ds_destination := dest;
     ds_weather := current weather;
     averageHotelCost := avgHotelCost;
     ds_safetyRating := safety;
     activityScore := length activities;
     overallScore :=
       calculateOverallScore weather avgHotelCost safety activities criteria |}.

(** The [comparisons] array before the sort.  The branches are started
    in input order and each one suspends at every [await]; no provider
    here waits on anything, so the branches resume in turn: every branch
    asks [getAverageHotelCost] before any branch asks
    [getSafetyRating].  [Promise.all] returns the branches' objects by
    position. *)
Definition comparisons (rng : nat -> Q) (args : CompareArgs)
  : Rand (list DestinationScore) :=
  fun k =>
    let destinations := cmp_destinations args in
    let criteria := default default_criteria (cmp_criteria args) in
    let '(costs, k1) := each (getAverageHotelCost rng) destinations k in
    let '(safeties, k2) := each (getSafetyRating rng) destinations k1 in
    (zip_with (fun dest cs => comparison criteria dest cs.1 cs.2)
       destinations (zip costs safeties), k2).

Definition compareDestinations (rng : nat -> Q) (args : CompareArgs)
  : Rand (list DestinationScore) :=
  fun k =>
    let '(cs, k1) := comparisons rng args k in
    (* Sort by overall score *)
    (sort (fun a b => (overallScore b - overallScore a)%Z) cs, k1).

End Orchestrator.

(* ===================================================================== *)
(** * src/weather-server.ts                                                *)
(* ===================================================================== *)

Module WeatherServer.

Import Js.
Local Open Scope Q_scope.
Local Open Scope string_scope.

(** The fields the server reads from an OpenWeatherMap [/weather] body:
    [main.temp], [weather[0].description], [main.humidity],
    [wind.speed]. *)
Record OwmCurrent : Type := {
  main_temp : Q;
  weather0_description : string;
  main_humidity : Q;
  wind_speed : Q
}.

(** A weather alert.  No code path builds one. *)
Record Alert : Type := {
  alert_event : string;
  alert_description : string
}.

Record AlertsResult : Type := {
  alerts : list Alert;
  message : string
}.

Record MockCurrent : Type := {
  mc_temp : Q;
  mc_conditions : option string;
  mc_humidity : Q;
  mc_windSpeed : Q
}.

(** [date] is the Date whose ISO date the code prints. *)
Record MockForecastDay : Type := {
  mf_date : MovedDate;
  mf_temp : Q;
  mf_conditions : option string
}.

Record MockWeather : Type := {
  mock_current : MockCurrent;
  mock_forecast : list MockForecastDay
}.

Record DateArg : Type := {
  date_text : string;
  date_time : Z
}.

Record CompareWeatherArgs : Type := {
  cw_destinations : list string;
  cw_date : option DateArg
}.

(** One element of the array [compareDestinationWeather] returns. *)
Inductive WeatherComparison : Type :=
  | WeatherReport (destination : string) (temperature : Q)
      (conditions : option string) (humidity windSpeed : Q)
  | WeatherError (destination : string) (error : string).

(** [entry.destination] *)
Definition entry_destination (entry : WeatherComparison) : string :=
  match entry with
  | WeatherReport destination _ _ _ _ => destination
  | WeatherError destination _ => destination
  end.

Definition msPerDay : Z := (1000 * 60 * 60 * 24)%Z.

(** [!API_KEY] is false when the variable is set to a non-empty text. *)
Definition key_configured (API_KEY : option string) : bool :=
  match API_KEY with
  | Some key => truthy_string key
  | None => false
  end.

Definition getWeatherAlerts (API_KEY : option string) (destination : string)
  : Result AlertsResult :=
  if negb (key_configured API_KEY) then
    Return {| alerts := []; message := "No active weather alerts" |}
  else
    try_catch
      (Return {| alerts := [];
                 message := "Weather alerts not available in free tier" |})
      (fun error =>
         match error with
         | AxiosError m =>
             Throw (McpError InternalError ("Weather alerts API error: " +:+ m))
         | _ => Throw error
         end).

Definition mockConditions : list string :=
  ["Sunny"; "Partly Cloudy"; "Cloudy"; "Light Rain"; "Clear"].

Section Random.

Variable rng : nat -> Q.

(** [mockConditions[Math.floor(Math.random() * mockConditions.length)]] *)
Definition random_condition : Rand (option string) :=
  fun k =>
    let '(r, k1) := Math_random rng k in
    let i := Math_floor (r * inject_Z (Z.of_nat (length mockConditions))) in
    ((if (0 <=? i)%Z then mockConditions !! Z.to_nat i else None), k1).

(** [for (let i = 0; i <= days; i++)], with [n] iterations left. *)
Fixpoint forecast_loop (n : nat) (i : Z) (start : Z) (baseTemp : Q)
  : Rand (list MockForecastDay) :=
  fun k =>
    match n with
    | O => ([], k)
    | S n' =>
        (* currentDate.setDate(start.getDate() + i) *)
        let currentDate := {| moved_from := start; moved_by := i |} in
        let '(r, k1) := Math_random rng k in
        let '(c, k2) := random_condition k1 in
        let day := {| mf_date := currentDate;
                      mf_temp := baseTemp + inject_Z (Math_floor (r * 10)) - 5;
                      mf_conditions := c |} in
        let '(rest, k3) := forecast_loop n' (i + 1)%Z start baseTemp k2 in
        (day :: rest, k3)
    end.

Definition getMockWeatherData (destination : string)
    (startDate endDate : option DateArg) : Rand MockWeather :=
  fun k =>
    let '(randomCondition, k1) := random_condition k in
    let '(r, k2) := Math_random rng k1 in
    let baseTemp := inject_Z (Math_floor (r * 15)) + 15 in
    let '(forecast, k3) :=
      match startDate, endDate with
      | Some s, Some e =>
          (* if (startDate && endDate) *)
          if truthy_string (date_text s) && truthy_string (date_text e) then
            let days := Math_ceil (inject_Z (date_time e - date_time s)
                                   / inject_Z msPerDay) in
            forecast_loop (Z.to_nat (days + 1)) 0 (date_time s) baseTemp k2
          else ([], k2)
      | _, _ => ([], k2)
      end in
    let '(r1, k4) := Math_random rng k3 in
    let '(r2, k5) := Math_random rng k4 in
    ({| mock_current :=
          {| mc_temp := baseTemp;
             mc_conditions := randomCondition;
             mc_humidity := inject_Z (Math_floor (r1 * 40)) + 40;
             mc_windSpeed := inject_Z (Math_floor (r2 * 20)) + 5 |};
        mock_forecast := forecast |}, k5).

(** The branch of one destination when no key is configured. *)
Definition mock_branch (date : option DateArg) (dest : string)
  : Rand WeatherComparison :=
  fun k =>
    let '(mockData, k1) := getMockWeatherData dest date date k in
    let c := mock_current mockData in
    (WeatherReport dest (mc_temp c) (mc_conditions c) (mc_humidity c)
       (mc_windSpeed c), k1).

End Random.

(** The branch of one destination when a key is configured, from the
    outcome of its [/weather] request; [Resolved None] is a body without
    the fields the code reads, on which the property access throws.
    [live_attempt] is the [try] block. *)
Definition live_attempt (outcome : HttpOutcome (option OwmCurrent))
    (dest : string) : Result WeatherComparison :=
  match outcome with
  | Rejected m => Throw (AxiosError m)
  | Resolved None => Throw (OtherError "TypeError")
  | Resolved (Some d) =>
      Return (WeatherReport dest (main_temp d)
                (Some (weather0_description d)) (main_humidity d)
                (wind_speed d))
  end.

Definition live_branch (outcome : HttpOutcome (option OwmCurrent))
    (dest : string) : WeatherComparison :=
  try_or (live_attempt outcome dest)
    (fun error => WeatherError dest "Unable to fetch weather data").

(** The objects the branches return, by position. *)
Definition weather_branches (API_KEY : option string)
    (weatherApi : nat -> string -> HttpOutcome (option OwmCurrent))
    (rng : nat -> Q) (args : CompareWeatherArgs)
  : Rand (list WeatherComparison) :=
  fun k =>
    if negb (key_configured API_KEY) then
      each (mock_branch rng (cw_date args)) (cw_destinations args) k
    else
      (imap (fun i dest => live_branch (weatherApi i dest) dest)
         (cw_destinations args), k).

(** [weatherApi i dest] is how the request of branch [i] ends;
    [completion] is the order in which the branches finish. *)
Definition compareDestinationWeather (API_KEY : option string)
    (weatherApi : nat -> string -> HttpOutcome (option OwmCurrent))
    (rng : nat -> Q) (completion : list nat) (args : CompareWeatherArgs)
  : Rand (option (list WeatherComparison)) :=
  fun k =>
    let '(branches, k1) := weather_branches API_KEY weatherApi rng args k in
    (Promise_all branches completion, k1).

(** ** get_travel_weather *)

(** One element of [data.list] of a [/forecast] body: [dt_txt] with the
    time value [new Date(dt_txt)] gives it, [main.temp] and
    [weather[0].description]. *)
Record OwmForecastItem : Type := {
  dt_txt : DateArg;
  item_temp : Q;
  item_description : string
}.

Record ForecastEntry : Type := {
  fe_date : string;
  fe_temp : Q;
  fe_conditions : string
}.

Record WeatherData : Type := {
  wd_temperature : Q;
  wd_conditions : string;
  wd_humidity : Q;
  wd_windSpeed : Q;
  wd_forecast : list ForecastEntry
}.

Record TravelWeatherArgs : Type := {
  tw_destination : string;
  tw_startDate : option DateArg;
  tw_endDate : option DateArg;
  tw_units : option string
}.

(** What [getTravelWeather] prints: the mock object or the live one. *)
Inductive TravelWeather : Type :=
  | MockData (data : MockWeather)
  | LiveData (data : WeatherData).

(** [s.split(' ')[0]] *)
Fixpoint before_space (s : string) : string :=
  match s with
  | EmptyString => EmptyString
  | String c s' =>
      if Ascii.eqb c " " then EmptyString else String c (before_space s')
  end.

Definition processForecastData (items : list OwmForecastItem)
    (startDate endDate : DateArg) : list ForecastEntry :=
  let start := date_time startDate in
  let end_ := date_time endDate in
  map (fun item =>
         {| fe_date := before_space (date_text (dt_txt item));
            fe_temp := item_temp item;
            fe_conditions := item_description item |})
    (List.filter
       (fun item =>
          let itemDate := date_time (dt_txt item) in
          (itemDate >=? start)%Z && (itemDate <=? end_)%Z)
       items).

(** [currentApi q units] and [forecastApi q units] are how the two
    requests end; [Resolved None] is a body without the fields the code
    reads.  The forecast is requested after the current weather has
    arrived and before its fields are read. *)
Definition getTravelWeather (API_KEY : option string)
    (currentApi : string -> string -> HttpOutcome (option OwmCurrent))
    (forecastApi :
       string -> string -> HttpOutcome (option (list OwmForecastItem)))
    (rng : nat -> Q) (args : TravelWeatherArgs)
  : Rand (Result TravelWeather) :=
  fun k =>
    let destination := tw_destination args in
    let startDate := tw_startDate args in
    let endDate := tw_endDate args in
    let units := default "metric" (tw_units args) in
    if negb (key_configured API_KEY) then
      let '(data, k1) := getMockWeatherData rng destination startDate endDate k in
      (Return (MockData data), k1)
    else
      (try_catch
         (match currentApi destination units with
          | Rejected m => Throw (AxiosError m)
          | Resolved currentResponse =>
              forecast ←
                match startDate, endDate with
                | Some s, Some e =>
                    if truthy_string (date_text s) && truthy_string (date_text e)
                    then
                      match forecastApi destination units with
                      | Rejected m => Throw (AxiosError m)
                      | Resolved None => Throw (OtherError "TypeError")
                      | Resolved (Some items) =>
                          Return (processForecastData items s e)
                      end
                    else Return []
                | _, _ => Return []
                end;
              match currentResponse with
              | None => Throw (OtherError "TypeError")
              | Some d =>
                  Return (LiveData
                            {| wd_temperature := main_temp d;
                               wd_conditions := weather0_description d;
                               wd_humidity := main_humidity d;
                               wd_windSpeed := wind_speed d;
                               wd_forecast := forecast |})
              end
          end)
         (fun error =>
            match error with
            | AxiosError m =>
                Throw (McpError InternalError ("Weather API error: " +:+ m))
            | _ => Throw error
            end), k).

End WeatherServer.

(* ===================================================================== *)
(** * src/currency-server.ts                                               *)
(* ===================================================================== *)

Module CurrencyServer.

Import Js.
Local Open Scope Q_scope.
Local Open Scope string_scope.

Record CurrencyInfo : Type := {
  code : string;
  name : string;
  symbol : string;
  country : string
}.

(** [rate] is what [response.data.rates[to]] evaluated to. *)
Record ExchangeRate : Type := {
  er_from : string;
  er_to : string;
  er_rate : Lookup Q;
  er_timestamp : Z
}.

Record ConvertArgs : Type := {
  cc_from : string;
  cc_to : string;
  cc_amount : option Q
}.

(** The object [convertCurrency] prints; [convertedAmount] is [None]
    where [amount * rate] is not a number. *)
Record Conversion : Type := {
  exchangeRate : ExchangeRate;
  convertedAmount : option Q;
  originalAmount : Q
}.

Record BudgetArgs : Type := {
  bc_budget : Q;
  bc_homeCurrency : option string;
  bc_destinations : list string
}.

(** One element of the array [getTravelBudgetConversion] returns.
    [localCurrency] is [None] for the object without properties, and
    [exchangeRate] is [None] where the printed quote carries no rate. *)
Inductive BudgetConversion : Type :=
  | BudgetInLocal (destination : string) (localCurrency : option CurrencyInfo)
      (budgetInLocalCurrency : option Q) (exchangeRate : option Q)
  | BudgetError (destination : string) (error : string).

(** [entry.destination] *)
Definition entry_destination (entry : BudgetConversion) : string :=
  match entry with
  | BudgetInLocal destination _ _ _ => destination
  | BudgetError destination _ => destination
  end.

Record TrendsArgs : Type := {
  tr_from : string;
  tr_to : string;
  tr_days : option Z
}.

(** [date] is the Date whose ISO date the code prints; the rates are
    numbers of the arithmetic [N]. *)
Record TrendPoint (N : Type) : Type := {
  tp_date : MovedDate;
  tp_rate : N
}.

Arguments Build_TrendPoint {N} _ _.
Arguments tp_date {N} _.
Arguments tp_rate {N} _.

(** The aggregates are [None] where the code computes no finite number
    (on an empty [trends]: 0/0, [Math.min()], [Math.max()]). *)
Record Trends (N : Type) : Type := {
  t_from : string;
  t_to : string;
  t_days : Z;
  trends : list (TrendPoint N);
  averageRate : option N;
  minRate : option N;
  maxRate : option N
}.

Arguments Build_Trends {N} _ _ _ _ _ _ _.
Arguments t_from {N} _.
Arguments t_to {N} _.
Arguments t_days {N} _.
Arguments trends {N} _.
Arguments averageRate {N} _.
Arguments minRate {N} _.
Arguments maxRate {N} _.

Definition msPerDay : Z := (1000 * 60 * 60 * 24)%Z.

(** ** convert_currency *)

(** Truth value of [rates[to]]. *)
Definition truthy_rate (rate : Lookup Q) : bool :=
  match rate with
  | Own q => truthy_number q
  | Inherited _ => true
  | Undefined => false
  end.

(** [amount * rate]: a number only when [rate] is one. *)
Definition times (amount : Q) (rate : Lookup Q) : option Q :=
  match rate with
  | Own q => Some (amount * q)
  | Inherited _ => None
  | Undefined => None
  end.

(** [api base] is how [GET /base] ends: [Resolved (Some rates)] with the
    own properties of [response.data.rates], [Resolved None] with a body
    that has no [rates].  [now] is the clock. *)
Definition convertCurrency
    (api : string -> HttpOutcome (option (gmap string Q))) (now : Z)
    (args : ConvertArgs) : Result Conversion :=
  let from := cc_from args in
  let to := cc_to args in
  let amount := default 1 (cc_amount args) in
  try_catch
    (match api from with
     | Rejected m => Throw (AxiosError m)
     | Resolved None => Throw (OtherError "TypeError")
     | Resolved (Some rates) =>
         let rate := get rates to in
         if negb (truthy_rate rate) then
           Throw (McpError InvalidParams
                    ("Exchange rate not available for " +:+ from +:+ " to "
                     +:+ to))
         else
           Return {| exchangeRate := {| er_from := from; er_to := to;
                                        er_rate := rate;
                                        er_timestamp := now |};
                     convertedAmount := times amount rate;
                     originalAmount := amount |}
     end)
    (fun error =>
       match error with
       | AxiosError m =>
           Throw (McpError InternalError
                    ("Currency conversion error: " +:+ m))
       | _ => Throw error
       end).

(** ** get_destination_currency *)

Definition destinationCurrencies : gmap string CurrencyInfo :=
  list_to_map
    [ ("Paris", {| code := "EUR"; name := "Euro"; symbol := "€";
                   country := "France" |});
      ("London", {| code := "GBP"; name := "British Pound"; symbol := "£";
                    country := "United Kingdom" |});
      ("Tokyo", {| code := "JPY"; name := "Japanese Yen"; symbol := "¥";
                   country := "Japan" |});
      ("New York", {| code := "USD"; name := "US Dollar"; symbol := "$";
                      country := "United States" |});
      ("Sydney", {| code := "AUD"; name := "Australian Dollar"; symbol := "A$";
                    country := "Australia" |});
      ("Bangkok", {| code := "THB"; name := "Thai Baht"; symbol := "฿";
                     country := "Thailand" |});
      ("Dubai", {| code := "AED"; name := "UAE Dirham"; symbol := "د.إ";
                   country := "UAE" |});
      ("Singapore", {| code := "SGD"; name := "Singapore Dollar";
                       symbol := "S$"; country := "Singapore" |}) ].

Definition default_currency : CurrencyInfo :=
  {| code := "USD"; name := "US Dollar"; symbol := "$"; country := "Unknown" |}.

(** The value of [currencyInfo], which the handler prints with
    [JSON.stringify]: [destinationCurrencies[destination] || default]. *)
Definition getDestinationCurrency (destination : string) : Lookup CurrencyInfo :=
  match get destinationCurrencies destination with
  | Own info => Own info
  | Inherited key => Inherited key
  | Undefined => Own default_currency
  end.

(** ** get_travel_budget_conversion *)

(** [JSON.parse(JSON.stringify(currencyInfo))] for the values
    [getDestinationCurrency] can produce: a record comes back as it is;
    [Object.prototype] (reached through [__proto__]) prints as an object
    without properties; the inherited methods print as [undefined],
    which [JSON.parse] rejects. *)
Definition reparse_currency (v : Lookup CurrencyInfo)
  : Result (option CurrencyInfo) :=
  match v with
  | Own info => Return (Some info)
  | Inherited key =>
      if String.eqb key "__proto__" then Return None
      else Throw (OtherError "SyntaxError")
  | Undefined => Throw (OtherError "SyntaxError")
  end.

(** [currencyInfo.code] as a property key. *)
Definition code_of (info : option CurrencyInfo) : string :=
  match info with
  | Some i => code i
  | None => "undefined"
  end.

(** [rateInfo.exchangeRate.rate] after the quote went through
    [JSON.stringify] and [JSON.parse]. *)
Definition reparse_rate (rate : Lookup Q) : option Q :=
  match rate with
  | Own q => Some q
  | Inherited _ => None
  | Undefined => None
  end.

(** The [try] block of one destination's branch. *)
Definition budget_attempt
    (api : string -> HttpOutcome (option (gmap string Q))) (now : Z)
    (budget : Q) (homeCurrency : string) (dest : string)
  : Result BudgetConversion :=
  currencyInfo ← reparse_currency (getDestinationCurrency dest);
  rateInfo ← convertCurrency api now
               {| cc_from := homeCurrency; cc_to := code_of currencyInfo;
                  cc_amount := Some budget |};
  mret (BudgetInLocal dest currencyInfo (convertedAmount rateInfo)
          (reparse_rate (er_rate (exchangeRate rateInfo)))).

Definition budget_branch
    (api : string -> HttpOutcome (option (gmap string Q))) (now : Z)
    (budget : Q) (homeCurrency : string) (dest : string) : BudgetConversion :=
  try_or (budget_attempt api now budget homeCurrency dest)
    (fun error => BudgetError dest "Unable to convert currency").

(** [exchangeApi i] answers the requests of branch [i]; [completion] is
    the order in which the branches finish. *)
Definition getTravelBudgetConversion
    (exchangeApi : nat -> string -> HttpOutcome (option (gmap string Q)))
    (now : Z) (completion : list nat) (args : BudgetArgs)
  : option (list BudgetConversion) :=
  let budget := bc_budget args in
  let homeCurrency := default "USD" (bc_homeCurrency args) in
  Promise_all
    (imap (fun i dest => budget_branch (exchangeApi i) now budget homeCurrency dest)
       (bc_destinations args))
    completion.

(** ** get_currency_trends *)

Section Random.

Context {N : Type} {arithmetic : Number N}.

(** [Math.min(...xs)] and [Math.max(...xs)]. *)
Definition min_of (xs : list N) : option N :=
  match xs with
  | [] => None
  | x :: xs' => Some (fold_left num_min xs' x)
  end.

Definition max_of (xs : list N) : option N :=
  match xs with
  | [] => None
  | x :: xs' => Some (fold_left num_max xs' x)
  end.

(** [trends.reduce((sum, item) => sum + item.rate, 0)] *)
Definition sum_of_rates (trends : list (TrendPoint N)) : N :=
  fold_left (fun sum item => num_add sum (tp_rate item)) trends
    (num_lit 0).

(** [trends.reduce((sum, item) => sum + item.rate, 0) / trends.length] *)
Definition average_rate (trends : list (TrendPoint N)) : option N :=
  match trends with
  | [] => None
  | _ :: _ => Some (num_div (sum_of_rates trends)
                      (num_lit (inject_Z (Z.of_nat (length trends)))))
  end.

Variable rng : nat -> N.

(** [for (let i = days - 1; i >= 0; i--)], entered with [n = i + 1]. *)
Fixpoint trends_loop (n : nat) (today : Z) (trends : list (TrendPoint N))
  : Rand (list (TrendPoint N)) :=
  fun k =>
    match n with
    | O => (trends, k)
    | S i =>
        (* date.setDate(date.getDate() - i) *)
        let date := {| moved_from := today; moved_by := - Z.of_nat i |} in
        let '(r1, k1) := Math_random rng k in
        let baseRate :=
          num_add (num_lit (85 # 100)) (num_mul r1 (num_lit (3 # 10))) in
        let '(r2, k2) := Math_random rng k1 in
        let variation :=
          num_mul (num_sub r2 (num_lit (5 # 10))) (num_lit (1 # 10)) in
        trends_loop i today
          (trends ++ [ {| tp_date := date;
                          tp_rate := num_add baseRate variation |} ]) k2
    end.

(** [today] is the clock, [new Date()]; [days] is taken as a whole
    number. *)
Definition getCurrencyTrends (today : Z) (args : TrendsArgs)
  : Rand (Trends N) :=
  fun k =>
    let days := default 30%Z (tr_days args) in
    let '(trends, k1) := trends_loop (Z.to_nat days) today [] k in
    ({| t_from := tr_from args; t_to := tr_to args; t_days := days;
        trends := trends;
        averageRate := average_rate trends;
        minRate := min_of (map tp_rate trends);
        maxRate := max_of (map tp_rate trends) |}, k1).

End Random.

End CurrencyServer.

(* ===================================================================== *)
(** * build/translation-server.js                                         *)
(* ===================================================================== *)

Module TranslationServer.

Import Js.
Local Open Scope Q_scope.
Local Open Scope string_scope.

(** [toUpperCase], on the same terms as [toLowerCase]. *)
Definition upper_char (c : ascii) : ascii :=
  let n := nat_of_ascii c in
  if (97 <=? n)%nat && (n <=? 122)%nat then ascii_of_nat (n - 32) else c.

Fixpoint toUpperCase (s : string) : string :=
  match s with
  | EmptyString => EmptyString
  | String c s' => String (upper_char c) (toUpperCase s')
  end.

(** An object literal whose properties are read in the order in which
    they are written ([Object.entries]). *)
Definition own_entry {V : Type} (obj : list (string * V)) (key : string)
  : option V :=
  snd <$> List.find (fun kv => String.eqb kv.1 key) obj.

Definition get_ordered {V : Type} (obj : list (string * V)) (key : string)
  : Lookup V :=
  match own_entry obj key with
  | Some v => Own v
  | None =>
      if in_keys key Object_prototype_keys then Inherited key else Undefined
  end.

(** [translatedText] is a text or, where the lookup ran into a member of
    [Object.prototype], that member. *)
Record MockTranslation : Type := {
  originalText : string;
  translatedText : Lookup string;
  sourceLanguage : string;
  targetLanguage : string;
  confidence : Q
}.

Record TravelPhrasesArgs : Type := {
  ph_language : string;
  ph_category : option string
}.

Record TravelPhrases : Type := {
  tp_language : string;
  tp_category : string;
  tp_phrases : list (string * Lookup string)
}.

Record DestinationInfoArgs : Type := {
  di_destination : string;
  di_targetLanguage : string;
  di_contentType : option string
}.

Record DestinationInfo : Type := {
  info_destination : string;
  info_targetLanguage : string;
  info_contentType : string;
  info_originalText : string;
  info_translatedText : Lookup string
}.

Definition mockTranslations : gmap string (gmap string string) :=
  list_to_map
    [ ("es", list_to_map
               [ ("Hello", "Hola"); ("Thank you", "Gracias");
                 ("Please", "Por favor"); ("Excuse me", "Disculpe");
                 ("Sorry", "Lo siento"); ("Yes", "Sí"); ("No", "No");
                 ("Goodbye", "Adiós") ]);
      ("fr", list_to_map
               [ ("Hello", "Bonjour"); ("Thank you", "Merci");
                 ("Please", "S'il vous plaît"); ("Excuse me", "Excusez-moi");
                 ("Sorry", "Désolé"); ("Yes", "Oui"); ("No", "Non");
                 ("Goodbye", "Au revoir") ]);
      ("de", list_to_map
               [ ("Hello", "Hallo"); ("Thank you", "Danke");
                 ("Please", "Bitte"); ("Excuse me", "Entschuldigung");
                 ("Sorry", "Es tut mir leid"); ("Yes", "Ja"); ("No", "Nein");
                 ("Goodbye", "Auf Wiedersehen") ]);
      ("ja", list_to_map
               [ ("Hello", "こんにちは"); ("Thank you", "ありがとう");
                 ("Please", "お願いします"); ("Excuse me", "すみません");
                 ("Sorry", "ごめんなさい"); ("Yes", "はい"); ("No", "いいえ");
                 ("Goodbye", "さようなら") ]) ].

(** The fallback text [`[${targetLanguage.toUpperCase()}] ${text}`]. *)
Definition bracketed (targetLanguage text : string) : string :=
  "[" +:+ toUpperCase targetLanguage +:+ "] " +:+ text.

(** [inner[text] || fallback] *)
Definition or_text (x : Lookup string) (fallback : string) : Lookup string :=
  match x with
  | Own s => if truthy_string s then Own s else Own fallback
  | Inherited key => Inherited key
  | Undefined => Own fallback
  end.

(** [None] where [mockTranslations[targetLanguage]] is a member of
    [Object.prototype]: the translation is then a property of that
    runtime object, which this development does not describe. *)
Definition getMockTranslation (text targetLanguage : string)
    (sourceLanguage : option string) : option MockTranslation :=
  let result translation :=
    {| originalText := text;
       translatedText := translation;
       sourceLanguage :=
         match sourceLanguage with
         | Some s => if truthy_string s then s else "en"
         | None => "en"
         end;
       targetLanguage := targetLanguage;
       confidence := 95 # 100 |} in
  match get mockTranslations targetLanguage with
  | Own inner =>
      Some (result (or_text (get inner text) (bracketed targetLanguage text)))
  | Undefined => Some (result (Own (bracketed targetLanguage text)))
  | Inherited _ => None
  end.

Definition mockTranslate (text targetLanguage : string)
  : option (Lookup string) :=
  translatedText <$> getMockTranslation text targetLanguage None.

Definition phrases : list (string * list (string * string)) :=
  [ ("basic",
     [ ("hello", "Hello"); ("thank_you", "Thank you"); ("please", "Please");
       ("excuse_me", "Excuse me"); ("sorry", "Sorry"); ("yes", "Yes");
       ("no", "No"); ("goodbye", "Goodbye") ]);
    ("emergency",
     [ ("help", "Help"); ("emergency", "Emergency"); ("hospital", "Hospital");
       ("police", "Police"); ("fire", "Fire"); ("doctor", "Doctor");
       ("medicine", "Medicine") ]);
    ("food",
     [ ("menu", "Menu"); ("water", "Water"); ("coffee", "Coffee");
       ("tea", "Tea"); ("bread", "Bread"); ("vegetarian", "Vegetarian");
       ("allergic", "Allergic"); ("bill", "Bill") ]);
    ("transport",
     [ ("taxi", "Taxi"); ("bus", "Bus"); ("train", "Train");
       ("airport", "Airport"); ("station", "Station"); ("ticket", "Ticket");
       ("left", "Left"); ("right", "Right") ]);
    ("accommodation",
     [ ("hotel", "Hotel"); ("room", "Room"); ("bathroom", "Bathroom");
       ("key", "Key"); ("reservation", "Reservation");
       ("check_in", "Check in"); ("check_out", "Check out") ]) ].

Definition basic_phrases : list (string * string) :=
  default [] (own_entry phrases "basic").

(** [Object.entries(phrases[category] || phrases.basic)]; a member of
    [Object.prototype] has no enumerable property of its own. *)
Definition category_entries (category : string) : list (string * string) :=
  match get_ordered phrases category with
  | Own entries => entries
  | Inherited _ => []
  | Undefined => basic_phrases
  end.

(** [forEach(([key, value]) => translatedPhrases[key] = ...)] *)
Fixpoint translate_entries (language : string)
    (entries : list (string * string))
  : option (list (string * Lookup string)) :=
  match entries with
  | [] => Some []
  | (key, value) :: rest =>
      match mockTranslate value language, translate_entries language rest with
      | Some t, Some ts => Some ((key, t) :: ts)
      | _, _ => None
      end
  end.

Definition getTravelPhrases (args : TravelPhrasesArgs)
  : option TravelPhrases :=
  let language := ph_language args in
  let category := default "basic" (ph_category args) in
  translatedPhrases ← translate_entries language (category_entries category);
  Some {| tp_language := language; tp_category := category;
          tp_phrases := translatedPhrases |}.

Definition contentTemplates (destination : string) : gmap string string :=
  list_to_map
    [ ("guide", "Welcome to " +:+ destination
                +:+ ". This beautiful destination offers amazing experiences for travelers.");
      ("menu", "Local cuisine in " +:+ destination
               +:+ " features traditional dishes and fresh ingredients.");
      ("signs", "Important signs and directions in " +:+ destination
                +:+ " for tourists.");
      ("emergency", "Emergency contacts and procedures in " +:+ destination
                    +:+ ".");
      ("customs", "Local customs and etiquette guidelines for "
                  +:+ destination +:+ ".") ].

Definition guide_template (destination : string) : string :=
  "Welcome to " +:+ destination
  +:+ ". This beautiful destination offers amazing experiences for travelers.".

(** [None] where [contentTemplates[contentType]] or the language lookup
    is a member of [Object.prototype]. *)
Definition translateDestinationInfo (args : DestinationInfoArgs)
  : option DestinationInfo :=
  let destination := di_destination args in
  let targetLanguage := di_targetLanguage args in
  let contentType := default "guide" (di_contentType args) in
  template ←
    match get (contentTemplates destination) contentType with
    | Own t => Some (if truthy_string t then t else guide_template destination)
    | Undefined => Some (guide_template destination)
    | Inherited _ => None
    end;
  translatedContent ← mockTranslate template targetLanguage;
  Some {| info_destination := destination;
          info_targetLanguage := targetLanguage;
          info_contentType := contentType;
          info_originalText := template;
          info_translatedText := translatedContent |}.

End TranslationServer.

(* ===================================================================== *)
(** * The HTTP front end (the Express server)                              *)
(* ===================================================================== *)

Module HttpApi.

Import Js.
Local Open Scope Q_scope.
Local Open Scope string_scope.

(** One element of the body of [POST /api/compare-destinations]. *)
Record Comparison : Type := {
  destination : string;
  weather_temp : Q;
  weather_conditions : string;
  averageHotelCost : Q;
  safetyRating : Q;
  activityScore : Q;
  overallScore : Q
}.

(** [destinations.map((dest, index) => ({...}))], from [index] on. *)
Fixpoint mockComparisons (rng : nat -> Q) (destinations : list string)
    (index : nat) : Rand (list Comparison) :=
  fun k =>
    match destinations with
    | [] => ([], k)
    | dest :: rest =>
        let i := inject_Z (Z.of_nat index) in
        let '(r, k1) := Math_random rng k in
        let entry := {| destination := dest;
                        weather_temp := 20 + i * 2;
                        weather_conditions := "Sunny";
                        averageHotelCost := 100 + i * 25;
                        safetyRating := 4 + r;
                        activityScore := 5 + i;
                        overallScore := 80 + i * 5 |} in
        let '(entries, k2) := mockComparisons rng rest (S index) k1 in
        (entry :: entries, k2)
    end.

(** The handler of [POST /api/compare-destinations]; the criteria of the
    request body are read and not used. *)
Definition compareDestinations (rng : nat -> Q) (destinations : list string)
    (criteria : option (list string)) : Rand (list Comparison) :=
  mockComparisons rng destinations 0.

End HttpApi.

(* ===================================================================== *)
(** * The specification's vocabulary                                      *)
(* ===================================================================== *)

Module Spec.

Import Js Orchestrator.
Local Open Scope Q_scope.




(** The sum of [f] over a list. *)
Fixpoint sum {A : Type} (f : A -> Q) (xs : list A) : Q :=
  match xs with
  | [] => 0
  | x :: xs' => f x + sum f xs'
  end.

(** The four terms of the score. *)
Definition cost_term (hotelCost : Q) : Q := Qmax 0 (25 - hotelCost / 10).

Definition safety_term (safetyRating : Q) : Q := (safetyRating / 5) * 25.

Definition activity_term (activityCount : nat) : Q :=
  Qmin (inject_Z (Z.of_nat activityCount) * 5) 20.




(** The comparator [(a, b) => key(b) - key(a)]: larger keys first. *)
Definition by_key_desc {A : Type} (key : A -> Z) (a b : A) : Z :=
  (key b - key a)%Z.

(** [a] may stand in front of [b] in descending order of [key]. *)
Definition desc {A : Type} (key : A -> Z) (a b : A) : Prop :=
  (key b <= key a)%Z.

(** [m] is the least (the greatest) of the numbers [xs]. *)
Definition is_minimum (m : Q) (xs : list Q) : Prop :=
  In m xs /\ forall x, In x xs -> m <= x.

Definition is_maximum (m : Q) (xs : list Q) : Prop :=
  In m xs /\ forall x, In x xs -> x <= m.

(** [a] is the mean of the numbers [xs]. *)
Definition is_mean (a : Q) (xs : list Q) : Prop :=
  a * inject_Z (Z.of_nat (length xs)) == sum id xs.

(** Every draw of the random source lies in [0, 1), as [Math.random]
    promises. *)
Definition unit_interval (rng : nat -> Q) : Prop :=
  forall k, 0 <= rng k < 1.

(** The activity is of a requested type, or no type was requested. *)
Definition wanted (activityTypes : option (list string)) (a : Activity)
  : Prop :=
  match activityTypes with
  | None => True
  | Some [] => True
  | Some ts => In (activity_type a) ts
  end.

(** From a day before the instant [lo] to a day after the instant [hi]
    the host keeps one offset from UTC, of a day at most: no change to or
    from daylight saving time and no change of zone falls in that
    time. *)
Definition steady_offset (tz : TimeZone) (lo hi : Z) : Prop :=
  exists c,
    (- ms_per_day <= c <= ms_per_day)%Z
    /\ forall t isUTC,
         (lo - ms_per_day <= t <= hi + ms_per_day)%Z -> tz t isUTC = c.

(** The days [first], [first + 1], ..., [n] of them. *)
Definition consecutive_days (first : Z) (n : nat) : list Z :=
  map (fun j => (first + Z.of_nat j)%Z) (seq 0 n).

(** The ISO dates a list of trend points prints on a host in the zone
    [tz], as day numbers. *)
Definition printed_days {N : Type} (tz : TimeZone)
    (trends : list (CurrencyServer.TrendPoint N)) : list Z :=
  map (fun p => toISODate tz (CurrencyServer.tp_date p)) trends.

(** What the specification says of a [get_currency_trends] answer for 30
    days, on a host in the zone [tz] whose clock reads [today]: 30
    entries, dates that ascend and end on today's date, and
    [minRate <= averageRate <= maxRate]. *)
Definition trends_as_specified {N : Type} {arithmetic : Number N}
    (tz : TimeZone) (today : Z) (result : CurrencyServer.Trends N) : Prop :=
  length (CurrencyServer.trends result) = 30%nat
  /\ StronglySorted Z.lt (printed_days tz (CurrencyServer.trends result))
  /\ last (printed_days tz (CurrencyServer.trends result))
     = Some (today / ms_per_day)%Z
  /\ exists mn av mx,
       CurrencyServer.minRate result = Some mn
       /\ CurrencyServer.averageRate result = Some av
       /\ CurrencyServer.maxRate result = Some mx
       /\ num_le mn av = true /\ num_le av mx = true.

(** The same entry with ten points more. *)
Definition ten_more (d : DestinationScore) : DestinationScore :=
  {| ds_destination := ds_destination d;
     ds_weather := ds_weather d;
     averageHotelCost := averageHotelCost d;
     ds_safetyRating := ds_safetyRating d;
     activityScore := activityScore d;
     overallScore := (overallScore d + 10)%Z |}.

(** The criteria ask for weather that the orchestrator's forecast, whose
    conditions always read "Sunny", matches. *)
Definition asks_for_sunny (criteria : Criteria) : bool :=
  weather_matches (getWeatherForecast EmptyString None None) criteria.

End Spec.

(* ===================================================================== *)
(** * Sample inputs                                                       *)
(* ===================================================================== *)

Module Samples.

Import Js.
Local Open Scope string_scope.

(** A destination whose conditions read "Sunny", compared by a caller
    who sent the empty text as weather preference. *)
Definition sunny : Orchestrator.WeatherForecast :=
  Orchestrator.getWeatherForecast "Paris" None None.

Definition empty_preference : Orchestrator.Criteria :=
  {| Orchestrator.crit_budget := None;
     Orchestrator.crit_weather := Some EmptyString;
     Orchestrator.crit_activities := None |}.

(** Three destinations whose branches finish out of order, the second
    one failing. *)
Definition three_capitals : list string := ["Paris"; "Tokyo"; "London"].

Definition out_of_order : list nat := [2; 0; 1]%nat.

Definition weather_second_fails (i : nat) (dest : string)
  : HttpOutcome (option WeatherServer.OwmCurrent) :=
  if (i =? 1)%nat then Rejected "Network Error"
  else Resolved (Some {| WeatherServer.main_temp := 21;
                         WeatherServer.weather0_description := "clear sky";
                         WeatherServer.main_humidity := 40;
                         WeatherServer.wind_speed := 3 |}).

Definition usd_rates : gmap string Q :=
  list_to_map [ ("EUR", 92 # 100); ("GBP", 79 # 100); ("JPY", 150 # 1) ]%Q.

Definition exchange_second_fails (i : nat) (base : string)
  : HttpOutcome (option (gmap string Q)) :=
  if (i =? 1)%nat then Rejected "timeout of 10000ms exceeded"
  else Resolved (Some usd_rates).

(** A week in Tokyo for two: its two dates, whose time values are those
    of midnight UTC, and the request for a pair of date arguments. *)
Definition june_1 : Orchestrator.DateArg :=
  {| Orchestrator.date_text := "2024-06-01";
     Orchestrator.date_time := 19875 * Orchestrator.msPerDay |}.

Definition june_8 : Orchestrator.DateArg :=
  {| Orchestrator.date_text := "2024-06-08";
     Orchestrator.date_time := 19882 * Orchestrator.msPerDay |}.

Definition tokyo_trip (startDate endDate : Orchestrator.DateInput)
  : Orchestrator.PlanTripArgs :=
  {| Orchestrator.pt_destination := "Tokyo";
     Orchestrator.pt_origin := None;
     Orchestrator.pt_startDate := startDate;
     Orchestrator.pt_endDate := endDate;
     Orchestrator.pt_budget := None;
     Orchestrator.pt_travelers := Some 2%Q;
     Orchestrator.pt_preferences := None |}.

(** A trends request that leaves [days] to its default, a clock, and a
    random source that is not constant. *)
Definition usd_eur_trends : CurrencyServer.TrendsArgs :=
  {| CurrencyServer.tr_from := "USD"; CurrencyServer.tr_to := "EUR";
     CurrencyServer.tr_days := None |}.

Definition noon_june_1 : Z := 19875 * CurrencyServer.msPerDay + 43200000.

Definition sevenths (k : nat) : Q := (Z.of_nat (k mod 7) # 7)%Q.

(** A random source that always draws 0, in binary64. *)
Definition zeros (k : nat) : PrimFloat.float := num_lit 0.

(** Hosts: one nine hours ahead of UTC all year, and one on Central
    European Time around its change to summer time on 31 March 2024 at
    01:00 UTC, one hour ahead of UTC before it and two hours after.  A
    local time is after the change from 03:00 on. *)
Definition tokyo_time : TimeZone := fun _ _ => 32400000%Z.

Definition march_31_0100 : Z := 19813 * ms_per_day + 3600000.

Definition berlin_time : TimeZone := fun t isUTC =>
  if isUTC then (if (t <? march_31_0100)%Z then 3600000 else 7200000)%Z
  else (if (t <? march_31_0100 + 7200000)%Z then 3600000 else 7200000)%Z.

(** A host on Eastern Time around its change to summer time on 10 March
    2024 at 07:00 UTC, five hours behind UTC before it and four hours
    after.  A local time is after the change from 03:00 on. *)
Definition march_10_0700 : Z := 19792 * ms_per_day + 25200000.

Definition new_york_time : TimeZone := fun t isUTC =>
  if isUTC then (if (t <? march_10_0700)%Z then -18000000 else -14400000)%Z
  else (if (t <? march_10_0700 - 14400000)%Z then -18000000
        else -14400000)%Z.

(** 4 April 2024, 23:30 UTC: half past one in the night of 5 April in
    Berlin. *)
Definition april_4_2330 : Z := 19817 * ms_per_day + 84600000.


Definition weather_up (q units : string)
  : HttpOutcome (option WeatherServer.OwmCurrent) :=
  Resolved (Some {| WeatherServer.main_temp := 21;
                    WeatherServer.weather0_description := "clear sky";
                    WeatherServer.main_humidity := 40;
                    WeatherServer.wind_speed := 3 |}).

Definition forecast_down (q units : string)
  : HttpOutcome (option (list WeatherServer.OwmForecastItem)) :=
  Rejected "timeout".

Definition forecast_empty (q units : string)
  : HttpOutcome (option (list WeatherServer.OwmForecastItem)) :=
  Resolved (Some []).

Definition weather_in_tokyo : WeatherServer.TravelWeatherArgs :=
  {| WeatherServer.tw_destination := "Tokyo";
     WeatherServer.tw_startDate := None;
     WeatherServer.tw_endDate := None;
     WeatherServer.tw_units := None |}.

(** A provider that lists a currency at the rate 0, and one that is
    down. *)
Definition rates_with_zero : gmap string Q :=
  list_to_map [ ("EUR", 92 # 100); ("ZWL", 0 # 1) ]%Q.

Definition exchange_down (base : string)
  : HttpOutcome (option (gmap string Q)) :=
  Rejected "Network Error".

End Samples.

(* ===================================================================== *)
(** * Facts about the built-ins                                           *)
(* ===================================================================== *)

Section StringFacts.

Import Js Spec.

Lemma includes_unfold (s p : string) :
  includes s p
  = startsWith s p
    || match s with EmptyString => false | String _ s' => includes s' p end.
Proof. destruct s; reflexivity. Qed.







End StringFacts.

Section NumberFacts.

Import Js Spec.
Local Open Scope Q_scope.

Lemma fold_sum {A : Type} (f : A -> Q) (xs : list A) (a : Q) :
  fold_left (fun acc x => acc + f x) xs a == a + sum f xs.
Proof.
  revert a. induction xs as [|x xs IH]; intros a; simpl.
  - ring.
  - rewrite IH. ring.
Qed.

Lemma reduce_sum_sum {A : Type} (f : A -> Q) (xs : list A) :
  reduce_sum f xs == sum f xs.
Proof. unfold reduce_sum. rewrite fold_sum. ring. Qed.

Lemma Math_round_comp (x y : Q) : x == y -> Math_round x = Math_round y.
Proof. intros H. unfold Math_round. apply Qfloor_comp. now rewrite H. Qed.

Lemma Math_round_bounds (x : Q) (lo hi : Z) :
  inject_Z lo <= x -> x <= inject_Z hi -> (lo <= Math_round x <= hi)%Z.
Proof.
  intros Hlo Hhi. unfold Math_round. split.
  - rewrite <- (Qfloor_Z lo). apply Qfloor_resp_le. lra.
  - assert (H : (Qfloor (x + (1 # 2)) < hi + 1)%Z); [|lia].
    rewrite Zlt_Qlt. eapply Qle_lt_trans; [apply Qfloor_le|].
    rewrite inject_Z_plus. change (inject_Z 1) with 1. lra.
Qed.

End NumberFacts.

(* ===================================================================== *)
(** * Scoring engine and cost calculator                                  *)
(* ===================================================================== *)

Section Scoring.

Import Js Orchestrator Spec.
Local Open Scope Q_scope.


(** The accumulation [score += ...] adds up the four terms. *)
Lemma score_terms (weather : WeatherForecast) (hotelCost safety : Q)
    (activities : list Activity) (criteria : Criteria) :
  calculateOverallScore weather hotelCost safety activities criteria
  = Math_round ((if weather_matches weather criteria then 30 else 20)
                + cost_term hotelCost + safety_term safety
                + activity_term (length activities)).
Proof.
  unfold calculateOverallScore, cost_term, safety_term, activity_term,
    Math_max, Math_min.
  apply Math_round_comp.
  destruct (weather_matches weather criteria); ring.
Qed.

Lemma cost_term_bounds (hotelCost : Q) :
  0 <= hotelCost -> 0 <= cost_term hotelCost <= 25.
Proof.
  intros H. unfold cost_term. split.
  - apply Q.le_max_l.
  - apply Q.max_lub; [lra|].
    assert (E : hotelCost / 10 == hotelCost * (1 # 10)) by (field). lra.
Qed.

Lemma safety_term_bounds (safety : Q) :
  0 <= safety <= 5 -> 0 <= safety_term safety <= 25.
Proof.
  intros H. unfold safety_term.
  assert (E : safety / 5 * 25 == safety * 5) by field. lra.
Qed.

Lemma activity_term_bounds (n : nat) : 0 <= activity_term n <= 20.
Proof.
  unfold activity_term. split.
  - apply Q.min_glb; [|lra].
    assert (0 <= inject_Z (Z.of_nat n)); [|lra].
    change 0 with (inject_Z 0). rewrite <- Zle_Qle. lia.
  - apply Q.le_min_r.
Qed.

End Scoring.

Section ScoringClaims.

Import Js Orchestrator Spec Samples.
Local Open Scope Q_scope.



(** C6: for a safety rating in [0,5], a hotel cost that is not negative
    and any activity list, conditions and preference, the safety term lies
    in [0,25], the cost term in [0,25], the activity term in [0,20], the
    weather term is 20 or 30, and the overall score, the rounded sum of
    the four, is an integer in [0,100]. *)
Theorem score_in_range (weather : WeatherForecast) (hotelCost safety : Q)
    (activities : list Activity) (criteria : Criteria) :
  0 <= safety <= 5 ->
  0 <= hotelCost ->
  0 <= safety_term safety <= 25
  /\ 0 <= cost_term hotelCost <= 25
  /\ 0 <= activity_term (length activities) <= 20
  /\ (exists w : Q,
        (w = 20 \/ w = 30)
        /\ calculateOverallScore weather hotelCost safety activities criteria
           = Math_round (w + cost_term hotelCost + safety_term safety
                         + activity_term (length activities)))
  /\ (0 <= calculateOverallScore weather hotelCost safety activities criteria
      <= 100)%Z.
Proof.
  intros Hs Hc.
  pose proof (safety_term_bounds safety Hs) as Bs.
  pose proof (cost_term_bounds hotelCost Hc) as Bc.
  pose proof (activity_term_bounds (length activities)) as Ba.
  split; [exact Bs|]. split; [exact Bc|]. split; [exact Ba|].
  rewrite score_terms. split.
  - destruct (weather_matches weather criteria); eauto.
  - apply Math_round_bounds; destruct (weather_matches weather criteria);
      change (inject_Z 0) with 0; change (inject_Z 100) with 100; lra.
Qed.

Lemma score_in_range_witness :
  0 <= 5 <= 5 /\ 0 <= 100
  /\ (0 <= calculateOverallScore sunny 100 5 all_activities empty_preference
      <= 100)%Z.
Proof.
  assert (Hs : 0 <= 5 <= 5) by (split; apply Qle_bool_imp_le; reflexivity).
  assert (Hc : 0 <= 100) by (apply Qle_bool_imp_le; reflexivity).
  split; [exact Hs|]. split; [exact Hc|].
  apply (score_in_range sunny 100 5 all_activities empty_preference Hs Hc).
Defined.

(** C2: for every list of flights, hotels and activities and every
    travelers count, the total cost is the sum of the flight prices, plus
    the sum of the hotels' [totalPrice], plus the sum of the activity
    prices multiplied by the travelers count. *)
Theorem total_cost_is_sum (flights : list Flight) (hotels : list Hotel)
    (activities : list Activity) (travelers : Q) :
  calculateTotalCost flights hotels activities travelers
  == sum flight_price flights + sum totalPrice hotels
     + sum activity_price activities * travelers.
Proof.
  unfold calculateTotalCost. now rewrite !reduce_sum_sum.
Qed.

End ScoringClaims.

(* ===================================================================== *)
(** * Array.prototype.sort with a comparator that subtracts keys          *)
(* ===================================================================== *)

Section SortFacts.

Import Js Spec.

Context {A : Type} (key : A -> Z).

Lemma sort_insert_perm (x : A) (l : list A) :
  Permutation (x :: l) (sort_insert (by_key_desc key) x l).
Proof.
  induction l as [|y l IH]; simpl; [reflexivity|].
  destruct (by_key_desc key x y <=? 0)%Z; [reflexivity|].
  rewrite perm_swap. now apply perm_skip.
Qed.

Lemma sort_perm (l : list A) : Permutation l (sort (by_key_desc key) l).
Proof.
  induction l as [|x l IH]; simpl; [reflexivity|].
  rewrite <- sort_insert_perm. now apply perm_skip.
Qed.

Lemma sort_insert_Forall (P : A -> Prop) (x : A) (l : list A) :
  P x -> Forall P l -> Forall P (sort_insert (by_key_desc key) x l).
Proof.
  intros Hx Hl. eapply Permutation_Forall; [apply sort_insert_perm|].
  now constructor.
Qed.

Lemma sort_insert_sorted (x : A) (l : list A) :
  StronglySorted (desc key) l ->
  StronglySorted (desc key) (sort_insert (by_key_desc key) x l).
Proof.
  induction 1 as [|y l Hl IH Hy]; simpl.
  - repeat constructor.
  - destruct (Z.leb_spec (by_key_desc key x y) 0) as [Hle|Hgt];
      unfold by_key_desc in *.
    + constructor; [now constructor|].
      constructor; [unfold desc; lia|].
      eapply Forall_impl; [exact Hy|]. unfold desc. intros z Hz. lia.
    + constructor; [exact IH|].
      apply sort_insert_Forall; [unfold desc; lia | exact Hy].
Qed.

Lemma sort_sorted (l : list A) :
  StronglySorted (desc key) (sort (by_key_desc key) l).
Proof.
  induction l as [|x l IH]; simpl; [constructor|].
  now apply sort_insert_sorted.
Qed.

(** Inserting [x] moves it past larger keys only, so among the entries
    of any one key it stays in front. *)
Lemma sort_insert_filter (s : Z) (x : A) (l : list A) :
  filter (fun a => key a = s) (sort_insert (by_key_desc key) x l)
  = filter (fun a => key a = s) (x :: l).
Proof.
  induction l as [|y l IH]; simpl; [reflexivity|].
  destruct (Z.leb_spec (by_key_desc key x y) 0) as [Hle|Hgt]; [reflexivity|].
  unfold by_key_desc in Hgt.
  rewrite (filter_cons _ y (sort_insert _ x l)), IH.
  rewrite (filter_cons _ x (y :: l)), (filter_cons _ y l), (filter_cons _ x l).
  repeat case_decide; (reflexivity || lia).
Qed.

Lemma sort_stable (s : Z) (l : list A) :
  filter (fun a => key a = s) (sort (by_key_desc key) l)
  = filter (fun a => key a = s) l.
Proof.
  induction l as [|x l IH]; simpl; [reflexivity|].
  rewrite sort_insert_filter, !filter_cons, IH. reflexivity.
Qed.

(** Two arrangements in descending order that list the entries of every
    key in the same order are the same arrangement. *)
Lemma sorted_stable_unique (l1 l2 : list A) :
  StronglySorted (desc key) l1 -> StronglySorted (desc key) l2 ->
  (forall s, filter (fun a => key a = s) l1 = filter (fun a => key a = s) l2) ->
  l1 = l2.
Proof.
  intros H1. revert l2.
  induction H1 as [|x t1 Ht1 IH Hx]; intros l2 H2 Hf.
  - destruct l2 as [|y t2]; [reflexivity|].
    specialize (Hf (key y)). rewrite filter_cons_True in Hf by reflexivity.
    discriminate.
  - destruct H2 as [|y t2 Ht2 Hy].
    + specialize (Hf (key x)). rewrite filter_cons_True in Hf by reflexivity.
      discriminate.
    + assert (Hxy : key x = key y).
      { assert (Hin1 : x ∈ y :: t2).
        { eapply (list_elem_of_filter (fun a => key a = key x)).
          rewrite <- Hf, filter_cons_True by reflexivity. left. }
        assert (Hin2 : y ∈ x :: t1).
        { eapply (list_elem_of_filter (fun a => key a = key y)).
          rewrite Hf, filter_cons_True by reflexivity. left. }
        apply Z.le_antisymm.
        - apply elem_of_cons in Hin1 as [->|Hin1]; [lia|].
          rewrite Forall_forall in Hy. now apply Hy.
        - apply elem_of_cons in Hin2 as [->|Hin2]; [lia|].
          rewrite Forall_forall in Hx. now apply Hx. }
      pose proof (Hf (key x)) as Hh.
      rewrite filter_cons_True in Hh by reflexivity.
      rewrite filter_cons_True in Hh by (symmetry; exact Hxy).
      injection Hh as -> Hh. f_equal. apply IH; [exact Ht2|].
      intros s. specialize (Hf s). rewrite !filter_cons in Hf.
      case_decide; [now injection Hf | exact Hf].
Qed.

(** Whatever algorithm the engine runs, a sort that returns a stable
    descending arrangement returns the list [sort] computes. *)
Lemma sort_unique (l l' : list A) :
  StronglySorted (desc key) l' ->
  (forall s, filter (fun a => key a = s) l' = filter (fun a => key a = s) l) ->
  l' = sort (by_key_desc key) l.
Proof.
  intros Hs Hf. apply sorted_stable_unique; [exact Hs | apply sort_sorted|].
  intros s. now rewrite Hf, sort_stable.
Qed.

End SortFacts.

(* ===================================================================== *)
(** * compare_destinations                                                *)
(* ===================================================================== *)

Section Comparison.

Import Js Orchestrator Spec.

Lemma each_length {A B : Type} (f : A -> Rand B) (xs : list A) (k : nat) :
  length (each f xs k).1 = length xs.
Proof.
  revert k. induction xs as [|x xs IH]; intros k; simpl; [reflexivity|].
  destruct (f x k) as [y k1]. specialize (IH k1).
  destruct (each f xs k1) as [ys k2]. simpl in *. now rewrite IH.
Qed.

(** Before the sort, entry [i] is the entry of destination [i]. *)
Lemma comparisons_destinations (rng : nat -> Q) (args : CompareArgs) (k : nat) :
  map ds_destination (comparisons rng args k).1 = cmp_destinations args.
Proof.
  unfold comparisons.
  pose proof (each_length (getAverageHotelCost rng) (cmp_destinations args) k)
    as Hc.
  destruct (each (getAverageHotelCost rng) (cmp_destinations args) k)
    as [costs k1].
  pose proof (each_length (getSafetyRating rng) (cmp_destinations args) k1)
    as Hs.
  destruct (each (getSafetyRating rng) (cmp_destinations args) k1)
    as [safeties k2].
  simpl in *. apply fmap_zip_with_l; [reflexivity|].
  rewrite length_zip. lia.
Qed.

Lemma compareDestinations_sort (rng : nat -> Q) (args : CompareArgs) (k : nat) :
  (compareDestinations rng args k).1
  = sort (by_key_desc overallScore) (comparisons rng args k).1.
Proof.
  unfold compareDestinations. now destruct (comparisons rng args k).
Qed.

(** C3: for every compare_destinations input the returned entries are
    the entries computed for the input destinations, in descending order
    of [overallScore], and the entries of any one score stand in the order
    in which their destinations stand in the input list. *)
Theorem compare_sorted_stable (rng : nat -> Q) (args : CompareArgs) (k : nat) :
  let unsorted := (comparisons rng args k).1 in
  let returned := (compareDestinations rng args k).1 in
  map ds_destination unsorted = cmp_destinations args
  /\ Permutation unsorted returned
  /\ StronglySorted (fun a b => (overallScore a >= overallScore b)%Z) returned
  /\ forall s : Z,
       filter (fun d => overallScore d = s) returned
       = filter (fun d => overallScore d = s) unsorted.
Proof.
  cbv zeta. rewrite compareDestinations_sort.
  split; [apply comparisons_destinations|].
  split; [apply sort_perm|].
  split; [|intros s; apply sort_stable].
  pose proof (sort_sorted overallScore (comparisons rng args k).1) as H.
  induction H as [|a l Hl IH Ha]; constructor; [exact IH|].
  eapply Forall_impl; [exact Ha|]. unfold desc. intros b Hb. lia.
Qed.

(** With a constant random source every destination scores the same and
    the input order comes back. *)
Example compare_ties_keep_input_order :
  map ds_destination
    (compareDestinations (fun _ => 0%Q)
       {| cmp_destinations := ["Tokyo"; "Paris"; "Lima"; "Oslo"]%string;
          cmp_criteria := None |} 0).1
  = ["Tokyo"; "Paris"; "Lima"; "Oslo"]%string.
Proof. vm_compute. reflexivity. Qed.

End Comparison.

(* ===================================================================== *)
(** * Promise.all and the aggregations over destinations                  *)
(* ===================================================================== *)

Section PromiseFacts.

Import Js.

Context {A : Type}.

Lemma collect_Some (l : list A) : collect (Some <$> l) = Some l.
Proof. induction l as [|x l IH]; csimpl; [reflexivity|]. now rewrite IH. Qed.

(** After the promises listed in [c] have fulfilled, their slots hold
    their values, the other slots are as before, and the count went down
    by the length of [c]. *)
Lemma fulfil_fold (results : list A) (c : list nat) (st : AllState A) :
  (forall i, i ∈ c -> i < length results) ->
  length (values st) = length results ->
  let st' := fold_left (fulfil results) c st in
  length (values st') = length results
  /\ remaining st' = remaining st - length c
  /\ forall i, values st' !! i
              = if decide (i ∈ c) then Some (results !! i)
                else values st !! i.
Proof.
  revert st. induction c as [|j c IH]; intros st Hc Hlen; cbv zeta.
  - simpl. split; [exact Hlen|]. split; [lia|]. reflexivity.
  - assert (Hj : j < length results) by (apply Hc; left).
    destruct (lookup_lt_is_Some_2 results j Hj) as [v Hv].
    change (fold_left (fulfil results) (j :: c) st)
      with (fold_left (fulfil results) c (fulfil results st j)).
    destruct (IH (fulfil results st j)) as (Hl & Hr & Hv').
    { intros i Hi. apply Hc. now right. }
    { unfold fulfil. rewrite Hv. simpl. now rewrite length_insert. }
    split; [exact Hl|]. split.
    { rewrite Hr. unfold fulfil. rewrite Hv. simpl. lia. }
    intros i. rewrite Hv'.
    destruct (decide (i ∈ c)) as [Hi|Hi].
    + rewrite decide_True by (now right). reflexivity.
    + unfold fulfil. rewrite Hv. cbn [values].
      destruct (decide (i = j)) as [->|Hne].
      * rewrite decide_True by left.
        rewrite list_lookup_insert_eq by lia. now rewrite Hv.
      * rewrite decide_False by (rewrite elem_of_cons; tauto).
        now rewrite list_lookup_insert_ne by congruence.
Qed.

(** Whatever the order in which the promises fulfil, [Promise.all]
    fulfils with their values by position. *)
Lemma Promise_all_by_position (results : list A) (completion : list nat) :
  Permutation completion (seq 0 (length results)) ->
  Promise_all results completion = Some results.
Proof.
  intros Hp. unfold Promise_all.
  set (st0 := {| values := replicate (length results) None;
                 remaining := length results |}).
  destruct (fulfil_fold results completion st0) as (Hl & Hr & Hv).
  { intros i Hi. rewrite Hp in Hi. apply elem_of_seq in Hi. lia. }
  { simpl. apply length_replicate. }
  rewrite Hr. simpl.
  rewrite (Permutation_length Hp), length_seq, Nat.sub_diag. simpl.
  replace (values (fold_left (fulfil results) completion st0))
    with (Some <$> results); [apply collect_Some|].
  apply list_eq. intros i. rewrite Hv, list_lookup_fmap.
  destruct (decide (i ∈ completion)) as [Hi|Hi].
  - rewrite Hp in Hi. apply elem_of_seq in Hi.
    destruct (lookup_lt_is_Some_2 results i) as [v ->]; [lia|]. reflexivity.
  - assert (Hge : length results <= i).
    { destruct (decide (i < length results)); [|lia].
      exfalso. apply Hi. rewrite Hp. apply elem_of_seq. lia. }
    rewrite (lookup_ge_None_2 results) by exact Hge.
    symmetry. apply lookup_ge_None_2. simpl. now rewrite length_replicate.
Qed.

(** While a promise is outstanding the result is pending. *)
Lemma Promise_all_pending (results : list A) (completion : list nat) :
  (forall i, i ∈ completion -> i < length results) ->
  length completion < length results ->
  Promise_all results completion = None.
Proof.
  intros Hc Hlt. unfold Promise_all.
  set (st0 := {| values := replicate (length results) None;
                 remaining := length results |}).
  destruct (fulfil_fold results completion st0) as (_ & Hr & _);
    [exact Hc | simpl; apply length_replicate |].
  rewrite Hr. simpl.
  destruct (length results - length completion) eqn:E; [lia|reflexivity].
Qed.

End PromiseFacts.

Section Aggregation.

Import Js.

Lemma each_Forall2 {A B : Type} (f : A -> Rand B) (R : A -> B -> Prop)
    (xs : list A) (k : nat) :
  (forall x k', R x (f x k').1) -> Forall2 R xs (each f xs k).1.
Proof.
  intros HR. revert k.
  induction xs as [|x xs IH]; intros k; simpl; [constructor|].
  specialize (HR x k). destruct (f x k) as [y k1]. specialize (IH k1).
  destruct (each f xs k1) as [ys k2]. now constructor.
Qed.

Lemma mock_branch_report (rng : nat -> Q) (date : option WeatherServer.DateArg)
    (dest : string) (k : nat) :
  exists t c h w,
    (WeatherServer.mock_branch rng date dest k).1
    = WeatherServer.WeatherReport dest t c h w.
Proof.
  unfold WeatherServer.mock_branch.
  destruct (WeatherServer.getMockWeatherData rng dest date date k) as [m k1].
  simpl. eauto.
Qed.

(** compare_destination_weather: one entry per destination, by
    position; the entry of a destination is decided by its own branch. *)
Lemma weather_slots (API_KEY : option string)
    (weatherApi : nat -> string -> HttpOutcome (option WeatherServer.OwmCurrent))
    (rng : nat -> Q) (completion : list nat)
    (args : WeatherServer.CompareWeatherArgs) (k : nat) :
  let destinations := WeatherServer.cw_destinations args in
  Permutation completion (seq 0 (length destinations)) ->
  exists entries,
    (WeatherServer.compareDestinationWeather API_KEY weatherApi rng completion
       args k).1 = Some entries
    /\ Forall2 (fun dest entry => WeatherServer.entry_destination entry = dest)
         destinations entries
    /\ (WeatherServer.key_configured API_KEY = true ->
        forall i dest, destinations !! i = Some dest ->
          entries !! i
          = Some (WeatherServer.live_branch (weatherApi i dest) dest))
    /\ (WeatherServer.key_configured API_KEY = false ->
        Forall (fun entry => exists t c h w,
                  entry = WeatherServer.WeatherReport
                            (WeatherServer.entry_destination entry) t c h w)
          entries).
Proof.
  intros destinations Hp.
  unfold WeatherServer.compareDestinationWeather,
    WeatherServer.weather_branches.
  fold destinations.
  destruct (WeatherServer.key_configured API_KEY) eqn:Hkey; simpl.
  - exists (imap (fun i dest =>
                    WeatherServer.live_branch (weatherApi i dest) dest)
              destinations).
    split; [apply Promise_all_by_position; now rewrite length_imap|].
    split; [|split; [|discriminate]].
    + apply Forall2_same_length_lookup_2; [now rewrite length_imap|].
      intros i dest entry Hd He. rewrite list_lookup_imap, Hd in He.
      injection He as <-. unfold WeatherServer.live_branch, try_or.
      destruct (WeatherServer.live_attempt (weatherApi i dest) dest) eqn:E;
        [reflexivity|].
      unfold WeatherServer.live_attempt in E.
      destruct (weatherApi i dest) as [[d|]|]; try discriminate.
      now injection E as <-.
    + intros _ i dest Hd. now rewrite list_lookup_imap, Hd.
  - pose proof (each_length
                  (WeatherServer.mock_branch rng (WeatherServer.cw_date args))
                  destinations k) as Hlen.
    pose proof (each_Forall2
                  (WeatherServer.mock_branch rng (WeatherServer.cw_date args))
                  (fun dest entry => exists t c h w,
                     entry = WeatherServer.WeatherReport dest t c h w)
                  destinations k
                  (mock_branch_report rng (WeatherServer.cw_date args)))
      as Hall.
    destruct (each (WeatherServer.mock_branch rng (WeatherServer.cw_date args))
                destinations k) as [branches k1].
    simpl in *. exists branches.
    split; [apply Promise_all_by_position; now rewrite Hlen|].
    split; [|split; [discriminate|]].
    + eapply Forall2_impl; [exact Hall|].
      intros dest entry (t & c & h & w & ->). reflexivity.
    + intros _. eapply Forall2_Forall_r; [exact Hall|].
      apply Forall_forall. intros dest _ entry (t & c & h & w & ->).
      simpl. eauto.
Qed.

(** What the provider answers to the other branches does not show in
    the slot of branch [i]. *)
Lemma weather_failure_is_local (API_KEY : option string)
    (weatherApi weatherApi' :
       nat -> string -> HttpOutcome (option WeatherServer.OwmCurrent))
    (rng : nat -> Q) (completion : list nat)
    (args : WeatherServer.CompareWeatherArgs) (k i : nat)
    (entries entries' : list WeatherServer.WeatherComparison) :
  WeatherServer.key_configured API_KEY = true ->
  Permutation completion (seq 0 (length (WeatherServer.cw_destinations args))) ->
  (forall dest, weatherApi i dest = weatherApi' i dest) ->
  (WeatherServer.compareDestinationWeather API_KEY weatherApi rng completion
     args k).1 = Some entries ->
  (WeatherServer.compareDestinationWeather API_KEY weatherApi' rng completion
     args k).1 = Some entries' ->
  entries !! i = entries' !! i.
Proof.
  intros Hkey Hp Hsame He He'.
  destruct (weather_slots API_KEY weatherApi rng completion args k Hp)
    as (es & Hes & Hall & Hlive & _).
  destruct (weather_slots API_KEY weatherApi' rng completion args k Hp)
    as (es' & Hes' & Hall' & Hlive' & _).
  rewrite He in Hes. rewrite He' in Hes'.
  injection Hes as <-. injection Hes' as <-.
  destruct (WeatherServer.cw_destinations args !! i) as [dest|] eqn:Hd.
  - now rewrite (Hlive Hkey i dest Hd), (Hlive' Hkey i dest Hd), Hsame.
  - apply lookup_ge_None in Hd.
    apply Forall2_length in Hall, Hall'.
    rewrite !lookup_ge_None_2; [reflexivity | lia | lia].
Qed.

(** get_travel_budget_conversion: the same. *)
Lemma budget_slots
    (exchangeApi : nat -> string -> HttpOutcome (option (gmap string Q)))
    (now : Z) (completion : list nat) (args : CurrencyServer.BudgetArgs) :
  let destinations := CurrencyServer.bc_destinations args in
  Permutation completion (seq 0 (length destinations)) ->
  exists entries,
    CurrencyServer.getTravelBudgetConversion exchangeApi now completion args
    = Some entries
    /\ Forall2 (fun dest entry => CurrencyServer.entry_destination entry = dest)
         destinations entries
    /\ forall i dest, destinations !! i = Some dest ->
         entries !! i
         = Some (CurrencyServer.budget_branch (exchangeApi i) now
                   (CurrencyServer.bc_budget args)
                   (default "USD"%string (CurrencyServer.bc_homeCurrency args))
                   dest).
Proof.
  intros destinations Hp. unfold CurrencyServer.getTravelBudgetConversion.
  fold destinations.
  eexists. split; [apply Promise_all_by_position; now rewrite length_imap|].
  split.
  - apply Forall2_same_length_lookup_2; [now rewrite length_imap|].
    intros i dest entry Hd He. rewrite list_lookup_imap, Hd in He.
    injection He as <-. unfold CurrencyServer.budget_branch, try_or.
    destruct (CurrencyServer.budget_attempt _ _ _ _ _) eqn:E; [reflexivity|].
    unfold CurrencyServer.budget_attempt in E.
    destruct (CurrencyServer.reparse_currency _); [discriminate|].
    simpl in E.
    destruct (CurrencyServer.convertCurrency _ _ _); [discriminate|].
    now injection E as <-.
  - intros i dest Hd. now rewrite list_lookup_imap, Hd.
Qed.

Lemma Forall2_destinations {E : Type} (dest_of : E -> string)
    (destinations : list string) (entries : list E) :
  Forall2 (fun dest entry => dest_of entry = dest) destinations entries ->
  length entries = length destinations
  /\ map dest_of entries = destinations.
Proof.
  induction 1 as [|dest entry ds es H _ [IHl IHm]]; simpl; [auto|].
  now rewrite IHl, IHm, H.
Qed.

(** C4: for every list of destinations and every order in which the
    branches finish, compare_destination_weather and
    get_travel_budget_conversion return exactly one entry per input
    destination, in the order of the input list; the entry in a slot is
    the one its own branch produced, whatever the other branches did, and
    it is the placeholder [{destination, error}] when that branch
    failed. *)
Theorem aggregation_one_entry_per_destination
    (API_KEY : option string)
    (weatherApi : nat -> string -> HttpOutcome (option WeatherServer.OwmCurrent))
    (exchangeApi : nat -> string -> HttpOutcome (option (gmap string Q)))
    (rng : nat -> Q) (now : Z) (completion : list nat)
    (destinations : list string) (date : option WeatherServer.DateArg)
    (budget : Q) (homeCurrency : option string) (k : nat) :
  Permutation completion (seq 0 (length destinations)) ->
  (exists entries,
     (WeatherServer.compareDestinationWeather API_KEY weatherApi rng completion
        {| WeatherServer.cw_destinations := destinations;
           WeatherServer.cw_date := date |} k).1 = Some entries
     /\ length entries = length destinations
     /\ map WeatherServer.entry_destination entries = destinations
     /\ forall i dest, destinations !! i = Some dest ->
          WeatherServer.key_configured API_KEY = true ->
          match WeatherServer.live_attempt (weatherApi i dest) dest with
          | Throw _ =>
              entries !! i
              = Some (WeatherServer.WeatherError dest
                        "Unable to fetch weather data")
          | Return entry => entries !! i = Some entry
          end)
  /\ (exists entries,
       CurrencyServer.getTravelBudgetConversion exchangeApi now completion
         {| CurrencyServer.bc_budget := budget;
            CurrencyServer.bc_homeCurrency := homeCurrency;
            CurrencyServer.bc_destinations := destinations |} = Some entries
       /\ length entries = length destinations
       /\ map CurrencyServer.entry_destination entries = destinations
       /\ forall i dest, destinations !! i = Some dest ->
            match CurrencyServer.budget_attempt (exchangeApi i) now budget
                    (default "USD"%string homeCurrency) dest with
            | Throw _ =>
                entries !! i
                = Some (CurrencyServer.BudgetError dest
                          "Unable to convert currency")
            | Return entry => entries !! i = Some entry
            end).
Proof.
  intros Hp. split.
  - destruct (weather_slots API_KEY weatherApi rng completion
                {| WeatherServer.cw_destinations := destinations;
                   WeatherServer.cw_date := date |} k Hp)
      as (entries & Hret & Hall & Hlive & _).
    apply Forall2_destinations in Hall as [Hlen Hmap].
    exists entries. repeat split; try assumption.
    intros i dest Hd Hkey. rewrite (Hlive Hkey i dest Hd).
    unfold WeatherServer.live_branch, try_or.
    now destruct (WeatherServer.live_attempt (weatherApi i dest) dest).
  - destruct (budget_slots exchangeApi now completion
                {| CurrencyServer.bc_budget := budget;
                   CurrencyServer.bc_homeCurrency := homeCurrency;
                   CurrencyServer.bc_destinations := destinations |} Hp)
      as (entries & Hret & Hall & Hslot).
    apply Forall2_destinations in Hall as [Hlen Hmap].
    exists entries. repeat split; try assumption.
    intros i dest Hd. rewrite (Hslot i dest Hd). simpl.
    unfold CurrencyServer.budget_branch, try_or.
    now destruct (CurrencyServer.budget_attempt _ _ _ _ _).
Qed.

Lemma out_of_order_is_a_completion :
  Permutation Samples.out_of_order (seq 0 (length Samples.three_capitals)).
Proof.
  unfold Samples.out_of_order. simpl.
  apply (Permutation_trans (l' := [0; 2; 1])).
  - apply perm_swap.
  - apply perm_skip, perm_swap.
Defined.

Lemma aggregation_witness :
  (exists entries,
     (WeatherServer.compareDestinationWeather (Some "key"%string)
        Samples.weather_second_fails (fun _ => 0%Q) Samples.out_of_order
        {| WeatherServer.cw_destinations := Samples.three_capitals;
           WeatherServer.cw_date := None |} 0).1 = Some entries
     /\ length entries = 3
     /\ map WeatherServer.entry_destination entries = Samples.three_capitals
     /\ entries !! 1
        = Some (WeatherServer.WeatherError "Tokyo"
                  "Unable to fetch weather data"))
  /\ (exists entries,
       CurrencyServer.getTravelBudgetConversion Samples.exchange_second_fails
         0 Samples.out_of_order
         {| CurrencyServer.bc_budget := 1000%Q;
            CurrencyServer.bc_homeCurrency := None;
            CurrencyServer.bc_destinations := Samples.three_capitals |}
       = Some entries
       /\ length entries = 3
       /\ map CurrencyServer.entry_destination entries = Samples.three_capitals
       /\ entries !! 1
          = Some (CurrencyServer.BudgetError "Tokyo"
                    "Unable to convert currency")).
Proof.
  destruct (aggregation_one_entry_per_destination (Some "key"%string)
              Samples.weather_second_fails Samples.exchange_second_fails
              (fun _ => 0%Q) 0 Samples.out_of_order Samples.three_capitals
              None 1000%Q None 0 out_of_order_is_a_completion)
    as [(we & Hw & Hwl & Hwm & Hws) (be & Hb & Hbl & Hbm & Hbs)].
  split.
  - exists we. repeat split; try assumption.
    exact (Hws 1 "Tokyo"%string eq_refl eq_refl).
  - exists be. repeat split; try assumption.
    exact (Hbs 1 "Tokyo"%string eq_refl).
Defined.

End Aggregation.

(* ===================================================================== *)
(** * plan_trip                                                           *)
(* ===================================================================== *)

Section PlanTrip.

Import Js Orchestrator.

(** A request whose two dates parse is rejected exactly when its end
    date is not after its start date. *)
Lemma planTrip_parsed_dates (rng : nat -> Q) (args : PlanTripArgs)
    (startDate endDate : DateArg) (k : nat) :
  pt_startDate args = Parsed startDate ->
  pt_endDate args = Parsed endDate ->
  ((date_time endDate <= date_time startDate)%Z ->
   (planTrip rng args k).1
   = Throw (McpError InvalidParams "End date must be after start date"))
  /\ ((date_time startDate < date_time endDate)%Z ->
      exists plan, (planTrip rng args k).1 = Return (Priced plan)).
Proof.
  intros Es Ee. unfold planTrip, date_ge. rewrite Es, Ee. cbn [getTime].
  split; intros H.
  - destruct (Z.geb_spec (date_time startDate) (date_time endDate));
      [reflexivity | lia].
  - destruct (Z.geb_spec (date_time startDate) (date_time endDate)); [lia|].
    destruct (getSafetyRating rng (pt_destination args) k) as [safety k1].
    simpl. eauto.
Qed.

(** A request with a date that does not parse is never rejected: the
    comparison with Invalid Date is false, and a plan without a price for
    the stay and without a total comes back. *)
Lemma planTrip_unparsed_date (rng : nat -> Q) (args : PlanTripArgs) (k : nat) :
  (exists text, pt_startDate args = Unparsed text)
  \/ (exists text, pt_endDate args = Unparsed text) ->
  exists plan, (planTrip rng args k).1 = Return (Unpriced plan).
Proof.
  intros H. unfold planTrip, date_ge, searchHotels_input.
  destruct (getSafetyRating rng (pt_destination args) k) as [safety k1].
  destruct H as [[text E] | [text E]]; rewrite E; cbn [getTime].
  - simpl. eauto.
  - destruct (pt_startDate args); simpl; eauto.
Qed.

(** C5: the date check of plan_trip lets a request through whose end
    date is not a date at all.  For "2024-06-01" to "not a date" no
    validation error is raised: [start >= end] compares with NaN and is
    false, and a plan comes back, for start and end dates as given, with
    no price for the stay and no total cost. *)
Theorem unparsed_end_date_is_not_rejected (rng : nat -> Q) (k : nat) :
  exists plan,
    planTrip rng
      (Samples.tokyo_trip (Parsed Samples.june_1) (Unparsed "not a date")) k
    = (Return (Unpriced plan), S k)
    /\ map departure (up_flights plan) = ["2024-06-01"; "not a date"]%string
    /\ map uh_pricePerNight (up_hotels plan) = [150; 120]%Q.
Proof. eexists. repeat split. Qed.

(** The total of a plan is the total of the lines the plan shows. *)
Lemma planTrip_total (rng : nat -> Q) (args : PlanTripArgs) (k : nat)
    (plan : TripPlan) :
  (planTrip rng args k).1 = Return (Priced plan) ->
  (tp_totalCost plan
   == Spec.sum flight_price (tp_flights plan)
      + Spec.sum totalPrice (tp_hotels plan)
      + Spec.sum activity_price (tp_activities plan)
        * default 1 (pt_travelers args))%Q.
Proof.
  unfold planTrip.
  destruct (date_ge (pt_startDate args) (pt_endDate args)); [discriminate|].
  destruct (getSafetyRating rng (pt_destination args) k) as [safety k1].
  destruct (searchHotels_input _ _ _ _ _) as [hotels|hotels];
    [|discriminate].
  simpl. intros [= <-]. cbn [tp_totalCost tp_flights tp_hotels tp_activities].
  unfold calculateTotalCost. now rewrite !reduce_sum_sum.
Qed.

(** The week in Tokyo: seven nights, hotels priced for seven nights,
    flights priced for two travelers, a total of 3890. *)
Example tokyo_week :
  exists plan,
    (planTrip (fun _ => 0%Q)
       (Samples.tokyo_trip (Parsed Samples.june_1) (Parsed Samples.june_8))
       0).1 = Return (Priced plan)
    /\ nights_between Samples.june_1 Samples.june_8 = 7%Z
    /\ map totalPrice (tp_hotels plan) = [150 * 7; 120 * 7]%Q
    /\ map flight_price (tp_flights plan) = [450 * 2; 420 * 2]%Q
    /\ (tp_totalCost plan == 3890)%Q.
Proof. eexists. repeat split. Qed.

(** Dates out of order and equal dates are rejected. *)
Example swapped_dates_rejected :
  (planTrip (fun _ => 0%Q)
     (Samples.tokyo_trip (Parsed Samples.june_8) (Parsed Samples.june_1)) 0).1
  = Throw (McpError InvalidParams "End date must be after start date").
Proof. reflexivity. Qed.

Example same_day_rejected :
  (planTrip (fun _ => 0%Q)
     (Samples.tokyo_trip (Parsed Samples.june_1) (Parsed Samples.june_1)) 0).1
  = Throw (McpError InvalidParams "End date must be after start date").
Proof. reflexivity. Qed.

(** A start date that does not parse passes the check as well, also
    with an end date before any date the text could mean. *)
Example unparsed_start_date_is_not_rejected :
  exists plan,
    (planTrip (fun _ => 0%Q)
       (Samples.tokyo_trip (Unparsed "tomorrow") (Parsed Samples.june_1)) 0).1
    = Return (Unpriced plan).
Proof. eexists. reflexivity. Qed.

End PlanTrip.

(* ===================================================================== *)
(** * get_weather_alerts                                                  *)
(* ===================================================================== *)

Section Alerts.

Import Js WeatherServer.

(** C10: for every destination get_weather_alerts returns an empty
    alerts list, whether or not a weather API key is configured; the two
    modes differ in the message only. *)
Theorem weather_alerts_always_empty (API_KEY : option string)
    (destination : string) :
  getWeatherAlerts API_KEY destination
  = Return {| alerts := [];
              message := if key_configured API_KEY
                         then "Weather alerts not available in free tier"
                         else "No active weather alerts" |}.
Proof.
  unfold getWeatherAlerts. now destruct (key_configured API_KEY).
Qed.

End Alerts.

(* ===================================================================== *)
(** * convert_currency and get_destination_currency                       *)
(* ===================================================================== *)

Section Currency.

Import Js CurrencyServer.
Local Open Scope Q_scope.

Lemma truthy_number_spec (q : Q) : truthy_number q = true <-> ~ q == 0.
Proof.
  unfold truthy_number. rewrite negb_true_iff, <- not_true_iff_false.
  now rewrite Qeq_bool_iff.
Qed.

(** A rate the provider lists for the pair is applied as it is. *)
Lemma convertCurrency_rate
    (api : string -> HttpOutcome (option (gmap string Q))) (now : Z)
    (args : ConvertArgs) (rates : gmap string Q) (r : Q) :
  api (cc_from args) = Resolved (Some rates) ->
  rates !! cc_to args = Some r ->
  ~ r == 0 ->
  convertCurrency api now args
  = Return {| exchangeRate := {| er_from := cc_from args; er_to := cc_to args;
                                 er_rate := Own r; er_timestamp := now |};
              convertedAmount := Some (default 1 (cc_amount args) * r);
              originalAmount := default 1 (cc_amount args) |}.
Proof.
  intros Hapi Hr Hnz. unfold convertCurrency, get. rewrite Hapi, Hr. simpl.
  apply truthy_number_spec in Hnz. now rewrite Hnz.
Qed.

(** A pair for which [rates[to]] is [undefined] is rejected. *)
Lemma convertCurrency_no_rate
    (api : string -> HttpOutcome (option (gmap string Q))) (now : Z)
    (args : ConvertArgs) (rates : gmap string Q) :
  api (cc_from args) = Resolved (Some rates) ->
  get rates (cc_to args) = Undefined ->
  convertCurrency api now args
  = Throw (McpError InvalidParams
             ("Exchange rate not available for " +:+ cc_from args +:+ " to "
              +:+ cc_to args)).
Proof.
  intros Hapi Hr. unfold convertCurrency. now rewrite Hapi, Hr.
Qed.

(** A failed request is reported as an internal error. *)
Lemma convertCurrency_request_failed
    (api : string -> HttpOutcome (option (gmap string Q))) (now : Z)
    (args : ConvertArgs) (m : string) :
  api (cc_from args) = Rejected m ->
  convertCurrency api now args
  = Throw (McpError InternalError ("Currency conversion error: " +:+ m)).
Proof.
  intros Hapi. unfold convertCurrency. now rewrite Hapi.
Qed.

(** A currency code that the provider does not list but that names a
    member of [Object.prototype] is not rejected: the quote carries no
    number. *)
Lemma convertCurrency_inherited
    (api : string -> HttpOutcome (option (gmap string Q))) (now : Z)
    (args : ConvertArgs) (rates : gmap string Q) :
  api (cc_from args) = Resolved (Some rates) ->
  rates !! cc_to args = None ->
  in_keys (cc_to args) Object_prototype_keys = true ->
  convertCurrency api now args
  = Return {| exchangeRate := {| er_from := cc_from args; er_to := cc_to args;
                                 er_rate := Inherited (cc_to args);
                                 er_timestamp := now |};
              convertedAmount := None;
              originalAmount := default 1 (cc_amount args) |}.
Proof.
  intros Hapi Hr Hk. unfold convertCurrency, get. now rewrite Hapi, Hr, Hk.
Qed.

(** C7, the failing input: the provider lists EUR, GBP and JPY against
    USD and no rate for a currency named "constructor"; the lookup
    [rates["constructor"]] finds the inherited [Object.prototype]
    member, which is truthy, so the call is not rejected: it answers with
    a quote whose converted amount is not a number. *)
Theorem convert_to_inherited_key_is_not_rejected (now : Z) :
  Samples.usd_rates !! "constructor"%string = None
  /\ convertCurrency (fun _ => Resolved (Some Samples.usd_rates)) now
       {| cc_from := "USD"; cc_to := "constructor"; cc_amount := None |}
     = Return {| exchangeRate := {| er_from := "USD"; er_to := "constructor";
                                    er_rate := Inherited "constructor";
                                    er_timestamp := now |};
                 convertedAmount := None;
                 originalAmount := 1 |}.
Proof. split; reflexivity. Qed.

(** A destination of the table comes back with its own record. *)
Lemma getDestinationCurrency_known (destination : string) (info : CurrencyInfo) :
  destinationCurrencies !! destination = Some info ->
  getDestinationCurrency destination = Own info.
Proof.
  intros H. unfold getDestinationCurrency, get. now rewrite H.
Qed.

(** A destination that is neither in the table nor the name of an
    [Object.prototype] member gets the default. *)
Lemma getDestinationCurrency_unknown (destination : string) :
  destinationCurrencies !! destination = None ->
  in_keys destination Object_prototype_keys = false ->
  getDestinationCurrency destination = Own default_currency.
Proof.
  intros H Hk. unfold getDestinationCurrency, get. now rewrite H, Hk.
Qed.

(** The name of an [Object.prototype] member is answered with that
    member. *)
Lemma getDestinationCurrency_inherited (destination : string) :
  in_keys destination Object_prototype_keys = true ->
  getDestinationCurrency destination = Inherited destination.
Proof.
  intros Hk. unfold in_keys in Hk. apply existsb_exists in Hk as (key & Hin & E).
  apply String.eqb_eq in E as <-.
  unfold Object_prototype_keys in Hin. simpl in Hin.
  repeat (destruct Hin as [<-|Hin]; [reflexivity|]). destruct Hin.
Qed.

Example paris_pays_in_euro :
  exists info, getDestinationCurrency "Paris" = Own info
               /\ code info = "EUR"%string.
Proof. eexists. split; reflexivity. Qed.

Example atlantis_gets_the_default :
  getDestinationCurrency "Atlantis" = Own default_currency.
Proof. reflexivity. Qed.

(** The round trip of the specification: the code of Paris, fed to
    convert_currency with 100 USD, gives 100 times the listed rate. *)
Example paris_round_trip (now : Z) :
  exists info quote,
    getDestinationCurrency "Paris" = Own info
    /\ convertCurrency (fun _ => Resolved (Some Samples.usd_rates)) now
         {| cc_from := "USD"; cc_to := code info; cc_amount := Some 100 |}
       = Return quote
    /\ convertedAmount quote = Some (100 * (92 # 100))
    /\ originalAmount quote = 100.
Proof. do 2 eexists. repeat split. Qed.

(** C8, the failing input: "constructor" is not a destination of the
    table, yet [destinationCurrencies["constructor"]] is the inherited
    [Object.prototype] member, which is truthy, so the default is not
    taken and the handler prints that member instead of a currency. *)
Theorem inherited_key_is_not_defaulted :
  destinationCurrencies !! "constructor"%string = None
  /\ getDestinationCurrency "constructor" = Inherited "constructor"
  /\ getDestinationCurrency "constructor" <> Own default_currency.
Proof. repeat split. discriminate. Qed.

End Currency.

(* ===================================================================== *)
(** * get_currency_trends                                                  *)
(* ===================================================================== *)

Section Trends.

Import Js CurrencyServer Spec.

Context {N : Type} {arithmetic : Number N}.

Variable rng : nat -> N.

Lemma trends_loop_length (n : nat) (today : Z) (acc : list (TrendPoint N))
    (k : nat) :
  length (trends_loop rng n today acc k).1 = (length acc + n)%nat.
Proof.
  revert acc k. induction n as [|i IH]; intros acc k; simpl; [lia|].
  rewrite IH, length_app. simpl. lia.
Qed.


(** The loop appends [today] moved back by [n - 1], ..., 1, 0 days. *)
Lemma trends_loop_dates (n : nat) (today : Z) (acc : list (TrendPoint N))
    (k : nat) :
  map tp_date (trends_loop rng n today acc k).1
  = map tp_date acc
    ++ map (fun j => {| moved_from := today;
                        moved_by := Z.of_nat j - Z.of_nat n + 1 |})
         (seq 0 n).
Proof.
  revert acc k. induction n as [|i IH]; intros acc k.
  - simpl. now rewrite app_nil_r.
  - cbn [trends_loop Math_random]. rewrite IH, map_app, <- app_assoc.
    f_equal. cbn [map app tp_date seq].
    f_equal; [f_equal; lia|]. rewrite <- seq_shift, map_map.
    apply map_ext. intros j. f_equal. lia.
Qed.

Lemma getCurrencyTrends_result (today : Z) (args : TrendsArgs) (k : nat) :
  let days := default 30%Z (tr_days args) in
  let ts := (trends_loop rng (Z.to_nat days) today [] k).1 in
  (getCurrencyTrends rng today args k).1
  = {| t_from := tr_from args; t_to := tr_to args; t_days := days;
       trends := ts;
       averageRate := average_rate ts;
       minRate := min_of (map tp_rate ts);
       maxRate := max_of (map tp_rate ts) |}.
Proof.
  cbv zeta. unfold getCurrencyTrends.
  now destruct (trends_loop rng _ today [] k).
Qed.

(** While the host keeps its offset from UTC, moving a Date by whole
    days moves its printed day by as many days. *)
Lemma toISODate_steady (tz : TimeZone) (lo hi from moved : Z) :
  steady_offset tz lo hi ->
  (lo <= from <= hi)%Z ->
  (lo <= from + moved * ms_per_day <= hi)%Z ->
  toISODate tz {| moved_from := from; moved_by := moved |}
  = (from / ms_per_day + moved)%Z.
Proof.
  intros (c & Hc & Htz) Hfrom Hmoved.
  unfold toISODate, time_value, UTC, LocalTime.
  cbn [moved_from moved_by]. rewrite (Htz from true) by lia.
  rewrite (Htz (from + c + moved * ms_per_day)%Z false) by lia.
  replace (from + c + moved * ms_per_day - c)%Z
    with (from + moved * ms_per_day)%Z by ring.
  apply Z.div_add. unfold ms_per_day. lia.
Qed.

(** On a host that keeps its offset over the last [n] days the loop
    prints the [n] days that end today. *)
Lemma trends_loop_days (tz : TimeZone) (n : nat) (today : Z) (k : nat) :
  steady_offset tz (today - Z.of_nat n * ms_per_day) today ->
  printed_days tz (trends_loop rng n today [] k).1
  = consecutive_days (today / ms_per_day - Z.of_nat n + 1) n.
Proof.
  intros Htz. unfold printed_days, consecutive_days.
  rewrite <- (map_map tp_date (toISODate tz)), trends_loop_dates.
  cbn [map app]. rewrite map_map. apply map_ext_in. intros j Hj.
  apply in_seq in Hj.
  rewrite (toISODate_steady tz _ _ _ _ Htz);
    unfold ms_per_day in *; lia.
Qed.

Lemma consecutive_days_from (c : Z) (a n : nat) :
  StronglySorted Z.lt (map (fun j => (c + Z.of_nat j)%Z) (seq a n)).
Proof.
  revert a. induction n as [|n IH]; intros a; simpl; constructor.
  - apply IH.
  - apply Forall_forall. intros d Hd.
    apply list_elem_of_In, in_map_iff in Hd as (j & <- & Hj).
    apply in_seq in Hj. lia.
Qed.

Lemma consecutive_days_ascend (first : Z) (n : nat) :
  StronglySorted Z.lt (consecutive_days first n).
Proof. apply consecutive_days_from. Qed.

Lemma consecutive_days_last (first : Z) (n : nat) :
  last (consecutive_days first (S n)) = Some (first + Z.of_nat n)%Z.
Proof.
  unfold consecutive_days. rewrite seq_S, map_app. cbn [map].
  now rewrite last_snoc.
Qed.

(** In Berlin, in the night of 5 April 2024, the thirty dates are not in
    ascending order, whatever the rates: 31 March is printed twice. *)
Lemma berlin_repeats_a_date (k : nat) :
  let result := (getCurrencyTrends rng Samples.april_4_2330
                   Samples.usd_eur_trends k).1 in
  printed_days Samples.berlin_time (trends result) !! 24%nat = Some 19813%Z
  /\ printed_days Samples.berlin_time (trends result) !! 25%nat
     = Some 19813%Z.
Proof.
  cbv zeta. rewrite getCurrencyTrends_result. cbn [trends].
  unfold printed_days.
  rewrite <- (map_map tp_date (toISODate Samples.berlin_time)).
  rewrite trends_loop_dates. split; vm_compute; reflexivity.
Qed.

(** Berlin keeps its summer time offset from a day before 2 May 2024 to
    a day after noon of 1 June. *)
Example berlin_is_steady_in_may :
  steady_offset Samples.berlin_time
    (Samples.noon_june_1 - 30 * ms_per_day) Samples.noon_june_1.
Proof.
  exists 7200000%Z. split; [unfold ms_per_day; lia|].
  intros t isUTC Ht. unfold Samples.berlin_time.
  unfold Samples.noon_june_1, Samples.march_31_0100, msPerDay, ms_per_day
    in *.
  destruct isUTC;
    match goal with |- context [(?a <? ?b)%Z] =>
      destruct (Z.ltb_spec a b); [lia | reflexivity] end.
Qed.

End Trends.

Section ExactTrends.

Import Js CurrencyServer Spec.
Local Open Scope Q_scope.

Lemma Qmin_either (a b : Q) : Qmin a b = a \/ Qmin a b = b.
Proof.
  unfold Qmin, GenericMinMax.gmin. destruct (a ?= b); auto.
Qed.

Lemma Qmax_either (a b : Q) : Qmax a b = a \/ Qmax a b = b.
Proof.
  unfold Qmax, GenericMinMax.gmax. destruct (a ?= b); auto.
Qed.

Lemma fold_Qmin_spec (xs : list Q) (a : Q) :
  is_minimum (fold_left Qmin xs a) (a :: xs).
Proof.
  revert a. induction xs as [|x xs IH]; intros a; simpl.
  - split; [now left|]. intros y [<-|[]]. apply Qle_refl.
  - destruct (IH (Qmin a x)) as [Hin Hle]. split.
    + destruct Hin as [Hin|Hin]; [|now right; right].
      rewrite <- Hin. destruct (Qmin_either a x) as [->| ->]; simpl; auto.
    + assert (Hm : fold_left Qmin xs (Qmin a x) <= Qmin a x)
        by (apply Hle; now left).
      intros y [<-|[<-|Hy]].
      * eapply Qle_trans; [exact Hm | apply Q.le_min_l].
      * eapply Qle_trans; [exact Hm | apply Q.le_min_r].
      * apply Hle. now right.
Qed.

Lemma fold_Qmax_spec (xs : list Q) (a : Q) :
  is_maximum (fold_left Qmax xs a) (a :: xs).
Proof.
  revert a. induction xs as [|x xs IH]; intros a; simpl.
  - split; [now left|]. intros y [<-|[]]. apply Qle_refl.
  - destruct (IH (Qmax a x)) as [Hin Hle]. split.
    + destruct Hin as [Hin|Hin]; [|now right; right].
      rewrite <- Hin. destruct (Qmax_either a x) as [->| ->]; simpl; auto.
    + assert (Hm : Qmax a x <= fold_left Qmax xs (Qmax a x))
        by (apply Hle; now left).
      intros y [<-|[<-|Hy]].
      * eapply Qle_trans; [apply Q.le_max_l | exact Hm].
      * eapply Qle_trans; [apply Q.le_max_r | exact Hm].
      * apply Hle. now right.
Qed.

Lemma sum_map {A : Type} (f : A -> Q) (xs : list A) :
  sum id (map f xs) == sum f xs.
Proof.
  induction xs as [|x xs IH]; simpl; [reflexivity|].
  rewrite IH. reflexivity.
Qed.

Lemma inject_length_cons {A : Type} (x : A) (xs : list A) :
  inject_Z (Z.of_nat (length (x :: xs)))
  == inject_Z (Z.of_nat (length xs)) + 1.
Proof.
  cbn [length]. rewrite Nat2Z.inj_succ, <- Z.add_1_r, inject_Z_plus.
  reflexivity.
Qed.

(** Numbers between [lo] and [hi] add up to between [lo] and [hi] times
    their count. *)
Lemma sum_between (lo hi : Q) (xs : list Q) :
  (forall x, In x xs -> lo <= x <= hi) ->
  lo * inject_Z (Z.of_nat (length xs)) <= sum id xs
  <= hi * inject_Z (Z.of_nat (length xs)).
Proof.
  induction xs as [|x xs IH]; intros H.
  - cbn [length sum Z.of_nat]. change (inject_Z 0) with 0.
    rewrite !Qmult_0_r. split; apply Qle_refl.
  - rewrite inject_length_cons. cbn [sum]. unfold id at 1 3.
    destruct IH as [IHl IHh]; [intros y Hy; apply H; now right|].
    destruct (H x) as [Hl Hh]; [now left|].
    split; lra.
Qed.

(** In exact arithmetic the sum the code folds is the sum of the
    rates. *)
Lemma sum_of_rates_exact (ts : list (TrendPoint Q)) :
  sum_of_rates ts = reduce_sum tp_rate ts.
Proof. reflexivity. Qed.

(** The least and the greatest of the listed rates. *)
Lemma extremes_of_trends (ts : list (TrendPoint Q)) :
  ts <> [] ->
  exists mn mx,
    min_of (map tp_rate ts) = Some mn
    /\ max_of (map tp_rate ts) = Some mx
    /\ is_minimum mn (map tp_rate ts)
    /\ is_maximum mx (map tp_rate ts).
Proof.
  destruct ts as [|t ts]; [congruence|]. intros _.
  exists (fold_left Qmin (map tp_rate ts) (tp_rate t)),
         (fold_left Qmax (map tp_rate ts) (tp_rate t)).
  split; [reflexivity|]. split; [reflexivity|]. split.
  - apply (fold_Qmin_spec (map tp_rate ts) (tp_rate t)).
  - apply (fold_Qmax_spec (map tp_rate ts) (tp_rate t)).
Qed.

(** In exact arithmetic the average of a list of trends that is not
    empty is the mean of the rates, and lies between the least and the
    greatest of them. *)
Lemma exact_average_between (ts : list (TrendPoint Q)) (mn mx : Q) :
  ts <> [] ->
  is_minimum mn (map tp_rate ts) ->
  is_maximum mx (map tp_rate ts) ->
  exists av,
    average_rate ts = Some av
    /\ is_mean av (map tp_rate ts)
    /\ mn <= av <= mx.
Proof.
  destruct ts as [|t ts]; [congruence|]. intros _ Hmin Hmax.
  set (l := t :: ts) in *.
  set (n := inject_Z (Z.of_nat (length l))).
  assert (Hn : 0 < n).
  { unfold n. change 0 with (inject_Z 0). rewrite <- Zlt_Qlt.
    subst l. cbn [length]. lia. }
  assert (Hsum : reduce_sum tp_rate l == sum id (map tp_rate l))
    by (now rewrite reduce_sum_sum, sum_map).
  assert (Hmean : reduce_sum tp_rate l / n * n == sum id (map tp_rate l)).
  { rewrite <- Hsum. field. lra. }
  exists (reduce_sum tp_rate l / n).
  split; [reflexivity|]. split.
  { unfold is_mean. rewrite length_map. exact Hmean. }
  destruct (sum_between mn mx (map tp_rate l)) as [Hlo Hhi].
  { intros x Hx. split; [now apply Hmin | now apply Hmax]. }
  rewrite length_map in Hlo, Hhi. fold n in Hlo, Hhi.
  rewrite <- Hsum in Hlo, Hhi. split.
  - apply Qle_shift_div_l; assumption.
  - apply Qle_shift_div_r; assumption.
Qed.

(** In binary64 it does not: thirty equal rates of 0.7999999999999999,
    the rate for two draws of 0, add up to a sum whose thirtieth part is
    0.8000000000000004. *)
Lemma binary64_average_above_max (today : Z) (k : nat) :
  let result := (getCurrencyTrends Samples.zeros today
                   Samples.usd_eur_trends k).1 in
  exists mn av mx,
    minRate result = Some mn
    /\ averageRate result = Some av
    /\ maxRate result = Some mx
    /\ mn = mx
    /\ num_le av mx = false
    /\ num_le mx (num_lit (7999999999999999 # 10000000000000000)) = true
    /\ num_le (num_lit (8000000000000004 # 10000000000000000)) av = true.
Proof.
  cbv zeta. rewrite getCurrencyTrends_result.
  cbn [minRate averageRate maxRate].
  do 3 eexists.
  split; [vm_compute; reflexivity|].
  split; [vm_compute; reflexivity|].
  split; [vm_compute; reflexivity|].
  repeat split; vm_compute; reflexivity.
Qed.

End ExactTrends.

Section TrendsClaim.

Import Js CurrencyServer Spec.
Local Open Scope Q_scope.

(** C9, as the specification has it, fails on a host in Berlin whose
    clock reads 4 April 2024, 23:30 UTC, with a random source that draws
    0: the dates are not ascending, since 31 March is listed twice, and
    in binary64 the average exceeds the maximum. *)
Lemma thirty_day_trends_not_as_specified :
  ~ trends_as_specified Samples.berlin_time Samples.april_4_2330
      (getCurrencyTrends Samples.zeros Samples.april_4_2330
         Samples.usd_eur_trends 0%nat).1.
Proof.
  intros (_ & Hsorted & _).
  destruct (berlin_repeats_a_date Samples.zeros 0%nat) as [H24 H25].
  cbv zeta in H24, H25.
  set (days := printed_days _ _) in *.
  assert (Hlt : forall (l : list Z) (i j : nat) (x y : Z),
             StronglySorted Z.lt l -> (i < j)%nat ->
             l !! i = Some x -> l !! j = Some y -> (x < y)%Z).
  { clear. intros l i j x y Hs. revert i j.
    induction Hs as [|a l Hs IH Ha]; intros i j Hij Hi Hj;
      [now rewrite lookup_nil in Hi|].
    destruct j as [|j]; [lia|]. cbn in Hj.
    destruct i as [|i].
    - cbn in Hi. injection Hi as <-.
      rewrite Forall_forall in Ha. apply Ha.
      now apply list_elem_of_lookup_2 in Hj.
    - cbn in Hi. apply (IH i j); [lia | assumption | assumption]. }
  pose proof (Hlt days 24%nat 25%nat _ _ Hsorted ltac:(lia) H24 H25). lia.
Qed.

(** C9, amended: a get_currency_trends call with [days] 30, given or by
    default, returns exactly 30 entries; on a host whose offset from UTC
    does not change over these 30 days their dates are the thirty
    consecutive days that end on today's date, in ascending order;
    [minRate] and [maxRate] are the least and the greatest of the listed
    rates, and [averageRate] is the sum of the listed rates divided by
    30. *)
Theorem trends_for_thirty_days (rng : nat -> Q) (today : Z)
    (args : TrendsArgs) (k : nat) :
  default 30%Z (tr_days args) = 30%Z ->
  let result := (getCurrencyTrends rng today args k).1 in
  let rates := map tp_rate (trends result) in
  length (trends result) = 30%nat
  /\ (forall tz, steady_offset tz (today - 30 * ms_per_day) today ->
        printed_days tz (trends result)
        = consecutive_days (today / ms_per_day - 29) 30
        /\ StronglySorted Z.lt (printed_days tz (trends result))
        /\ last (printed_days tz (trends result))
           = Some (today / ms_per_day)%Z)
  /\ (exists mn mx,
        minRate result = Some mn
        /\ maxRate result = Some mx
        /\ is_minimum mn rates
        /\ is_maximum mx rates)
  /\ averageRate result = Some (reduce_sum tp_rate (trends result) / 30).
Proof.
  intros Hdays. cbv zeta. rewrite getCurrencyTrends_result, Hdays.
  cbn [trends minRate averageRate maxRate].
  change (Z.to_nat 30) with 30%nat.
  set (ts := (trends_loop rng 30 today [] k).1).
  assert (Hlen : length ts = 30%nat)
    by (unfold ts; now rewrite trends_loop_length).
  split; [exact Hlen|]. split; [|split].
  - intros tz Htz.
    assert (E : printed_days tz ts
                = consecutive_days (today / ms_per_day - 29) 30).
    { unfold ts. rewrite trends_loop_days by exact Htz.
      f_equal. lia. }
    rewrite E. split; [reflexivity|].
    split; [apply consecutive_days_ascend|].
    rewrite consecutive_days_last. f_equal. lia.
  - apply extremes_of_trends. intros E. now rewrite E in Hlen.
  - destruct ts as [|t ts'] eqn:Ets; [discriminate|].
    unfold average_rate. rewrite Hlen. reflexivity.
Qed.

Lemma trends_for_thirty_days_witness :
  let result := (getCurrencyTrends Samples.sevenths Samples.noon_june_1
                   Samples.usd_eur_trends 0%nat).1 in
  let rates := map tp_rate (trends result) in
  length (trends result) = 30%nat
  /\ printed_days Samples.tokyo_time (trends result)
     = consecutive_days 19846 30
  /\ last (printed_days Samples.tokyo_time (trends result)) = Some 19875%Z
  /\ (exists mn mx,
        minRate result = Some mn
        /\ maxRate result = Some mx
        /\ is_minimum mn rates
        /\ is_maximum mx rates)
  /\ averageRate result = Some (reduce_sum tp_rate (trends result) / 30).
Proof.
  destruct (trends_for_thirty_days Samples.sevenths Samples.noon_june_1
              Samples.usd_eur_trends 0%nat eq_refl)
    as (Hlen & Hdates & Hext & Hav).
  destruct (Hdates Samples.tokyo_time) as (Hd & _ & Hl).
  { exists 32400000%Z. split; [unfold ms_per_day; lia | reflexivity]. }
  split; [exact Hlen|]. split; [exact Hd|]. split; [exact Hl|].
  split; [exact Hext | exact Hav].
Defined.

End TrendsClaim.

(* ===================================================================== *)
(** * More on the orchestrator                                            *)
(* ===================================================================== *)

Section FloorFacts.

Import Js.
Local Open Scope Q_scope.

Lemma Qfloor_unique (x : Q) (z : Z) :
  inject_Z z <= x -> x < inject_Z (z + 1) -> Qfloor x = z.
Proof.
  intros Hlo Hhi.
  pose proof (Qfloor_le x) as Hl. pose proof (Qlt_floor x) as Hh.
  assert (H1 : (z < Qfloor x + 1)%Z).
  { rewrite Zlt_Qlt. eapply Qle_lt_trans; eassumption. }
  assert (H2 : (Qfloor x < z + 1)%Z).
  { rewrite Zlt_Qlt. eapply Qle_lt_trans; eassumption. }
  lia.
Qed.

Lemma Math_round_shift (x : Q) (n : Z) :
  Math_round (x + inject_Z n) = (Math_round x + n)%Z.
Proof.
  unfold Math_round. apply Qfloor_unique.
  - rewrite inject_Z_plus. pose proof (Qfloor_le (x + (1 # 2))). lra.
  - pose proof (Qlt_floor (x + (1 # 2))) as H.
    rewrite !inject_Z_plus in *. lra.
Qed.

Lemma Math_round_mono (x y : Q) : x <= y -> (Math_round x <= Math_round y)%Z.
Proof. intros H. unfold Math_round. apply Qfloor_resp_le. lra. Qed.

(** [Math.floor(Math.random() * n)] is one of 0, ..., n-1. *)
Lemma floor_of_draw (r : Q) (n : Z) :
  0 <= r < 1 -> (0 < n)%Z ->
  (0 <= Math_floor (r * inject_Z n) <= n - 1)%Z.
Proof.
  intros [Hr0 Hr1] Hn. unfold Math_floor.
  assert (Hn' : 0 < inject_Z n).
  { change 0 with (inject_Z 0). now rewrite <- Zlt_Qlt. }
  split.
  - rewrite <- (Qfloor_Z 0). apply Qfloor_resp_le.
    change (inject_Z 0) with 0. nra.
  - assert (H : (Qfloor (r * inject_Z n) < n)%Z); [|lia].
    rewrite Zlt_Qlt. eapply Qle_lt_trans; [apply Qfloor_le|]. nra.
Qed.

(** [Math.ceil(a / b)] on integers. *)
Lemma Math_ceil_div (a b : Z) :
  (0 < b)%Z ->
  Math_ceil (inject_Z a / inject_Z b) = (- ((- a) / b))%Z.
Proof.
  intros Hb. unfold Math_ceil, Qceiling. f_equal.
  rewrite Zdiv_Qdiv. apply Qfloor_comp.
  rewrite inject_Z_opp. field.
  change 0 with (inject_Z 0). rewrite inject_Z_injective. lia.
Qed.

End FloorFacts.

Section Activities.

Import Js Orchestrator Spec.
Local Open Scope Q_scope.

Lemma filter_keeps_order {A : Type} (f : A -> bool) (l : list A) :
  sublist (List.filter f l) l.
Proof.
  induction l as [|x l IH]; simpl; [constructor|].
  destruct (f x); now constructor.
Qed.

Lemma activity_wanted_spec (activityTypes : option (list string))
    (a : Activity) :
  activity_wanted activityTypes a = true <-> wanted activityTypes a.
Proof.
  unfold activity_wanted, wanted.
  destruct activityTypes as [[|t ts]|]; [tauto| |tauto].
  cbn [length Nat.eqb orb]. rewrite existsb_exists. split.
  - intros (x & Hin & E). apply String.eqb_eq in E. now subst.
  - intros Hin. exists (activity_type a). split; [exact Hin|].
    apply String.eqb_refl.
Qed.

(** X1: getActivities returns, in the order of the catalogue, exactly
    the catalogue's activities whose type is among the requested types;
    a missing list of types and an empty one both return the whole
    catalogue. *)
Theorem getActivities_selects (destination : string)
    (activityTypes : option (list string)) :
  sublist (getActivities destination activityTypes) all_activities
  /\ (forall a, In a (getActivities destination activityTypes)
                <-> In a all_activities /\ wanted activityTypes a)
  /\ getActivities destination None = all_activities
  /\ getActivities destination (Some []) = all_activities.
Proof.
  unfold getActivities. split; [apply filter_keeps_order|].
  split; [|split; reflexivity].
  intros a. rewrite filter_In. now rewrite activity_wanted_spec.
Qed.

Lemma sum_nonneg {A : Type} (f : A -> Q) (xs : list A) :
  (forall x, In x xs -> 0 <= f x) -> 0 <= sum f xs.
Proof.
  induction xs as [|x xs IH]; intros H; simpl; [lra|].
  assert (0 <= f x) by (apply H; now left).
  assert (0 <= sum f xs) by (apply IH; intros y Hy; apply H; now right).
  lra.
Qed.

Lemma activity_prices_nonneg (destination : string)
    (activityTypes : option (list string)) :
  0 <= sum activity_price (getActivities destination activityTypes).
Proof.
  apply sum_nonneg. intros a Ha.
  unfold getActivities in Ha. apply filter_In in Ha as [Ha _].
  unfold all_activities in Ha. simpl in Ha.
  destruct Ha as [<-|[<-|[<-|[]]]]; simpl; lra.
Qed.

End Activities.

Section Nights.

Import Js Orchestrator Spec.

(** X2: when the end date is after the start date, searchHotels bills
    at least one night, and a started day counts as a whole night: the
    stay is longer than [nights - 1] days and at most [nights] days. *)
Theorem nights_round_up (startDate endDate : DateArg) :
  (date_time startDate < date_time endDate)%Z ->
  (1 <= nights_between startDate endDate
   /\ (nights_between startDate endDate - 1) * msPerDay
      < date_time endDate - date_time startDate
      <= nights_between startDate endDate * msPerDay)%Z.
Proof.
  intros H. unfold nights_between.
  rewrite Math_ceil_div by (unfold msPerDay; lia).
  set (d := (date_time endDate - date_time startDate)%Z) in *.
  assert (Hd : (0 < d)%Z) by (unfold d; lia).
  pose proof (Z.div_mod (- d) msPerDay ltac:(unfold msPerDay; lia)) as E.
  pose proof (Z.mod_pos_bound (- d) msPerDay ltac:(unfold msPerDay; lia)) as B.
  unfold msPerDay in *. lia.
Qed.

(** A stay of whole days is billed by its number of days. *)
Lemma nights_of_whole_days (startDate endDate : DateArg) (n : Z) :
  date_time endDate = (date_time startDate + n * msPerDay)%Z ->
  nights_between startDate endDate = n.
Proof.
  intros H. unfold nights_between.
  rewrite Math_ceil_div by (unfold msPerDay; lia).
  replace (- (date_time endDate - date_time startDate))%Z
    with ((- n) * msPerDay)%Z by lia.
  rewrite Z.div_mul by (unfold msPerDay; lia). lia.
Qed.

Lemma nights_round_up_witness :
  (1 <= nights_between Samples.june_1 Samples.june_8
   /\ (nights_between Samples.june_1 Samples.june_8 - 1) * msPerDay
      < date_time Samples.june_8 - date_time Samples.june_1
      <= nights_between Samples.june_1 Samples.june_8 * msPerDay)%Z.
Proof.
  apply (nights_round_up Samples.june_1 Samples.june_8). reflexivity.
Defined.

End Nights.

Section PlanBill.

Import Js Orchestrator Spec.
Local Open Scope Q_scope.

Lemma nights_at_least_one (startDate endDate : DateArg) :
  (date_time startDate < date_time endDate)%Z ->
  1 <= inject_Z (nights_between startDate endDate).
Proof.
  intros H. change 1 with (inject_Z 1). rewrite <- Zle_Qle.
  unfold nights_between. rewrite Math_ceil_div by (unfold msPerDay; lia).
  pose proof (Z.div_mod (- (date_time endDate - date_time startDate)) msPerDay
                ltac:(unfold msPerDay; lia)) as E.
  pose proof (Z.mod_pos_bound (- (date_time endDate - date_time startDate))
                msPerDay ltac:(unfold msPerDay; lia)) as B.
  unfold msPerDay in *. lia.
Qed.

(** X3: a request whose two dates parse, with the end date after the
    start date, for a whole number of travelers that is not negative, gets
    a plan whose total is 870 per traveler for the two flights, plus the
    selected activities per traveler, plus 270 per night for the two
    hotels; the total is at least 270. *)
Theorem planTrip_bill (rng : nat -> Q) (args : PlanTripArgs)
    (startDate endDate : DateArg) (travelers : Z) (k : nat) :
  pt_startDate args = Parsed startDate ->
  pt_endDate args = Parsed endDate ->
  (date_time startDate < date_time endDate)%Z ->
  default 1 (pt_travelers args) == inject_Z travelers ->
  (0 <= travelers)%Z ->
  exists plan,
    (planTrip rng args k).1 = Return (Priced plan)
    /\ tp_totalCost plan
       == (870 + sum activity_price (tp_activities plan)) * inject_Z travelers
          + 270 * inject_Z (nights_between startDate endDate)
    /\ 270 <= tp_totalCost plan.
Proof.
  intros Es Ee Hd Et Ht. unfold planTrip, date_ge, searchHotels_input.
  rewrite Es, Ee. cbn [getTime input_text].
  destruct (Z.geb_spec (date_time startDate) (date_time endDate)); [lia|].
  destruct (getSafetyRating rng (pt_destination args) k) as [safety k1].
  eexists. split; [reflexivity|].
  cbn [fst tp_totalCost tp_activities].
  set (people := default 1 (pt_travelers args)) in *.
  set (prefs := default default_preferences (pt_preferences args)).
  pose proof (activity_prices_nonneg (pt_destination args)
                (activityTypes prefs)) as Ha.
  pose proof (nights_at_least_one _ _ Hd) as Hn.
  assert (Hp : 0 <= people).
  { rewrite Et. change 0 with (inject_Z 0). now rewrite <- Zle_Qle. }
  set (acts := getActivities (pt_destination args) (activityTypes prefs)) in *.
  set (nights := inject_Z (nights_between startDate endDate)) in *.
  assert (E : calculateTotalCost
                (searchFlights (pt_origin args) (pt_destination args)
                   (date_text startDate) (date_text endDate) people)
                (searchHotels (pt_destination args) startDate endDate
                   people (accommodationType prefs))
                acts people
              == (870 + sum activity_price acts) * people + 270 * nights).
  { unfold calculateTotalCost. rewrite !reduce_sum_sum.
    unfold searchFlights, searchHotels. cbn [sum flight_price totalPrice].
    fold nights. ring. }
  split; [rewrite E, Et; reflexivity|]. rewrite E. nra.
Qed.

Lemma planTrip_bill_witness :
  exists plan,
    (planTrip (fun _ => 0)
       (Samples.tokyo_trip (Parsed Samples.june_1) (Parsed Samples.june_8))
       0%nat).1
    = Return (Priced plan)
    /\ tp_totalCost plan
       == (870 + sum activity_price (tp_activities plan)) * inject_Z 2
          + 270 * inject_Z (nights_between Samples.june_1 Samples.june_8)
    /\ 270 <= tp_totalCost plan.
Proof.
  apply (planTrip_bill (fun _ => 0)
           (Samples.tokyo_trip (Parsed Samples.june_1) (Parsed Samples.june_8))
           Samples.june_1 Samples.june_8 2%Z 0%nat).
  - reflexivity.
  - reflexivity.
  - reflexivity.
  - reflexivity.
  - lia.
Defined.

End PlanBill.

Section ScoreShape.

Import Js Orchestrator Spec.
Local Open Scope Q_scope.

(** In exact arithmetic a weather preference that matches the current
    conditions is worth ten points over one that does not match (or is
    missing), all else equal. *)
Lemma score_match_adds_ten (weather : WeatherForecast)
    (hotelCost safety : Q) (activities : list Activity)
    (matching other : Criteria) :
  weather_matches weather matching = true ->
  weather_matches weather other = false ->
  calculateOverallScore weather hotelCost safety activities matching
  = (calculateOverallScore weather hotelCost safety activities other + 10)%Z.
Proof.
  intros Hm Ho. rewrite !score_terms, Hm, Ho.
  rewrite <- Math_round_shift. apply Math_round_comp.
  change (inject_Z 10) with 10. ring.
Qed.

Lemma cost_term_antitone (c c' : Q) : c' <= c -> cost_term c <= cost_term c'.
Proof.
  intros H. unfold cost_term. apply Q.max_le_compat_l.
  assert (c / 10 == c * (1 # 10)) by field.
  assert (c' / 10 == c' * (1 # 10)) by field. lra.
Qed.

Lemma safety_term_mono (s s' : Q) : s <= s' -> safety_term s <= safety_term s'.
Proof.
  intros H. unfold safety_term.
  assert (s / 5 * 25 == s * 5) by field.
  assert (s' / 5 * 25 == s' * 5) by field. lra.
Qed.

Lemma activity_term_mono (n n' : nat) :
  (n <= n')%nat -> activity_term n <= activity_term n'.
Proof.
  intros H. unfold activity_term. apply Q.min_le_compat_r.
  assert (inject_Z (Z.of_nat n) <= inject_Z (Z.of_nat n'));
    [rewrite <- Zle_Qle; lia | lra].
Qed.

(** X5: the score never rises when the hotel cost rises, and never
    falls when the safety rating rises or when activities are added. *)
Theorem score_monotone (weather : WeatherForecast) (criteria : Criteria)
    (hotelCost hotelCost' safety safety' : Q)
    (activities activities' : list Activity) :
  hotelCost' <= hotelCost ->
  safety <= safety' ->
  (length activities <= length activities')%nat ->
  (calculateOverallScore weather hotelCost safety activities criteria
   <= calculateOverallScore weather hotelCost' safety' activities' criteria)%Z.
Proof.
  intros Hc Hs Ha. rewrite !score_terms. apply Math_round_mono.
  pose proof (cost_term_antitone _ _ Hc).
  pose proof (safety_term_mono _ _ Hs).
  pose proof (activity_term_mono _ _ Ha).
  destruct (weather_matches weather criteria); lra.
Qed.

Lemma score_monotone_witness :
  (calculateOverallScore Samples.sunny 180 4 [] Samples.empty_preference
   <= calculateOverallScore Samples.sunny 120 5 all_activities
        Samples.empty_preference)%Z.
Proof.
  apply (score_monotone Samples.sunny Samples.empty_preference 180 120 4 5
           [] all_activities).
  - apply Qle_bool_imp_le. reflexivity.
  - apply Qle_bool_imp_le. reflexivity.
  - simpl. lia.
Defined.

(** X6: a hotel cost of 250 or more earns no cost points and four
    activities earn all the activity points: beyond these marks the
    score does not change any more. *)
Theorem score_saturates (weather : WeatherForecast) (criteria : Criteria)
    (hotelCost hotelCost' safety : Q) (activities activities' : list Activity) :
  250 <= hotelCost -> 250 <= hotelCost' ->
  (4 <= length activities)%nat -> (4 <= length activities')%nat ->
  cost_term hotelCost == 0
  /\ activity_term (length activities) == 20
  /\ calculateOverallScore weather hotelCost safety activities criteria
     = calculateOverallScore weather hotelCost' safety activities' criteria.
Proof.
  intros Hc Hc' Ha Ha'.
  assert (C : forall c, 250 <= c -> cost_term c == 0).
  { intros c H. unfold cost_term. apply Q.max_l.
    assert (c / 10 == c * (1 # 10)) by field. lra. }
  assert (A : forall n, (4 <= n)%nat -> activity_term n == 20).
  { intros n H. unfold activity_term. apply Q.min_r.
    assert (inject_Z 4 <= inject_Z (Z.of_nat n)); [rewrite <- Zle_Qle; lia|].
    change (inject_Z 4) with 4 in *. lra. }
  split; [now apply C|]. split; [now apply A|].
  rewrite !score_terms. apply Math_round_comp.
  now rewrite (C _ Hc), (C _ Hc'), (A _ Ha), (A _ Ha').
Qed.

Lemma score_saturates_witness :
  cost_term 300 == 0
  /\ activity_term 4 == 20
  /\ calculateOverallScore Samples.sunny 300 5
       (all_activities ++ all_activities) Samples.empty_preference
     = calculateOverallScore Samples.sunny 250 5
         (all_activities ++ firstn 1 all_activities)
         Samples.empty_preference.
Proof.
  apply (score_saturates Samples.sunny Samples.empty_preference 300 250 5
           (all_activities ++ all_activities)
           (all_activities ++ firstn 1 all_activities)).
  - apply Qle_bool_imp_le. reflexivity.
  - apply Qle_bool_imp_le. reflexivity.
  - simpl. lia.
  - simpl. lia.
Defined.

End ScoreShape.

Section ComparisonRanges.

Import Js Orchestrator Spec.
Local Open Scope Q_scope.

Lemma each_Forall {A B : Type} (f : A -> Rand B) (P : B -> Prop)
    (xs : list A) (k : nat) :
  (forall x k', P (f x k').1) -> Forall P (each f xs k).1.
Proof.
  intros HP. revert k.
  induction xs as [|x xs IH]; intros k; simpl; [constructor|].
  specialize (HP x k). destruct (f x k) as [y k1]. specialize (IH k1).
  destruct (each f xs k1) as [ys k2]. now constructor.
Qed.

Lemma Forall_zip_with3 {A B C D : Type} (f : A -> B -> C -> D)
    (P : B -> Prop) (R : C -> Prop) (G : D -> Prop)
    (ds : list A) (xs : list B) (ys : list C) :
  Forall P xs -> Forall R ys ->
  (forall d x y, P x -> R y -> G (f d x y)) ->
  Forall G (zip_with (fun d xy => f d xy.1 xy.2) ds (zip xs ys)).
Proof.
  intros Hx Hy Hf. revert xs ys Hx Hy.
  induction ds as [|d ds IH]; intros xs ys Hx Hy; [constructor|].
  destruct Hx as [|x xs Px Hx]; [constructor|].
  destruct Hy as [|y ys Ry Hy]; [constructor|].
  cbn. constructor; [now apply Hf | now apply IH].
Qed.

Lemma sevenths_in_unit_interval : unit_interval Samples.sevenths.
Proof.
  intros k. unfold Samples.sevenths, Qle, Qlt. cbn [Qnum Qden].
  pose proof (Nat.mod_upper_bound k 7 ltac:(lia)). lia.
Qed.

Section WithRandom.

Variable rng : nat -> Q.
Hypothesis rng_unit : unit_interval rng.

Lemma safety_rating_is_4_or_5 (destination : string) (k : nat) :
  (getSafetyRating rng destination k).1 == 4
  \/ (getSafetyRating rng destination k).1 == 5.
Proof using rng_unit.
  unfold getSafetyRating, Math_random. cbn [fst].
  pose proof (floor_of_draw (rng k) 2 (rng_unit k) ltac:(lia)) as H.
  change (inject_Z 2) with 2 in H.
  assert (E : Math_floor (rng k * 2) = 0%Z \/ Math_floor (rng k * 2) = 1%Z)
    by lia.
  destruct E as [-> | ->]; [left | right]; reflexivity.
Qed.

Lemma hotel_cost_range (destination : string) (k : nat) :
  exists n : Z,
    (getAverageHotelCost rng destination k).1 = inject_Z n + 100
    /\ (0 <= n <= 99)%Z.
Proof using rng_unit.
  unfold getAverageHotelCost, Math_random. cbn [fst].
  exists (Math_floor (rng k * 100)). split; [reflexivity|].
  pose proof (floor_of_draw (rng k) 100 (rng_unit k) ltac:(lia)) as H.
  change (inject_Z 100) with 100 in H. lia.
Qed.

Lemma comparison_score_range (criteria : Criteria) (dest : string)
    (cost safety : Q) :
  100 <= cost <= 199 -> (safety == 4 \/ safety == 5) ->
  (45 <= overallScore (comparison criteria dest cost safety) <= 85)%Z.
Proof.
  intros Hc Hs. unfold comparison. cbn [overallScore].
  rewrite score_terms. apply Math_round_bounds;
    change (inject_Z 45) with 45; change (inject_Z 85) with 85.
  all: set (acts := getActivities dest (crit_activities criteria)).
  all: assert (Hlen : (length acts <= 3)%nat)
         by (unfold acts, getActivities; apply filter_length_le).
  all: pose proof (activity_term_bounds (length acts)) as [Ha0 _].
  all: pose proof (activity_term_mono _ _ Hlen) as Ha1.
  all: assert (A3 : activity_term 3 == 15)
         by (unfold activity_term; apply Q.min_l; apply Qle_bool_imp_le;
             reflexivity).
  all: assert (Ec : cost_term cost == 25 - cost * (1 # 10)).
  1, 3: unfold cost_term; rewrite Q.max_r;
        [field | assert (cost / 10 == cost * (1 # 10)) by field; lra].
  all: assert (Es : safety_term safety == safety * 5)
         by (unfold safety_term; field).
  all: destruct (weather_matches _ criteria); destruct Hs as [Hs|Hs]; lra.
Qed.

(** X7: with draws in [0, 1), every entry compare_destinations returns
    has a safety rating of 4 or 5, a whole average hotel cost from 100 to
    199, at most three activities, and an overall score from 45 to 85. *)
Theorem comparison_entries_in_range (args : CompareArgs) (k : nat) :
  Forall (fun d =>
            (ds_safetyRating d == 4 \/ ds_safetyRating d == 5)
            /\ (exists n : Z, averageHotelCost d = inject_Z n + 100
                              /\ (0 <= n <= 99)%Z)
            /\ (activityScore d <= 3)%nat
            /\ (45 <= overallScore d <= 85)%Z)
    (compareDestinations rng args k).1.
Proof using rng_unit.
  rewrite compareDestinations_sort.
  eapply Permutation_Forall; [apply sort_perm|].
  unfold comparisons.
  pose proof (each_Forall (getAverageHotelCost rng)
                (fun c => exists n : Z, c = inject_Z n + 100
                                        /\ (0 <= n <= 99)%Z)
                (cmp_destinations args) k
                (fun x k' => hotel_cost_range x k')) as Hc.
  destruct (each (getAverageHotelCost rng) (cmp_destinations args) k)
    as [costs k1].
  pose proof (each_Forall (getSafetyRating rng)
                (fun s => s == 4 \/ s == 5)
                (cmp_destinations args) k1
                (fun x k' => safety_rating_is_4_or_5 x k')) as Hs.
  destruct (each (getSafetyRating rng) (cmp_destinations args) k1)
    as [safeties k2].
  cbn [fst] in *.
  apply (Forall_zip_with3
           (comparison (default default_criteria (cmp_criteria args)))
           _ _ _ _ _ _ Hc Hs).
  intros dest c s Pc Ps. cbn [ds_safetyRating averageHotelCost activityScore
                              comparison].
  split; [exact Ps|]. split; [exact Pc|]. split.
  - unfold getActivities. apply filter_length_le.
  - apply comparison_score_range; [|exact Ps].
    destruct Pc as (n & -> & Hn).
    assert (inject_Z 0 <= inject_Z n <= inject_Z 99)
      by (rewrite <- !Zle_Qle; lia).
    change (inject_Z 0) with 0 in *. change (inject_Z 99) with 99 in *. lra.
Qed.

Lemma zip_with_map {A B C D : Type} (f : A -> B -> C) (g : C -> D)
    (h : A -> B -> D) (xs : list A) (ys : list B) :
  (forall x y, h x y = g (f x y)) ->
  zip_with h xs ys = map g (zip_with f xs ys).
Proof.
  intros E. revert ys. induction xs as [|x xs IH]; intros [|y ys];
    cbn; [reflexivity..|]. now rewrite E, IH.
Qed.

Lemma sort_insert_map {A : Type} (cmp : A -> A -> Z) (g : A -> A) (x : A)
    (l : list A) :
  (forall a b, cmp (g a) (g b) = cmp a b) ->
  sort_insert cmp (g x) (map g l) = map g (sort_insert cmp x l).
Proof.
  intros E. induction l as [|y l IH]; [reflexivity|].
  cbn [map sort_insert]. rewrite E.
  destruct (cmp x y <=? 0)%Z; [reflexivity|]. cbn [map]. now rewrite IH.
Qed.

Lemma sort_map {A : Type} (cmp : A -> A -> Z) (g : A -> A) (l : list A) :
  (forall a b, cmp (g a) (g b) = cmp a b) ->
  sort cmp (map g l) = map g (sort cmp l).
Proof.
  intros E. unfold sort. induction l as [|x l IH]; [reflexivity|].
  cbn [map fold_right]. rewrite IH. now apply sort_insert_map.
Qed.

(** X4: with draws in [0, 1), compare_destinations asked with a weather
    preference that matches "Sunny", the conditions the orchestrator
    reports for every destination, returns the entries it returns for the
    same destinations, activities and draws without a matching
    preference, in the same order, each with exactly ten points more. *)
Theorem matching_preference_adds_ten (destinations : list string)
    (matching other : Criteria) (k : nat) :
  asks_for_sunny matching = true ->
  asks_for_sunny other = false ->
  crit_activities matching = crit_activities other ->
  (compareDestinations rng
     {| cmp_destinations := destinations; cmp_criteria := Some matching |}
     k).1
  = map ten_more
      (compareDestinations rng
         {| cmp_destinations := destinations; cmp_criteria := Some other |}
         k).1.
Proof using rng_unit.
  intros Hm Ho Ha. rewrite !compareDestinations_sort.
  rewrite <- sort_map
    by (intros a b; unfold by_key_desc; cbn [ten_more overallScore]; lia).
  f_equal. unfold comparisons.
  cbn [cmp_destinations cmp_criteria].
  change (default default_criteria (Some matching)) with matching.
  change (default default_criteria (Some other)) with other.
  destruct (each (getAverageHotelCost rng) destinations k) as [costs k1].
  destruct (each (getSafetyRating rng) destinations k1) as [safeties k2].
  cbn [fst]. apply zip_with_map. intros dest cs.
  unfold comparison, ten_more.
  cbn [ds_destination ds_weather averageHotelCost ds_safetyRating
       activityScore overallScore].
  rewrite Ha. f_equal. apply score_match_adds_ten; assumption.
Qed.

End WithRandom.

Lemma matching_preference_adds_ten_witness :
  (compareDestinations Samples.sevenths
     {| cmp_destinations := Samples.three_capitals;
        cmp_criteria :=
          Some {| crit_budget := None; crit_weather := Some "SUN"%string;
                  crit_activities := None |} |} 0%nat).1
  = map ten_more
      (compareDestinations Samples.sevenths
         {| cmp_destinations := Samples.three_capitals;
            cmp_criteria := Some Samples.empty_preference |} 0%nat).1.
Proof.
  apply (matching_preference_adds_ten Samples.sevenths
           sevenths_in_unit_interval); reflexivity.
Defined.

Lemma comparison_entries_in_range_witness :
  Forall (fun d =>
            (ds_safetyRating d == 4 \/ ds_safetyRating d == 5)
            /\ (exists n : Z, averageHotelCost d = inject_Z n + 100
                              /\ (0 <= n <= 99)%Z)
            /\ (activityScore d <= 3)%nat
            /\ (45 <= overallScore d <= 85)%Z)
    (compareDestinations Samples.sevenths
       {| cmp_destinations := Samples.three_capitals; cmp_criteria := None |}
       0%nat).1.
Proof.
  apply (comparison_entries_in_range Samples.sevenths
           sevenths_in_unit_interval).
Defined.

End ComparisonRanges.

Section DestinationTables.

Import Js Orchestrator.
Local Open Scope string_scope.

Ltac table_cases E :=
  apply elem_of_list_to_map_2 in E;
  repeat (apply elem_of_cons in E as [E|E];
          [injection E as -> -> |]);
  [.. | now apply elem_of_nil in E].

(** X8: for a destination that does not name a member of
    [Object.prototype], plan_trip's currency is the table's code for the
    destination, or "USD" when the table has none, and its language is
    the table's, or "Local Language"; the two tables know the same
    destinations. *)
Theorem currency_and_language_fall_back (destination : string) :
  in_keys destination Object_prototype_keys = false ->
  getCurrencyInfo destination
  = Own (default "USD" (currencyMap !! destination))
  /\ getLanguageInfo destination
     = Own (default "Local Language" (languageMap !! destination))
  /\ (is_Some (currencyMap !! destination)
      <-> is_Some (languageMap !! destination)).
Proof.
  intros Hk. unfold getCurrencyInfo, getLanguageInfo, get. rewrite Hk.
  split; [|split].
  - destruct (currencyMap !! destination) as [v|] eqn:E; [|reflexivity].
    unfold currencyMap in E. table_cases E; reflexivity.
  - destruct (languageMap !! destination) as [v|] eqn:E; [|reflexivity].
    unfold languageMap in E. table_cases E; reflexivity.
  - split; intros [v E].
    + unfold currencyMap in E. table_cases E; eexists; reflexivity.
    + unfold languageMap in E. table_cases E; eexists; reflexivity.
Qed.

Lemma currency_and_language_fall_back_witness :
  getCurrencyInfo "Reykjavik" = Own "USD"
  /\ getLanguageInfo "Reykjavik" = Own "Local Language"
  /\ (is_Some (currencyMap !! "Reykjavik")
      <-> is_Some (languageMap !! "Reykjavik")).
Proof.
  apply (currency_and_language_fall_back "Reykjavik"). reflexivity.
Defined.

End DestinationTables.

(* ===================================================================== *)
(** * More on the weather server                                          *)
(* ===================================================================== *)

Section MockWeather.

Import Js WeatherServer Spec.
Local Open Scope Q_scope.

Variable rng : nat -> Q.




End MockWeather.


(** In New York the same loop prints 10 March 2024 twice: the night of
    the change to summer time is an hour short. *)
Example new_york_repeats_a_day :
  map (fun d => Js.toISODate Samples.new_york_time (WeatherServer.mf_date d))
    (WeatherServer.mock_forecast
       (WeatherServer.getMockWeatherData Samples.sevenths "New York"
          (Some {| WeatherServer.date_text := "2024-03-09";
                   WeatherServer.date_time := 19791 * 86400000 |})
          (Some {| WeatherServer.date_text := "2024-03-12";
                   WeatherServer.date_time := 19794 * 86400000 |}) 0).1)
  = [19791; 19792; 19792; 19793]%Z.
Proof. vm_compute. reflexivity. Qed.

Section MockRanges.

Import Js WeatherServer Spec.
Local Open Scope Q_scope.

Variable rng : nat -> Q.
Hypothesis rng_unit : unit_interval rng.

Lemma random_condition_listed (k : nat) :
  exists c, (random_condition rng k).1 = Some c /\ In c mockConditions.
Proof using rng_unit.
  unfold random_condition, Math_random. cbn [fst].
  pose proof (floor_of_draw (rng k) 5 (rng_unit k) ltac:(lia)) as H.
  change (inject_Z (Z.of_nat (length mockConditions))) with (inject_Z 5).
  set (i := Math_floor (rng k * inject_Z 5)) in *.
  destruct (Z.leb_spec 0 i); [|lia].
  assert (E : (Z.to_nat i < 5)%nat) by lia.
  destruct (Z.to_nat i) as [|[|[|[|[|n]]]]]; [..|lia];
    eexists; (split; [reflexivity|]); simpl; tauto.
Qed.

Lemma forecast_loop_in_range (n : nat) (i start : Z) (baseTemp : Q) (k : nat) :
  Forall (fun d =>
            (exists m : Z, mf_temp d = baseTemp + inject_Z m - 5
                           /\ (0 <= m <= 9)%Z)
            /\ exists c, mf_conditions d = Some c /\ In c mockConditions)
    (forecast_loop rng n i start baseTemp k).1.
Proof using rng_unit.
  revert i k. induction n as [|n IH]; intros i k; [constructor|].
  cbn [forecast_loop Math_random].
  pose proof (random_condition_listed (S k)) as Hc.
  destruct (random_condition rng (S k)) as [c k2].
  specialize (IH (i + 1)%Z k2).
  destruct (forecast_loop rng n (i + 1) start baseTemp k2) as [rest k3].
  cbn [fst] in *. constructor; [|exact IH].
  cbn [mf_temp mf_conditions]. split; [|exact Hc].
  exists (Math_floor (rng k * 10)). split; [reflexivity|].
  apply (floor_of_draw (rng k) 10 (rng_unit k)). lia.
Qed.

(** X10: with draws in [0, 1), the mock weather has a whole temperature
    from 15 to 29, a humidity from 40 to 79, a wind speed from 5 to 24 and
    one of the five listed conditions; every forecast day is within 5
    degrees below and 4 degrees above the current temperature and has a
    listed condition. *)
Theorem mock_weather_in_range (destination : string)
    (startDate endDate : option DateArg) (k : nat) :
  let data := (getMockWeatherData rng destination startDate endDate k).1 in
  let now := mock_current data in
  (exists n : Z, mc_temp now = inject_Z n + 15 /\ (0 <= n <= 14)%Z)
  /\ (exists n : Z, mc_humidity now = inject_Z n + 40 /\ (0 <= n <= 39)%Z)
  /\ (exists n : Z, mc_windSpeed now = inject_Z n + 5 /\ (0 <= n <= 19)%Z)
  /\ (exists c, mc_conditions now = Some c /\ In c mockConditions)
  /\ Forall (fun d =>
               (exists m : Z, mf_temp d = mc_temp now + inject_Z m - 5
                              /\ (0 <= m <= 9)%Z)
               /\ exists c, mf_conditions d = Some c /\ In c mockConditions)
       (mock_forecast data).
Proof using rng_unit.
  cbv zeta. unfold getMockWeatherData.
  pose proof (random_condition_listed k) as Hc.
  destruct (random_condition rng k) as [c k1]. cbn [Math_random fst] in *.
  set (baseTemp := inject_Z (Math_floor (rng k1 * 15)) + 15).
  assert (Hf : forall n i s kk,
             Forall (fun d =>
                       (exists m : Z, mf_temp d = baseTemp + inject_Z m - 5
                                      /\ (0 <= m <= 9)%Z)
                       /\ exists c, mf_conditions d = Some c
                                    /\ In c mockConditions)
               (forecast_loop rng n i s baseTemp kk).1)
    by (intros; apply forecast_loop_in_range).
  match goal with
  | |- context [let '(forecast, k3) := ?X in _] =>
      assert (Hx : Forall (fun d =>
                       (exists m : Z, mf_temp d = baseTemp + inject_Z m - 5
                                      /\ (0 <= m <= 9)%Z)
                       /\ exists c, mf_conditions d = Some c
                                    /\ In c mockConditions) X.1);
      [ destruct startDate as [s|]; [|constructor];
        destruct endDate as [e|]; [|constructor];
        destruct (truthy_string (date_text s) && truthy_string (date_text e));
        [apply Hf | constructor]
      | destruct X as [forecast k3] ]
  end.
  cbn [fst mock_current mock_forecast mc_temp mc_humidity mc_windSpeed
       mc_conditions] in *.
  split; [|split; [|split; [|split; [exact Hc | exact Hx]]]].
  - exists (Math_floor (rng k1 * 15)). split; [reflexivity|].
    apply (floor_of_draw (rng k1) 15 (rng_unit k1)). lia.
  - exists (Math_floor (rng k3 * 40)). split; [reflexivity|].
    apply (floor_of_draw (rng k3) 40 (rng_unit k3)). lia.
  - exists (Math_floor (rng (S k3) * 20)). split; [reflexivity|].
    apply (floor_of_draw (rng (S k3)) 20 (rng_unit (S k3))). lia.
Qed.

End MockRanges.

Lemma mock_weather_in_range_witness :
  let data := (WeatherServer.getMockWeatherData Samples.sevenths "Tokyo"
                 None None 0).1 in
  let now := WeatherServer.mock_current data in
  (exists n : Z, WeatherServer.mc_temp now = (inject_Z n + 15)%Q
                 /\ (0 <= n <= 14)%Z)
  /\ (exists n : Z, WeatherServer.mc_humidity now = (inject_Z n + 40)%Q
                    /\ (0 <= n <= 39)%Z)
  /\ (exists n : Z, WeatherServer.mc_windSpeed now = (inject_Z n + 5)%Q
                    /\ (0 <= n <= 19)%Z)
  /\ (exists c, WeatherServer.mc_conditions now = Some c
                /\ In c WeatherServer.mockConditions)
  /\ Forall (fun d =>
               (exists m : Z,
                  WeatherServer.mf_temp d
                  = (WeatherServer.mc_temp now + inject_Z m - 5)%Q
                  /\ (0 <= m <= 9)%Z)
               /\ exists c, WeatherServer.mf_conditions d = Some c
                            /\ In c WeatherServer.mockConditions)
       (WeatherServer.mock_forecast data).
Proof.
  exact (mock_weather_in_range Samples.sevenths sevenths_in_unit_interval
           "Tokyo" None None 0).
Defined.

Section LiveWeather.

Import Js WeatherServer Spec.
Local Open Scope Q_scope.

(** What follows the part before the first space is that space and the
    rest, or nothing. *)
Lemma before_space_split (s : string) :
  exists rest,
    s = before_space s +:+ rest
    /\ (rest = EmptyString \/ exists after, rest = String " " after).
Proof.
  induction s as [|c s (rest & IH & Hrest)].
  - exists EmptyString. split; [reflexivity | now left].
  - simpl. destruct (Ascii.eqb_spec c " ") as [-> | Hc].
    + exists (String " " s). split; [reflexivity|]. right. now exists s.
    + exists rest. split; [|exact Hrest].
      change (String c s = String c (before_space s +:+ rest)).
      now f_equal.
Qed.

Lemma before_space_no_space (s : string) :
  includes (before_space s) " " = false.
Proof.
  induction s as [|c s IH]; [reflexivity|].
  simpl. destruct (Ascii.eqb c " ") eqn:E; [reflexivity|].
  rewrite includes_unfold. cbn [startsWith].
  rewrite Ascii.eqb_sym, E. cbn [andb orb]. exact IH.
Qed.

(** X11: processForecastData keeps, in their order, exactly the items
    whose time lies between the start and the end date, both included;
    each entry carries the item's temperature and description, and as its
    date the part of [dt_txt] before the first space: a text without a
    space that [dt_txt] starts with, and after which [dt_txt] ends or goes
    on with a space. *)
Theorem processForecastData_window (items : list OwmForecastItem)
    (startDate endDate : DateArg) :
  let kept :=
    List.filter
      (fun item =>
         bool_decide (date_time startDate <= date_time (dt_txt item)
                      <= date_time endDate)%Z) items in
  sublist kept items
  /\ (forall item, In item kept <->
                   In item items
                   /\ (date_time startDate <= date_time (dt_txt item)
                       <= date_time endDate)%Z)
  /\ map fe_temp (processForecastData items startDate endDate)
     = map item_temp kept
  /\ map fe_conditions (processForecastData items startDate endDate)
     = map item_description kept
  /\ Forall2 (fun entry item =>
                includes (fe_date entry) " " = false
                /\ exists rest,
                     date_text (dt_txt item) = fe_date entry +:+ rest
                     /\ (rest = EmptyString
                         \/ exists after, rest = String " " after))
       (processForecastData items startDate endDate) kept.
Proof.
  cbv zeta.
  assert (E : forall l : list OwmForecastItem,
             List.filter
               (fun item =>
                  (date_time (dt_txt item) >=? date_time startDate)%Z
                  && (date_time (dt_txt item) <=? date_time endDate)%Z) l
             = List.filter
                 (fun item =>
                    bool_decide (date_time startDate
                                 <= date_time (dt_txt item)
                                 <= date_time endDate)%Z) l).
  { intros l. apply filter_ext. intros item.
    destruct (Z.geb_spec (date_time (dt_txt item)) (date_time startDate));
      destruct (Z.leb_spec (date_time (dt_txt item)) (date_time endDate));
      cbn [andb]; symmetry;
      (apply bool_decide_eq_true_2 || apply bool_decide_eq_false_2); lia. }
  unfold processForecastData. rewrite E.
  split; [apply filter_keeps_order|]. split.
  { intros item. rewrite filter_In, bool_decide_eq_true. tauto. }
  rewrite !map_map. cbn [fe_temp fe_conditions].
  split; [reflexivity|]. split; [reflexivity|].
  induction (List.filter _ items) as [|item l IH]; cbn [map]; constructor.
  - cbn [fe_date]. split;
      [apply before_space_no_space | apply before_space_split].
  - exact IH.
Qed.

Example forecast_date_of_timestamp :
  before_space "2024-06-01 12:00:00" = "2024-06-01"%string.
Proof. reflexivity. Qed.

End LiveWeather.

Section TravelWeather.

Import Js WeatherServer Spec.
Local Open Scope Q_scope.

(** X12: with a key configured and a start or an end date missing,
    get_travel_weather makes no forecast request: its answer does not
    depend on the forecast provider, and a live answer has an empty
    forecast. *)
Theorem travel_weather_forecast_needs_dates (API_KEY : option string)
    (currentApi : string -> string -> HttpOutcome (option OwmCurrent))
    (forecastApi forecastApi' :
       string -> string -> HttpOutcome (option (list OwmForecastItem)))
    (rng : nat -> Q) (args : TravelWeatherArgs) (k : nat) :
  key_configured API_KEY = true ->
  tw_startDate args = None \/ tw_endDate args = None ->
  getTravelWeather API_KEY currentApi forecastApi rng args k
  = getTravelWeather API_KEY currentApi forecastApi' rng args k
  /\ forall data,
       (getTravelWeather API_KEY currentApi forecastApi rng args k).1
       = Return (LiveData data) ->
       wd_forecast data = [].
Proof.
  intros Hkey Hd. unfold getTravelWeather. cbv zeta. rewrite Hkey.
  cbn [negb].
  assert (E : forall api : string -> string
                           -> HttpOutcome (option (list OwmForecastItem)),
             match tw_startDate args, tw_endDate args with
             | Some s, Some e =>
                 if truthy_string (date_text s) && truthy_string (date_text e)
                 then
                   match api (tw_destination args)
                           (default "metric"%string (tw_units args)) with
                   | Rejected m => Throw (AxiosError m)
                   | Resolved None => Throw (OtherError "TypeError")
                   | Resolved (Some items) =>
                       Return (processForecastData items s e)
                   end
                 else Return []
             | _, _ => Return []
             end = Return []).
  { intros api. destruct Hd as [-> | ->]; [reflexivity|].
    now destruct (tw_startDate args). }
  rewrite !E.
  split; [reflexivity|]. intros data. cbn [fst].
  destruct (currentApi (tw_destination args)
              (default "metric"%string (tw_units args))) as [[d|]|m];
    cbn; intros H; now inversion H.
Qed.

Lemma travel_weather_forecast_needs_dates_witness :
  getTravelWeather (Some "key"%string) Samples.weather_up
    Samples.forecast_down (fun _ => 0) Samples.weather_in_tokyo 0%nat
  = getTravelWeather (Some "key"%string) Samples.weather_up
      Samples.forecast_empty (fun _ => 0) Samples.weather_in_tokyo 0%nat
  /\ forall data,
       (getTravelWeather (Some "key"%string) Samples.weather_up
          Samples.forecast_down (fun _ => 0) Samples.weather_in_tokyo
          0%nat).1
       = Return (LiveData data) ->
       wd_forecast data = [].
Proof.
  apply (travel_weather_forecast_needs_dates (Some "key"%string)
           Samples.weather_up Samples.forecast_down Samples.forecast_empty
           (fun _ => 0) Samples.weather_in_tokyo 0%nat).
  - reflexivity.
  - left. reflexivity.
Defined.



End TravelWeather.

(* ===================================================================== *)
(** * More on the currency server                                         *)
(* ===================================================================== *)

Section ConvertMore.

Import Js CurrencyServer Spec.
Local Open Scope Q_scope.

(** X14: a rate of 0 in the provider's list is taken for a missing rate:
    the conversion is rejected as not available. *)
Theorem convertCurrency_zero_rate_rejected
    (api : string -> HttpOutcome (option (gmap string Q))) (now : Z)
    (args : ConvertArgs) (rates : gmap string Q) (r : Q) :
  api (cc_from args) = Resolved (Some rates) ->
  rates !! cc_to args = Some r ->
  r == 0 ->
  convertCurrency api now args
  = Throw (McpError InvalidParams
             ("Exchange rate not available for " +:+ cc_from args +:+ " to "
              +:+ cc_to args)).
Proof.
  intros Hapi Hr Hz. unfold convertCurrency, get. rewrite Hapi, Hr.
  cbn [truthy_rate]. unfold truthy_number.
  apply Qeq_bool_iff in Hz. now rewrite Hz.
Qed.

Lemma convertCurrency_zero_rate_rejected_witness :
  convertCurrency (fun _ => Resolved (Some Samples.rates_with_zero)) 0
    {| cc_from := "USD"; cc_to := "ZWL"; cc_amount := Some 50 |}
  = Throw (McpError InvalidParams
             "Exchange rate not available for USD to ZWL").
Proof.
  apply (convertCurrency_zero_rate_rejected
           (fun _ => Resolved (Some Samples.rates_with_zero)) 0
           {| cc_from := "USD"; cc_to := "ZWL"; cc_amount := Some 50 |}
           Samples.rates_with_zero (0 # 1)); reflexivity.
Defined.

(** X15: whatever convert_currency throws is one of three things: the
    invalid-params error that names the pair, the internal error that
    carries the message of the rejected request, or the type error of a
    body without rates.  The error of the HTTP client itself never
    leaves the handler. *)
Theorem convertCurrency_throws
    (api : string -> HttpOutcome (option (gmap string Q))) (now : Z)
    (args : ConvertArgs) (e : Thrown) :
  convertCurrency api now args = Throw e ->
  e = McpError InvalidParams
        ("Exchange rate not available for " +:+ cc_from args +:+ " to "
         +:+ cc_to args)
  \/ (exists m, api (cc_from args) = Rejected m
                /\ e = McpError InternalError
                         ("Currency conversion error: " +:+ m))
  \/ (api (cc_from args) = Resolved None /\ e = OtherError "TypeError").
Proof.
  unfold convertCurrency.
  destruct (api (cc_from args)) as [[rates|]|m]; cbn.
  - destruct (truthy_rate (get rates (cc_to args))); cbn;
      [discriminate | intros [= <-]; now left].
  - intros [= <-]. right. right. auto.
  - intros [= <-]. right. left. eauto.
Qed.

Lemma convertCurrency_throws_witness :
  McpError InternalError "Currency conversion error: Network Error"
  = McpError InvalidParams "Exchange rate not available for USD to EUR"
  \/ (exists m, Samples.exchange_down "USD" = Rejected m
                /\ McpError InternalError
                     "Currency conversion error: Network Error"
                   = McpError InternalError
                       ("Currency conversion error: " +:+ m))
  \/ (Samples.exchange_down "USD" = Resolved None
      /\ McpError InternalError "Currency conversion error: Network Error"
         = OtherError "TypeError").
Proof.
  apply (convertCurrency_throws Samples.exchange_down 0
           {| cc_from := "USD"; cc_to := "EUR"; cc_amount := None |}
           (McpError InternalError "Currency conversion error: Network Error")).
  reflexivity.
Defined.

(** X16: for a destination whose currency record is found and whose
    currency the provider lists at a rate other than 0, the entry of
    get_travel_budget_conversion carries that record, the budget times
    the rate, and the rate. *)
Theorem budget_in_local_currency
    (exchangeApi : nat -> string -> HttpOutcome (option (gmap string Q)))
    (now : Z) (completion : list nat) (args : BudgetArgs)
    (i : nat) (dest : string) (info : CurrencyInfo)
    (rates : gmap string Q) (r : Q) :
  Permutation completion (seq 0 (length (bc_destinations args))) ->
  bc_destinations args !! i = Some dest ->
  getDestinationCurrency dest = Own info ->
  exchangeApi i (default "USD"%string (bc_homeCurrency args))
  = Resolved (Some rates) ->
  rates !! code info = Some r ->
  ~ r == 0 ->
  exists entries,
    getTravelBudgetConversion exchangeApi now completion args = Some entries
    /\ entries !! i
       = Some (BudgetInLocal dest (Some info) (Some (bc_budget args * r))
                 (Some r)).
Proof.
  intros Hp Hd Hinfo Hapi Hr Hnz.
  destruct (budget_slots exchangeApi now completion args Hp)
    as (entries & Hret & _ & Hslot).
  exists entries. split; [exact Hret|]. rewrite (Hslot i dest Hd).
  f_equal. unfold budget_branch, budget_attempt. rewrite Hinfo.
  cbn [reparse_currency mbind Result_bind code_of].
  rewrite (convertCurrency_rate (exchangeApi i) now
             {| cc_from := default "USD"%string (bc_homeCurrency args);
                cc_to := code info; cc_amount := Some (bc_budget args) |}
             rates r Hapi Hr Hnz).
  reflexivity.
Qed.

Lemma budget_in_local_currency_witness :
  exists entries,
    getTravelBudgetConversion Samples.exchange_second_fails 0
      Samples.out_of_order
      {| bc_budget := 1000; bc_homeCurrency := None;
         bc_destinations := Samples.three_capitals |} = Some entries
    /\ entries !! 0%nat
       = Some (BudgetInLocal "Paris"
                 (Some {| code := "EUR"; name := "Euro"; symbol := "€";
                          country := "France" |})
                 (Some (1000 * (92 # 100))) (Some (92 # 100))).
Proof.
  apply (budget_in_local_currency Samples.exchange_second_fails 0
           Samples.out_of_order
           {| bc_budget := 1000; bc_homeCurrency := None;
              bc_destinations := Samples.three_capitals |}
           0%nat "Paris"%string
           {| code := "EUR"; name := "Euro"; symbol := "€";
              country := "France" |}
           Samples.usd_rates (92 # 100)).
  - exact out_of_order_is_a_completion.
  - reflexivity.
  - reflexivity.
  - reflexivity.
  - reflexivity.
  - intros H. discriminate H.
Defined.

End ConvertMore.

Section TrendsMore.

Import Js CurrencyServer Spec.
Local Open Scope Q_scope.

Lemma trends_loop_Forall (rng : nat -> Q) (P : TrendPoint Q -> Prop)
    (n : nat) (today : Z) (acc : list (TrendPoint Q)) (k : nat) :
  (forall date j,
     P {| tp_date := date;
          tp_rate := (85 # 100) + rng j * (3 # 10)
                     + (rng (S j) - (5 # 10)) * (1 # 10) |}) ->
  Forall P acc -> Forall P (trends_loop rng n today acc k).1.
Proof.
  intros HP. revert acc k. induction n as [|i IH]; intros acc k Hacc;
    [exact Hacc|].
  cbn [trends_loop Math_random]. apply IH.
  apply Forall_app. split; [exact Hacc|]. constructor; [apply HP|constructor].
Qed.



(** X18: for [days] of 0 or less, get_currency_trends returns no entry
    and none of its three aggregates is a number. *)
Theorem trends_of_no_days (rng : nat -> Q) (today : Z) (args : TrendsArgs)
    (k : nat) (days : Z) :
  tr_days args = Some days ->
  (days <= 0)%Z ->
  let result := (getCurrencyTrends rng today args k).1 in
  trends result = []
  /\ averageRate result = None
  /\ minRate result = None
  /\ maxRate result = None.
Proof.
  intros Hd Hle. cbv zeta. rewrite getCurrencyTrends_result, Hd.
  change (default 30%Z (Some days)) with days.
  assert (E : Z.to_nat days = 0%nat) by lia.
  rewrite E. cbn. auto.
Qed.

Lemma trends_of_no_days_witness :
  let result :=
    (getCurrencyTrends Samples.sevenths Samples.noon_june_1
       {| tr_from := "USD"; tr_to := "EUR"; tr_days := Some (-3)%Z |}
       0%nat).1 in
  trends result = []
  /\ averageRate result = None
  /\ minRate result = None
  /\ maxRate result = None.
Proof.
  apply (trends_of_no_days Samples.sevenths Samples.noon_june_1
           {| tr_from := "USD"; tr_to := "EUR"; tr_days := Some (-3)%Z |}
           0%nat (-3)%Z).
  - reflexivity.
  - lia.
Defined.

(** X19: with draws in [0, 1), every listed rate lies strictly between
    0.79 and 1.21, and so do the minimum, the average and the maximum
    whenever they are numbers.  (The code draws the rates from 0.80 to
    1.20; the margin of a hundredth leaves room for rounding.) *)
Theorem trend_rates_in_band (rng : nat -> Q) (today : Z) (args : TrendsArgs)
    (k : nat) :
  unit_interval rng ->
  let result := (getCurrencyTrends rng today args k).1 in
  let in_band := fun r : Q => 79 # 100 < r /\ r < 121 # 100 in
  Forall (fun p => in_band (tp_rate p)) (trends result)
  /\ forall mn av mx,
       minRate result = Some mn -> averageRate result = Some av ->
       maxRate result = Some mx ->
       in_band mn /\ in_band av /\ in_band mx.
Proof.
  intros Hu. cbv zeta. rewrite getCurrencyTrends_result.
  cbn [trends minRate averageRate maxRate].
  set (ts := (trends_loop rng _ today [] k).1).
  assert (Hall : Forall (fun p => 8 # 10 <= tp_rate p /\ tp_rate p < 12 # 10)
                   ts).
  { apply trends_loop_Forall; [|constructor].
    intros date j. cbn [tp_rate].
    pose proof (Hu j) as [? ?]. pose proof (Hu (S j)) as [? ?]. lra. }
  split.
  { eapply Forall_impl; [exact Hall|]. cbn beta. intros p [? ?]. lra. }
  intros mn av mx Hmn Hav Hmx.
  destruct ts as [|t ts'] eqn:Ets; [discriminate|].
  destruct (extremes_of_trends (t :: ts') ltac:(discriminate))
    as (mn' & mx' & E1 & E3 & Hmin & Hmax).
  destruct (exact_average_between (t :: ts') mn' mx' ltac:(discriminate)
              Hmin Hmax) as (av' & E2 & _ & Hle).
  rewrite Hmn in E1. rewrite Hav in E2. rewrite Hmx in E3.
  injection E1 as <-. injection E2 as <-. injection E3 as <-.
  destruct Hmin as [Imin _]. destruct Hmax as [Imax _].
  rewrite Forall_forall in Hall.
  apply in_map_iff in Imin as (p & <- & Hp).
  apply in_map_iff in Imax as (q & <- & Hq).
  apply list_elem_of_In, Hall in Hp. apply list_elem_of_In, Hall in Hq.
  repeat split; lra.
Qed.

Lemma trend_rates_in_band_witness :
  let result :=
    (getCurrencyTrends Samples.sevenths Samples.noon_june_1
       Samples.usd_eur_trends 0%nat).1 in
  let in_band := fun r : Q => 79 # 100 < r /\ r < 121 # 100 in
  Forall (fun p => in_band (tp_rate p)) (trends result)
  /\ forall mn av mx,
       minRate result = Some mn -> averageRate result = Some av ->
       maxRate result = Some mx ->
       in_band mn /\ in_band av /\ in_band mx.
Proof.
  exact (trend_rates_in_band Samples.sevenths Samples.noon_june_1
           Samples.usd_eur_trends 0%nat sevenths_in_unit_interval).
Defined.

End TrendsMore.

(* ===================================================================== *)
(** * The translation server                                              *)
(* ===================================================================== *)

Section Translation.

Import Js TranslationServer.
Local Open Scope string_scope.

Ltac table_cases E :=
  apply elem_of_list_to_map_2 in E;
  repeat (apply elem_of_cons in E as [E|E];
          [injection E as -> -> |]);
  [.. | now apply elem_of_nil in E].

Lemma get_own_or_undefined {V : Type} (m : gmap string V) (key : string) :
  in_keys key Object_prototype_keys = false ->
  get m key = match m !! key with Some v => Own v | None => Undefined end.
Proof. intros H. unfold get. now rewrite H. Qed.

(** The four language tables translate the basic phrases and nothing
    else. *)
Lemma language_table_misses (language text : string)
    (inner : gmap string string) :
  mockTranslations !! language = Some inner ->
  ~ In text (map snd basic_phrases) ->
  inner !! text = None.
Proof.
  intros E Hn. unfold mockTranslations in E.
  apply elem_of_list_to_map_2 in E.
  match type of E with
  | _ ∈ ?l =>
      assert (F : Forall (fun kv : string * gmap string string =>
                            kv.2 !! text = None) l)
  end.
  { repeat constructor; cbn [snd]; apply not_elem_of_list_to_map_1;
      rewrite list_elem_of_In; exact Hn. }
  rewrite Forall_forall in F. exact (F _ E).
Qed.

(** A text that is not a basic phrase comes back in brackets, whatever
    the language. *)
Lemma mockTranslate_untranslated (text language : string) :
  in_keys language Object_prototype_keys = false ->
  in_keys text Object_prototype_keys = false ->
  ~ In text (map snd basic_phrases) ->
  mockTranslate text language = Some (Own (bracketed language text)).
Proof.
  intros Hl Ht Hn. unfold mockTranslate, getMockTranslation.
  rewrite (get_own_or_undefined _ language Hl).
  destruct (mockTranslations !! language) as [inner|] eqn:E; [|reflexivity].
  rewrite (get_own_or_undefined _ text Ht).
  now rewrite (language_table_misses language text inner E Hn).
Qed.

(** No text is translated into a language other than the four. *)
Lemma mockTranslate_other_language (text language : string) :
  in_keys language Object_prototype_keys = false ->
  ~ In language ["es"; "fr"; "de"; "ja"] ->
  mockTranslate text language = Some (Own (bracketed language text)).
Proof.
  intros Hl Hn. unfold mockTranslate, getMockTranslation.
  rewrite (get_own_or_undefined _ language Hl).
  assert (E : mockTranslations !! language = None).
  { unfold mockTranslations. apply not_elem_of_list_to_map_1.
    rewrite list_elem_of_In. exact Hn. }
  now rewrite E.
Qed.

(** X20: the mock translator translates the eight basic phrases into
    Spanish, French, German and Japanese and nothing else: such a phrase
    comes back in such a language as a text other than the bracketed
    fallback, and every other pair of a text and a language, a text that
    is not a basic phrase or a language that is not one of the four,
    comes back as ["[LANG] text"].  (Texts and languages that name a
    member of [Object.prototype] are left aside.) *)
Theorem mock_translation_coverage (text language : string) :
  (In language ["es"; "fr"; "de"; "ja"] ->
   In text (map snd basic_phrases) ->
   exists s, mockTranslate text language = Some (Own s)
             /\ s <> bracketed language text)
  /\ (in_keys language Object_prototype_keys = false ->
      in_keys text Object_prototype_keys = false ->
      ~ In text (map snd basic_phrases) ->
      mockTranslate text language = Some (Own (bracketed language text)))
  /\ (in_keys language Object_prototype_keys = false ->
      ~ In language ["es"; "fr"; "de"; "ja"] ->
      mockTranslate text language = Some (Own (bracketed language text))).
Proof.
  split; [|split;
           [apply mockTranslate_untranslated
           | apply mockTranslate_other_language]].
  intros Hl Ht. cbn in Hl, Ht.
  repeat (destruct Hl as [<-|Hl]; [|]); [.. | destruct Hl];
    repeat (destruct Ht as [<-|Ht]; [|]); try (destruct Ht);
    eexists; (split; [reflexivity | discriminate]).
Qed.

Lemma mock_translation_coverage_witness :
  (exists s, mockTranslate "Thank you" "de" = Some (Own s)
             /\ s <> bracketed "de" "Thank you")
  /\ mockTranslate "Where is the station?" "de"
     = Some (Own "[DE] Where is the station?")
  /\ mockTranslate "Hello" "it" = Some (Own "[IT] Hello").
Proof.
  split; [|split].
  - apply (proj1 (mock_translation_coverage "Thank you" "de"));
      cbn; tauto.
  - apply (proj1 (proj2 (mock_translation_coverage
                           "Where is the station?" "de")));
      [reflexivity | reflexivity |].
    cbn. intuition discriminate.
  - apply (proj2 (proj2 (mock_translation_coverage "Hello" "it")));
      [reflexivity|].
    cbn. intuition discriminate.
Defined.

End Translation.

Section Phrases.

Import Js TranslationServer.
Local Open Scope string_scope.

Lemma mockTranslate_total (text language : string) :
  in_keys language Object_prototype_keys = false ->
  exists t, mockTranslate text language = Some t.
Proof.
  intros Hl. unfold mockTranslate, getMockTranslation.
  rewrite (get_own_or_undefined _ language Hl).
  destruct (mockTranslations !! language); eexists; reflexivity.
Qed.

Lemma translate_entries_keys (language : string)
    (entries : list (string * string)) :
  in_keys language Object_prototype_keys = false ->
  exists ts, translate_entries language entries = Some ts
             /\ map fst ts = map fst entries.
Proof.
  intros Hl. induction entries as [|[key value] rest (ts & E & Hk)].
  - exists []. auto.
  - destruct (mockTranslate_total value language Hl) as [t Ht].
    exists ((key, t) :: ts). cbn [translate_entries]. rewrite Ht, E.
    split; [reflexivity|]. cbn. now rewrite Hk.
Qed.

Lemma translate_entries_untranslated (language : string)
    (entries : list (string * string)) :
  in_keys language Object_prototype_keys = false ->
  Forall (fun kv => in_keys kv.2 Object_prototype_keys = false
                    /\ ~ In kv.2 (map snd basic_phrases)) entries ->
  translate_entries language entries
  = Some (map (fun kv => (kv.1, Own (bracketed language kv.2))) entries).
Proof.
  intros Hl. induction 1 as [|[key value] rest [Hk Hn] _ IH]; [reflexivity|].
  cbn [translate_entries]. cbn [snd] in Hk, Hn.
  now rewrite (mockTranslate_untranslated value language Hl Hk Hn), IH.
Qed.

(** X21: a category that is none of the five gets the phrases of the
    basic category, under the basic keys, while the answer still names
    the category that was asked for. *)
Theorem unknown_category_gets_basic (language category : string) :
  own_entry phrases category = None ->
  in_keys category Object_prototype_keys = false ->
  in_keys language Object_prototype_keys = false ->
  exists asked basic,
    getTravelPhrases {| ph_language := language;
                        ph_category := Some category |} = Some asked
    /\ getTravelPhrases {| ph_language := language; ph_category := None |}
       = Some basic
    /\ tp_phrases asked = tp_phrases basic
    /\ map fst (tp_phrases asked) = map fst basic_phrases
    /\ tp_category asked = category
    /\ tp_category basic = "basic".
Proof.
  intros Hc Hk Hl.
  destruct (translate_entries_keys language basic_phrases Hl) as (ts & E & Hts).
  assert (Ec : category_entries category = basic_phrases).
  { unfold category_entries, get_ordered. now rewrite Hc, Hk. }
  exists {| tp_language := language; tp_category := category;
            tp_phrases := ts |},
         {| tp_language := language; tp_category := "basic";
            tp_phrases := ts |}.
  unfold getTravelPhrases. cbn [ph_language ph_category default from_option id].
  rewrite Ec.
  change (category_entries "basic") with basic_phrases. rewrite E.
  repeat split; exact Hts.
Qed.

Lemma unknown_category_gets_basic_witness :
  exists asked basic,
    getTravelPhrases {| ph_language := "fr";
                        ph_category := Some "shopping" |} = Some asked
    /\ getTravelPhrases {| ph_language := "fr"; ph_category := None |}
       = Some basic
    /\ tp_phrases asked = tp_phrases basic
    /\ map fst (tp_phrases asked) = map fst basic_phrases
    /\ tp_category asked = "shopping"
    /\ tp_category basic = "basic".
Proof.
  apply (unknown_category_gets_basic "fr" "shopping"); reflexivity.
Defined.

(** X22: in the categories emergency, food, transport and
    accommodation no phrase is translated: in every language each phrase
    comes back as ["[LANG] phrase"] under its key. *)
Theorem other_categories_are_not_translated (language category : string) :
  In category ["emergency"; "food"; "transport"; "accommodation"] ->
  in_keys language Object_prototype_keys = false ->
  getTravelPhrases {| ph_language := language; ph_category := Some category |}
  = Some {| tp_language := language; tp_category := category;
            tp_phrases :=
              map (fun kv => (kv.1, Own (bracketed language kv.2)))
                (category_entries category) |}.
Proof.
  intros Hc Hl. unfold getTravelPhrases.
  cbn [ph_language ph_category default from_option id].
  rewrite translate_entries_untranslated; [reflexivity | exact Hl |].
  cbn in Hc.
  repeat (destruct Hc as [<-|Hc]; [|]); [.. | destruct Hc];
    repeat constructor; cbn; intuition discriminate.
Qed.

Lemma other_categories_are_not_translated_witness :
  getTravelPhrases {| ph_language := "ja"; ph_category := Some "emergency" |}
  = Some {| tp_language := "ja"; tp_category := "emergency";
            tp_phrases :=
              map (fun kv => (kv.1, Own (bracketed "ja" kv.2)))
                (category_entries "emergency") |}.
Proof.
  apply (other_categories_are_not_translated "ja" "emergency").
  - cbn. tauto.
  - reflexivity.
Defined.

(** X23: translate_destination_info never translates: for each content
    type, and with the guide text for any other content type, the
    translated text is the original text behind ["[LANG] "]; the answer
    names the content type that was asked for. *)
Theorem destination_info_is_bracketed (args : DestinationInfoArgs) :
  let contentType := default "guide" (di_contentType args) in
  in_keys (di_targetLanguage args) Object_prototype_keys = false ->
  in_keys contentType Object_prototype_keys = false ->
  exists info,
    translateDestinationInfo args = Some info
    /\ info_originalText info
       = default (guide_template (di_destination args))
           (contentTemplates (di_destination args) !! contentType)
    /\ info_translatedText info
       = Own (bracketed (di_targetLanguage args) (info_originalText info))
    /\ info_contentType info = contentType.
Proof.
  intros contentType Hl Hc. unfold translateDestinationInfo.
  fold contentType. rewrite (get_own_or_undefined _ contentType Hc).
  assert (G : forall t,
             t = guide_template (di_destination args)
             \/ contentTemplates (di_destination args) !! contentType = Some t ->
             truthy_string t = true
             /\ mockTranslate t (di_targetLanguage args)
                = Some (Own (bracketed (di_targetLanguage args) t))).
  { intros t [-> | E].
    - split; [reflexivity|].
      apply mockTranslate_untranslated;
        [exact Hl | reflexivity | cbn; intuition discriminate].
    - unfold contentTemplates in E. apply elem_of_list_to_map_2 in E.
      match type of E with
      | _ ∈ ?l =>
          assert (F : Forall (fun kv : string * string =>
                                truthy_string kv.2 = true
                                /\ in_keys kv.2 Object_prototype_keys = false
                                /\ ~ In kv.2 (map snd basic_phrases)) l)
      end.
      { repeat constructor; cbn; intuition discriminate. }
      rewrite Forall_forall in F. destruct (F _ E) as (Ht & Hk & Hn).
      split; [exact Ht|]. now apply mockTranslate_untranslated. }
  destruct (contentTemplates (di_destination args) !! contentType)
    as [t|] eqn:E.
  - destruct (G t (or_intror eq_refl)) as [Ht Hm].
    rewrite Ht. cbn [mbind option_bind]. rewrite Hm. eexists.
    repeat split.
  - destruct (G _ (or_introl eq_refl)) as [Ht Hm].
    cbn [mbind option_bind]. rewrite Hm. eexists. repeat split.
Qed.

Lemma destination_info_is_bracketed_witness :
  exists info,
    translateDestinationInfo
      {| di_destination := "Rome"; di_targetLanguage := "es";
         di_contentType := Some "nightlife" |} = Some info
    /\ info_originalText info = guide_template "Rome"
    /\ info_translatedText info
       = Own (bracketed "es" (info_originalText info))
    /\ info_contentType info = "nightlife".
Proof.
  apply (destination_info_is_bracketed
           {| di_destination := "Rome"; di_targetLanguage := "es";
              di_contentType := Some "nightlife" |}); reflexivity.
Defined.

End Phrases.

(* ===================================================================== *)
(** * The HTTP front end                                                  *)
(* ===================================================================== *)

Section HttpCompare.

Import Js HttpApi.
Local Open Scope Q_scope.

Lemma mockComparisons_lookup (rng : nat -> Q) (destinations : list string)
    (index k i : nat) (entry : Comparison) :
  (mockComparisons rng destinations index k).1 !! i = Some entry ->
  destinations !! i = Some (destination entry)
  /\ overallScore entry = 80 + inject_Z (Z.of_nat (index + i)) * 5.
Proof.
  revert index k i.
  induction destinations as [|dest rest IH]; intros index k i; [discriminate|].
  cbn [mockComparisons Math_random].
  specialize (IH (S index) (S k)).
  destruct (mockComparisons rng rest (S index) (S k)) as [entries k2].
  destruct i as [|i]; cbn [fst].
  - intros [= <-]. cbn. now rewrite Nat.add_0_r.
  - intros H. apply IH in H as [Hd Hs]. split; [exact Hd|].
    rewrite Hs. now replace (S index + i)%nat with (index + S i)%nat by lia.
Qed.

Lemma mockComparisons_length (rng : nat -> Q) (destinations : list string)
    (index k : nat) :
  length (mockComparisons rng destinations index k).1 = length destinations.
Proof.
  revert index k.
  induction destinations as [|dest rest IH]; intros index k; [reflexivity|].
  cbn [mockComparisons Math_random].
  specialize (IH (S index) (S k)).
  destruct (mockComparisons rng rest (S index) (S k)) as [entries k2].
  cbn in *. now rewrite IH.
Qed.

(** X24: the compare-destinations route of the HTTP front end answers
    with one entry per destination, in input order, whose score is 80
    plus 5 for each place down the list: the scores rise along the list
    instead of falling, and from the sixth destination on they are above
    100. *)
Theorem http_compare_scores_rise (rng : nat -> Q) (destinations : list string)
    (criteria : option (list string)) (k : nat) :
  let entries := (compareDestinations rng destinations criteria k).1 in
  length entries = length destinations
  /\ (forall i entry, entries !! i = Some entry ->
        destinations !! i = Some (destination entry)
        /\ overallScore entry == 80 + 5 * inject_Z (Z.of_nat i))
  /\ (forall i j a b, (i < j)%nat ->
        entries !! i = Some a -> entries !! j = Some b ->
        overallScore a < overallScore b)
  /\ (forall i entry, (5 <= i)%nat -> entries !! i = Some entry ->
        100 < overallScore entry).
Proof.
  cbv zeta. unfold compareDestinations.
  split; [apply mockComparisons_length|].
  assert (S : forall i entry,
             (mockComparisons rng destinations 0 k).1 !! i = Some entry ->
             overallScore entry == 80 + 5 * inject_Z (Z.of_nat i)).
  { intros i entry H. apply mockComparisons_lookup in H as [_ ->].
    cbn [Nat.add]. ring. }
  split; [|split].
  - intros i entry H. split; [|now apply S].
    now apply mockComparisons_lookup in H as [Hd _].
  - intros i j a b Hij Ha Hb. rewrite (S _ _ Ha), (S _ _ Hb).
    assert (inject_Z (Z.of_nat i) < inject_Z (Z.of_nat j))
      by (rewrite <- Zlt_Qlt; lia).
    lra.
  - intros i entry Hi He. rewrite (S _ _ He).
    assert (inject_Z 5 <= inject_Z (Z.of_nat i))
      by (rewrite <- Zle_Qle; lia).
    change (inject_Z 5) with 5 in *. lra.
Qed.

Example http_compare_six :
  map overallScore
    (compareDestinations (fun _ => 0)
       ["A"; "B"; "C"; "D"; "E"; "F"]%string None 0%nat).1
  = [80 + 0 * 5; 80 + 1 * 5; 80 + 2 * 5; 80 + 3 * 5; 80 + 4 * 5; 80 + 5 * 5].
Proof. reflexivity. Qed.

End HttpCompare.

Lemma http_compare_scores_rise_witness :
  exists entry,
    (HttpApi.compareDestinations (fun _ => 0%Q)
       ["A"; "B"; "C"; "D"; "E"; "F"]%string None 0).1 !! 5 = Some entry
    /\ (100 < HttpApi.overallScore entry)%Q.
Proof.
  eexists. split; [reflexivity|].
  apply (proj2 (proj2 (proj2
           (http_compare_scores_rise (fun _ => 0%Q)
              ["A"; "B"; "C"; "D"; "E"; "F"]%string None 0))) 5).
  - lia.
  - reflexivity.
Defined.
